(** * Usage report generator of the Bedrock monitoring scripts

    A shallow embedding of [scripts/6-usage-report.py] (with the helpers it
    takes from [src/utils.py] and [src/config.py]) and the properties of
    its report builder, formatter, aggregator and command line validation.

    Conventions of the embedding.
    - A Python [int] is a [Z].  A Python [float] is idealised as an exact
      rational ([Q]): binary64 rounding error, overflow to infinity and NaN
      are outside the model, and every statement about a float-valued field
      is a statement in exact arithmetic, up to [Qeq].
    - A Python number whose dynamic type depends on the path taken ([0]
      versus [0.0], [int * int] versus [int * float]) is a [pynum].
    - A Python [str] is a [string]; each character is read as a code point
      below 256.
    - A Python [dict] is an association list in insertion order with
      pairwise distinct keys ([wf_dict]).
    - A raised exception is a [Raise e] result; [try]/[except] is a match
      on it. *)

From Stdlib Require Import ZArith QArith Qround Qabs List String Ascii Bool Lia Lqa.
From Stdlib Require Import Decimal DecimalString.
From Stdlib Require DecimalFacts DecimalPos DecimalZ.
Import ListNotations.

(* ===================================================================== *)
(** * Part I: the embedding                                               *)
(* ===================================================================== *)

(** ** Exceptions and results *)

Module Py.

(** The exception classes the script raises, catches or can receive from
    the libraries it calls.  All of them derive from [Exception]. *)
Inductive exn : Type :=
| ZeroDivisionError
| ValueError (msg : string)
| OverflowError
| KeyError (key : string)
| RuntimeError (msg : string)
| NoCredentialsError
| ClientError (code : string)
| OtherException (name : string).

Inductive result (A : Type) : Type :=
| Ok (a : A)
| Raise (e : exn).

Arguments Ok {A} a.
Arguments Raise {A} e.

Definition bind {A B} (r : result A) (k : A -> result B) : result B :=
  match r with
  | Ok a => k a
  | Raise e => Raise e
  end.

Declare Scope py_scope.
Delimit Scope py_scope with py.
Notation "x <- r ;; k" := (bind r (fun x => k))
  (at level 61, r at next level, right associativity) : py_scope.

Local Open Scope py_scope.
Local Open Scope Q_scope.

(** [[f(x) for x in xs]] for an [f] that can raise: left to right, the
    first exception ends the comprehension. *)
Fixpoint mapM {A B} (f : A -> result B) (xs : list A) : result (list B) :=
  match xs with
  | [] => Ok []
  | x :: xs' =>
      y <- f x ;;
      ys <- mapM f xs' ;;
      Ok (y :: ys)
  end.

Definition is_ok {A} (r : result A) : bool :=
  match r with Ok _ => true | Raise _ => false end.

(** ** Numbers *)

(** A number with its dynamic type. *)
Inductive pynum : Type :=
| PyInt (z : Z)
| PyFloat (q : Q).

Definition to_Q (x : pynum) : Q :=
  match x with
  | PyInt z => inject_Z z
  | PyFloat q => q
  end.

(** [a + b] and [a * b]: [int] with [int] stays [int], anything else is a
    [float]. *)
Definition add (a b : pynum) : pynum :=
  match a, b with
  | PyInt x, PyInt y => PyInt (x + y)%Z
  | _, _ => PyFloat (to_Q a + to_Q b)
  end.

Definition mul (a b : pynum) : pynum :=
  match a, b with
  | PyInt x, PyInt y => PyInt (x * y)%Z
  | _, _ => PyFloat (to_Q a * to_Q b)
  end.

(** [a / b]: true division, always a [float]; a zero divisor raises. *)
Definition truediv (a b : pynum) : result pynum :=
  if Qeq_bool (to_Q b) 0 then Raise ZeroDivisionError
  else Ok (PyFloat (to_Q a / to_Q b)).

(** [sum(xs)]: a left fold from the [int] 0. *)
Definition sum (xs : list pynum) : pynum := fold_left add xs (PyInt 0).

Definition sumZ (xs : list Z) : Z := fold_left Z.add xs 0%Z.

(** [max(xs)] on a non-empty list of floats: the first largest element. *)
Fixpoint max_from (best : Q) (xs : list Q) : Q :=
  match xs with
  | [] => best
  | x :: xs' => max_from (if Qlt_le_dec best x then x else best) xs'
  end.

Definition max (xs : list Q) : result Q :=
  match xs with
  | [] => Raise (ValueError "max() arg is an empty sequence")
  | x :: xs' => Ok (max_from x xs')
  end.

(** [int(x)] truncates a float toward zero. *)
Definition Qtrunc (q : Q) : Z := Z.quot (Qnum q) (Zpos (Qden q)).

Definition int (x : pynum) : Z :=
  match x with
  | PyInt z => z
  | PyFloat q => Qtrunc q
  end.

(** Rounding to the nearest integer, ties to the even one. *)
Definition round_half_even (x : Q) : Z :=
  let f := Qfloor x in
  match Qcompare (x - inject_Z f) (1 # 2) with
  | Lt => f
  | Gt => (f + 1)%Z
  | Eq => if Z.even f then f else (f + 1)%Z
  end.

Definition pow10 (n : nat) : Q := inject_Z (10 ^ Z.of_nat n).

(** [round(x, ndigits)] on a float. *)
Definition round_float (x : Q) (ndigits : nat) : Q :=
  inject_Z (round_half_even (x * pow10 ndigits)) / pow10 ndigits.

(** [round(x, ndigits)] with [ndigits > 0]: an [int] is returned as it is. *)
Definition round (x : pynum) (ndigits : nat) : pynum :=
  match x with
  | PyInt z => PyInt z
  | PyFloat q => PyFloat (round_float q ndigits)
  end.

(** ** Dictionaries *)

Definition dict (V : Type) : Type := list (string * V).

Definition keys {V} (d : dict V) : list string := map fst d.
Definition values {V} (d : dict V) : list V := map snd d.
Definition items {V} (d : dict V) : list (string * V) := d.

Definition wf_dict {V} (d : dict V) : Prop := NoDup (keys d).

(** [k in d] *)
Fixpoint contains {V} (d : dict V) (k : string) : bool :=
  match d with
  | [] => false
  | (k', _) :: d' => if String.eqb k k' then true else contains d' k
  end.

(** [d[k]] *)
Fixpoint getitem {V} (d : dict V) (k : string) : result V :=
  match d with
  | [] => Raise (KeyError k)
  | (k', v) :: d' => if String.eqb k k' then Ok v else getitem d' k
  end.

(** [d[k] = v]: an existing key keeps its position. *)
Fixpoint setitem {V} (d : dict V) (k : string) (v : V) : dict V :=
  match d with
  | [] => [(k, v)]
  | (k', v') :: d' =>
      if String.eqb k k' then (k, v) :: d' else (k', v') :: setitem d' k v
  end.

End Py.

Import Py.
Local Open Scope py_scope.
Local Open Scope string_scope.
Local Open Scope Q_scope.

(** ** [ModelUsage] *)

Record ModelUsage : Type := {
  invocations : Z;
  input_tokens : Z;
  output_tokens : Z;
  total_latency : Q;
  error_count : Z
}.

(** The [avg_latency] property. *)
Definition avg_latency (self : ModelUsage) : result pynum :=
  if (invocations self >? 0)%Z
  then truediv (PyFloat (total_latency self)) (PyInt (invocations self))
  else Ok (PyFloat 0.0).

(** ** [BedrockPricing] *)

Module BedrockPricing.

Record entry : Type := { input : Q; output : Q }.

Definition PRICING : dict entry :=
  [ ("anthropic.claude-3-sonnet-20240229-v1:0", {| input := 0.003; output := 0.015 |});
    ("anthropic.claude-3-opus-20240229-v1:0", {| input := 0.015; output := 0.075 |});
    ("anthropic.claude-3-haiku-20240307-v1:0", {| input := 0.00025; output := 0.00125 |});
    ("anthropic.claude-instant-v1", {| input := 0.0008; output := 0.0024 |}) ].

Definition calculate_cost (model_id : string) (input_tokens output_tokens : Z)
  : result pynum :=
  pricing <- (if negb (contains PRICING model_id)
              then getitem PRICING "anthropic.claude-3-sonnet-20240229-v1:0"
              else getitem PRICING model_id) ;;
  a <- truediv (PyInt input_tokens) (PyInt 1000) ;;
  let input_cost := mul a (PyFloat (input pricing)) in
  b <- truediv (PyInt output_tokens) (PyInt 1000) ;;
  let output_cost := mul b (PyFloat (output pricing)) in
  Ok (add input_cost output_cost).

(** The cost formula in the words of the specification, for one pricing
    entry: (inputTokens/1000) x inputPrice + (outputTokens/1000) x
    outputPrice. *)
Definition spec_cost (p : entry) (input_tokens output_tokens : Z) : Q :=
  (inject_Z input_tokens / 1000) * input p
  + (inject_Z output_tokens / 1000) * output p.

(** The designated default tier: the Sonnet entry. *)
Definition default_entry : entry := {| input := 0.003; output := 0.015 |}.

End BedrockPricing.

(** ** [UsageReport] *)

Record Period : Type := {
  startTime : string;
  endTime : string;
  durationHours : Z
}.

Record Summary : Type := {
  totalInvocations : Z;
  totalInputTokens : Z;
  totalOutputTokens : Z;
  estimatedCost : pynum
}.

Record ModelSummary : Type := {
  m_invocations : Z;
  m_inputTokens : Z;
  m_outputTokens : Z;
  m_cost : pynum;
  m_avgLatency : pynum;
  m_errorCount : Z
}.

Record Projections : Type := {
  monthlyInvocations : Z;
  monthlyCost : pynum
}.

Record Performance : Type := {
  avgLatency : pynum;
  p99Latency : pynum;
  errorCount : Z;
  errorRate : pynum
}.

Record UsageReport : Type := {
  period : Period;
  summary : Summary;
  by_model : dict ModelSummary;
  projections : Projections;
  performance : Performance
}.

(** ** The report builder

    [build_report] is the body of [UsageReportGenerator.generate_report]
    from the summary statistics on: everything the method does once
    [get_metrics_data] has returned [model_usage] and the two time stamps
    have been formatted. *)

(** One pass of the loop that fills [by_model]. *)
Definition by_model_step (acc : dict ModelSummary) (item : string * ModelUsage)
  : result (dict ModelSummary) :=
  let (model_id, usage) := item in
  cost <- BedrockPricing.calculate_cost model_id (input_tokens usage) (output_tokens usage) ;;
  lat <- avg_latency usage ;;
  Ok (setitem acc model_id
        {| m_invocations := invocations usage;
           m_inputTokens := input_tokens usage;
           m_outputTokens := output_tokens usage;
           m_cost := round cost 4;
           m_avgLatency := round lat 3;
           m_errorCount := error_count usage |}).

Fixpoint by_model_loop (acc : dict ModelSummary) (its : list (string * ModelUsage))
  : result (dict ModelSummary) :=
  match its with
  | [] => Ok acc
  | item :: its' =>
      acc' <- by_model_step acc item ;;
      by_model_loop acc' its'
  end.

Definition weighted_latency (usage : ModelUsage) : result pynum :=
  lat <- avg_latency usage ;;
  Ok (mul lat (PyInt (invocations usage))).

Definition build_report (model_usage : dict ModelUsage) (hours : Z)
    (start_iso end_iso : string) : result UsageReport :=
  (* Calculate summary statistics *)
  let total_invocations := sumZ (map invocations (values model_usage)) in
  let total_input_tokens := sumZ (map input_tokens (values model_usage)) in
  let total_output_tokens := sumZ (map output_tokens (values model_usage)) in
  costs <- mapM (fun it : string * ModelUsage =>
                   BedrockPricing.calculate_cost (fst it)
                     (input_tokens (snd it)) (output_tokens (snd it)))
                (items model_usage) ;;
  let total_cost := sum costs in
  (* Calculate performance statistics *)
  let all_latencies :=
    map total_latency
        (filter (fun usage => (invocations usage >? 0)%Z) (values model_usage)) in
  avg_latency <-
    (if (total_invocations >? 0)%Z
     then ws <- mapM weighted_latency (values model_usage) ;;
          truediv (sum ws) (PyInt total_invocations)
     else Ok (PyInt 0)) ;;
  let total_errors := sumZ (map error_count (values model_usage)) in
  error_rate <-
    (if (total_invocations >? 0)%Z
     then r <- truediv (PyInt total_errors) (PyInt total_invocations) ;;
          Ok (mul r (PyInt 100))
     else Ok (PyInt 0)) ;;
  (* Calculate p99 latency (simplified approximation) *)
  p99_latency <-
    (match all_latencies with
     | [] => Ok (PyInt 0)
     | _ :: _ => m <- max all_latencies ;; Ok (PyFloat m)
     end) ;;
  (* Generate monthly projections *)
  let hours_in_month := (24 * 30)%Z in
  projection_multiplier <-
    (if (hours >? 0)%Z
     then truediv (PyInt hours_in_month) (PyInt hours)
     else Ok (PyInt 0)) ;;
  let monthly_invocations := int (mul (PyInt total_invocations) projection_multiplier) in
  let monthly_cost := mul total_cost projection_multiplier in
  (* Build by-model breakdown *)
  by_model <- by_model_loop [] (items model_usage) ;;
  (* Create report structure *)
  Ok {| period := {| startTime := start_iso;
                     endTime := end_iso;
                     durationHours := hours |};
        summary := {| totalInvocations := total_invocations;
                      totalInputTokens := total_input_tokens;
                      totalOutputTokens := total_output_tokens;
                      estimatedCost := round total_cost 4 |};
        by_model := by_model;
        projections := {| monthlyInvocations := monthly_invocations;
                          monthlyCost := round monthly_cost 2 |};
        performance := {| avgLatency := round avg_latency 3;
                          p99Latency := round p99_latency 3;
                          errorCount := total_errors;
                          errorRate := round error_rate 2 |} |}.

(** ** Strings and number formatting *)

Module Fmt.

Definition nl : string := String "010"%char "".

(** [str(n)] for an [int]. *)
Definition str_int (z : Z) : string := NilZero.string_of_int (Z.to_int z).

(** ["c" * n] *)
Fixpoint repeat_char (c : ascii) (n : nat) : string :=
  match n with
  | O => ""
  | S n' => String c (repeat_char c n')
  end.

(** [s.lower()] on code points below 256: the letters A-Z and the
    Latin-1 capitals U+00C0-U+00DE (the sign U+00D7 apart) move up by 32. *)
Definition lower_char (c : ascii) : ascii :=
  let n := nat_of_ascii c in
  if ((65 <=? n) && (n <=? 90))%nat then ascii_of_nat (n + 32)
  else if ((192 <=? n) && (n <=? 222) && negb (n =? 215))%nat then ascii_of_nat (n + 32)
  else c.

Fixpoint lower (s : string) : string :=
  match s with
  | EmptyString => EmptyString
  | String c s' => String (lower_char c) (lower s')
  end.

(** Digits in groups of three, on the reversed digit list. *)
Fixpoint commas_rev (ds : list ascii) : list ascii :=
  match ds with
  | a :: b :: c :: ((_ :: _) as rest) => a :: b :: c :: ","%char :: commas_rev rest
  | _ => ds
  end.

(** [f"{z:,}"] *)
Definition format_commas (z : Z) : string :=
  let digits := list_ascii_of_string (str_int (Z.abs z)) in
  ((if (z <? 0)%Z then "-" else "")
   ++ string_of_list_ascii (List.rev (commas_rev (List.rev digits))))%string.

Definition is_lower_az (c : ascii) : bool :=
  let n := nat_of_ascii c in ((97 <=? n) && (n <=? 122))%nat.

Definition is_digit (c : ascii) : bool :=
  let n := nat_of_ascii c in ((48 <=? n) && (n <=? 57))%nat.

(** The longest prefix of characters that satisfy [p], and the rest. *)
Fixpoint span (p : ascii -> bool) (s : string) : string * string :=
  match s with
  | EmptyString => ("", "")
  | String c s' =>
      if p c then let (a, b) := span p s' in (String c a, b)
      else ("", s)
  end.

Fixpoint all_digits (s : string) : bool :=
  match s with
  | EmptyString => true
  | String c s' => is_digit c && all_digits s'
  end.

Definition digit_char (d : Z) : ascii := ascii_of_nat (48 + Z.to_nat d).

(** The [n] decimal digits of [f], for [0 <= f < 10^n], leading zeros
    included. *)
Fixpoint frac_digits (n : nat) (f : Z) : string :=
  match n with
  | O => ""
  | S n' =>
      String (digit_char (f / 10 ^ Z.of_nat n'))
             (frac_digits n' (f mod 10 ^ Z.of_nat n'))
  end.

(** [f"{x:.nf}"]: [n] decimals, ties to even, the sign of [x] kept even
    when every printed digit is zero. *)
Definition format_fixed (x : Q) (n : nat) : string :=
  let r := Z.abs (round_half_even (x * pow10 n)) in
  let p := (10 ^ Z.of_nat n)%Z in
  ((if Qlt_le_dec x 0 then "-" else "")
   ++ str_int (r / p)
   ++ (match n with
       | O => ""
       | S _ => "." ++ frac_digits n (r mod p)
       end))%string.

Definition format_f (x : pynum) (n : nat) : string := format_fixed (to_Q x) n.

Definition is_integral (x : Q) : bool := Qeq_bool (inject_Z (Qfloor x)) x.

(** The number of decimals [repr] needs: the least [k >= 1] for which
    [x * 10^k] is an integer, looked for among the first [fuel] values. *)
Fixpoint decimals_from (fuel k : nat) (x : Q) : nat :=
  match fuel with
  | O => k
  | S fuel' =>
      if is_integral (x * pow10 k) then k
      else decimals_from fuel' (S k) x
  end.

(** [repr(x)] for a float, in positional notation: the shortest decimal
    that denotes [x], with at least one decimal. *)
Definition repr_float (x : Q) : string := format_fixed x (decimals_from 16 1 x).

(** [model_id.split('.')[-1] if '.' in model_id else model_id] *)
Fixpoint last_segment (cur s : string) : string :=
  match s with
  | EmptyString => cur
  | String c s' =>
      if Ascii.eqb c "."%char then last_segment "" s'
      else last_segment (cur ++ String c "") s'
  end.

End Fmt.

(** ** JSON values and [json.dumps(..., indent=2)] *)

Module Json.

#[local] Set Warnings "-register-all".

Inductive json : Type :=
| JInt (z : Z)
| JFloat (q : Q)
| JStr (s : string)
| JObj (members : list (string * json)).

Definition of_num (x : pynum) : json :=
  match x with
  | PyInt z => JInt z
  | PyFloat q => JFloat q
  end.

Definition hex_digit (n : nat) : ascii :=
  if (n <? 10)%nat then ascii_of_nat (48 + n) else ascii_of_nat (87 + n).

Definition dquote : ascii := "034"%char.
Definition backslash : ascii := "092"%char.

Definition esc (c : ascii) : string := String backslash (String c "").

(** One character of a string literal under [ensure_ascii]: the quote,
    the backslash and everything outside space..tilde are escaped. *)
Definition escape_char (c : ascii) : string :=
  let n := nat_of_ascii c in
  if (n =? 34)%nat then esc dquote
  else if (n =? 92)%nat then esc backslash
  else if (n =? 10)%nat then esc "n"%char
  else if (n =? 13)%nat then esc "r"%char
  else if (n =? 9)%nat then esc "t"%char
  else if (n =? 12)%nat then esc "f"%char
  else if (n =? 8)%nat then esc "b"%char
  else if ((32 <=? n) && (n <=? 126))%nat then String c ""
  else String backslash (String "u"%char (String "0"%char (String "0"%char
         (String (hex_digit (n / 16)) (String (hex_digit (n mod 16)) ""))))).

Fixpoint escape (s : string) : string :=
  match s with
  | EmptyString => EmptyString
  | String c s' => (escape_char c ++ escape s')%string
  end.

Definition quote (s : string) : string :=
  (String dquote (escape s) ++ String dquote "")%string.

Definition newline_indent (level : nat) : string :=
  (Fmt.nl ++ Fmt.repeat_char " "%char (2 * level))%string.

Fixpoint dumps_at (level : nat) (j : json) : string :=
  match j with
  | JInt z => Fmt.str_int z
  | JFloat q => Fmt.repr_float q
  | JStr s => quote s
  | JObj [] => "{}"
  | JObj ((k0, v0) :: rest) =>
      ("{" ++ newline_indent (S level)
       ++ quote k0 ++ ": " ++ dumps_at (S level) v0
       ++ (fix members (kvs : list (string * json)) : string :=
             match kvs with
             | [] => ""
             | (k, v) :: kvs' =>
                 "," ++ newline_indent (S level)
                 ++ quote k ++ ": " ++ dumps_at (S level) v ++ members kvs'
             end) rest
       ++ newline_indent level ++ "}")%string
  end.

(** [json.dumps(j, indent=2)] *)
Definition dumps (j : json) : string := dumps_at 0 j.

(** ** [json.loads]

    The decoder, for the documents the encoder above can produce and
    their variations in white space, escapes and number syntax: objects,
    strings and numbers.  Arrays and the literals [true], [false] and
    [null] are rejected, as is a [\u] escape of 256 or more.  [fuel]
    bounds the nesting and the number of members; [loads] provides more
    than any document needs. *)

Definition is_ws (c : ascii) : bool :=
  let n := nat_of_ascii c in
  ((n =? 32) || (n =? 9) || (n =? 10) || (n =? 13))%nat.

Fixpoint skip_ws (s : string) : string :=
  match s with
  | EmptyString => EmptyString
  | String c s' => if is_ws c then skip_ws s' else s
  end.

Definition hex_val (c : ascii) : option nat :=
  let n := nat_of_ascii c in
  if ((48 <=? n) && (n <=? 57))%nat then Some (n - 48)%nat
  else if ((97 <=? n) && (n <=? 102))%nat then Some (n - 87)%nat
  else if ((65 <=? n) && (n <=? 70))%nat then Some (n - 55)%nat
  else None.

(** The character a backslash escape stands for. *)
Definition unescape (c : ascii) : option ascii :=
  let n := nat_of_ascii c in
  if (n =? 34)%nat then Some dquote
  else if (n =? 92)%nat then Some backslash
  else if (n =? 47)%nat then Some "/"%char
  else if (n =? 98)%nat then Some (ascii_of_nat 8)
  else if (n =? 102)%nat then Some (ascii_of_nat 12)
  else if (n =? 110)%nat then Some (ascii_of_nat 10)
  else if (n =? 114)%nat then Some (ascii_of_nat 13)
  else if (n =? 116)%nat then Some (ascii_of_nat 9)
  else None.

Definition cons_char (c : ascii) (r : option (string * string))
  : option (string * string) :=
  match r with
  | Some (t, rest) => Some (String c t, rest)
  | None => None
  end.

(** A string literal after its opening quote: the decoded text and what
    follows the closing quote. *)
Fixpoint parse_string_body (s : string) : option (string * string) :=
  match s with
  | EmptyString => None
  | String c s1 =>
      if Ascii.eqb c dquote then Some (EmptyString, s1)
      else if Ascii.eqb c backslash then
        match s1 with
        | EmptyString => None
        | String e s2 =>
            if Ascii.eqb e "u"%char then
              match s2 with
              | String h1 (String h2 (String h3 (String h4 s3))) =>
                  match hex_val h1, hex_val h2, hex_val h3, hex_val h4 with
                  | Some a, Some b, Some c', Some d =>
                      let n := (((a * 16 + b) * 16 + c') * 16 + d)%nat in
                      if (n <? 256)%nat
                      then cons_char (ascii_of_nat n) (parse_string_body s3)
                      else None
                  | _, _, _, _ => None
                  end
              | _ => None
              end
            else
              match unescape e with
              | Some ch => cons_char ch (parse_string_body s2)
              | None => None
              end
        end
      else if (nat_of_ascii c <? 32)%nat then None
      else cons_char c (parse_string_body s1)
  end.

(** The value of a string of decimal digits. *)
Fixpoint digits_value_from (acc : Z) (ds : string) : Z :=
  match ds with
  | EmptyString => acc
  | String c ds' =>
      digits_value_from (acc * 10 + (Z.of_nat (nat_of_ascii c) - 48))%Z ds'
  end.

Definition digits_value (ds : string) : Z := digits_value_from 0 ds.

(** The integer part of a number: [0], or a non-zero digit and more
    digits. *)
Definition scan_int_part (s : string) : option (string * string) :=
  match s with
  | String c r =>
      if Ascii.eqb c "0"%char then Some (String c "", r)
      else if Fmt.is_digit c then Some (Fmt.span Fmt.is_digit s)
      else None
  | EmptyString => None
  end.

(** The optional fraction: a point and at least one digit. *)
Definition scan_fraction (s : string) : option string * string :=
  match s with
  | String c r =>
      if Ascii.eqb c "."%char then
        let (ds, r') := Fmt.span Fmt.is_digit r in
        match ds with
        | EmptyString => (None, s)
        | String _ _ => (Some ds, r')
        end
      else (None, s)
  | EmptyString => (None, s)
  end.

Definition scan_sign (s : string) : bool * string :=
  match s with
  | String c r =>
      if Ascii.eqb c "-"%char then (true, r)
      else if Ascii.eqb c "+"%char then (false, r)
      else (false, s)
  | EmptyString => (false, s)
  end.

(** The optional exponent: [e] or [E], an optional sign and at least one
    digit. *)
Definition scan_exponent (s : string) : option Z * string :=
  match s with
  | String c r =>
      if Ascii.eqb c "e"%char || Ascii.eqb c "E"%char then
        let (neg, r1) := scan_sign r in
        let (ds, r2) := Fmt.span Fmt.is_digit r1 in
        match ds with
        | EmptyString => (None, s)
        | String _ _ =>
            (Some (if neg then (- digits_value ds)%Z else digits_value ds), r2)
        end
      else (None, s)
  | EmptyString => (None, s)
  end.

(** A number: an [int] when it has neither fraction nor exponent, a
    [float] otherwise. *)
Definition parse_number (s : string) : option (json * string) :=
  let (neg, s1) :=
    match s with
    | String c r => if Ascii.eqb c "-"%char then (true, r) else (false, s)
    | EmptyString => (false, s)
    end in
  match scan_int_part s1 with
  | None => None
  | Some (ids, s2) =>
      let (frac, s3) := scan_fraction s2 in
      let (exp, s4) := scan_exponent s3 in
      match frac, exp with
      | None, None =>
          Some (JInt (if neg then (- digits_value ids)%Z else digits_value ids), s4)
      | _, _ =>
          let f := match frac with
                   | Some fds =>
                       inject_Z (digits_value fds) / pow10 (String.length fds)
                   | None => 0
                   end in
          let e := match exp with Some e => e | None => 0%Z end in
          let v := (inject_Z (digits_value ids) + f) * Qpower 10 e in
          Some (JFloat (if neg then - v else v), s4)
      end
  end.

(** A key that is repeated keeps its first position and its last value. *)
Definition add_member (members : list (string * json)) (k : string) (v : json)
  : list (string * json) := setitem members k v.

Fixpoint parse_value (fuel : nat) (s : string) : option (json * string) :=
  match fuel with
  | O => None
  | S fuel' =>
      match s with
      | EmptyString => None
      | String c r =>
          if Ascii.eqb c "{"%char then
            match skip_ws r with
            | String c' r' =>
                if Ascii.eqb c' "}"%char then Some (JObj [], r')
                else parse_members fuel' [] (skip_ws r)
            | EmptyString => None
            end
          else if Ascii.eqb c dquote then
            match parse_string_body r with
            | Some (t, rest) => Some (JStr t, rest)
            | None => None
            end
          else parse_number s
      end
  end

(** The members of an object, from the quote of a key on. *)
with parse_members (fuel : nat) (acc : list (string * json)) (s : string)
  : option (json * string) :=
  match fuel with
  | O => None
  | S fuel' =>
      match s with
      | String c r =>
          if Ascii.eqb c dquote then
            match parse_string_body r with
            | Some (k, r1) =>
                match skip_ws r1 with
                | String c1 r2 =>
                    if Ascii.eqb c1 ":"%char then
                      match parse_value fuel' (skip_ws r2) with
                      | Some (v, r3) =>
                          let acc' := add_member acc k v in
                          match skip_ws r3 with
                          | String c2 r4 =>
                              if Ascii.eqb c2 ","%char
                              then parse_members fuel' acc' (skip_ws r4)
                              else if Ascii.eqb c2 "}"%char
                              then Some (JObj acc', r4)
                              else None
                          | EmptyString => None
                          end
                      | None => None
                      end
                    else None
                | EmptyString => None
                end
            | None => None
            end
          else None
      | EmptyString => None
      end
  end.

(** What may follow a number in a document: not a digit, a point or an
    exponent mark. *)
Definition number_end (rest : string) : bool :=
  match rest with
  | EmptyString => true
  | String c _ =>
      negb (Fmt.is_digit c || Ascii.eqb c "."%char
            || Ascii.eqb c "e"%char || Ascii.eqb c "E"%char)
  end.

(** [json.loads(s)]; [None] stands for [JSONDecodeError]. *)
Definition loads (s : string) : option json :=
  match parse_value (S (String.length s)) (skip_ws s) with
  | Some (v, rest) =>
      match skip_ws rest with
      | EmptyString => Some v
      | String _ _ => None
      end
  | None => None
  end.

(** Equality of documents, with numbers compared by value. *)
Fixpoint json_eq (a b : json) : Prop :=
  match a, b with
  | JInt x, JInt y => x = y
  | JFloat x, JFloat y => x == y
  | JStr x, JStr y => x = y
  | JObj xs, JObj ys =>
      (fix members_eq (xs ys : list (string * json)) : Prop :=
         match xs, ys with
         | [], [] => True
         | (k, v) :: xs', (k', v') :: ys' =>
             k = k' /\ json_eq v v' /\ members_eq xs' ys'
         | _, _ => False
         end) xs ys
  | _, _ => False
  end.

(** The text of the members after the first one of an object. *)
Fixpoint members_text (level : nat) (kvs : list (string * json)) : string :=
  match kvs with
  | [] => ""
  | (k, v) :: kvs' =>
      ("," ++ newline_indent (S level)
       ++ quote k ++ ": " ++ dumps_at (S level) v ++ members_text level kvs')%string
  end.

(** The fuel the decoder uses on the encoding of a document. *)
Fixpoint need (j : json) : nat :=
  match j with
  | JObj kvs =>
      S (fold_right (fun kv acc => S (Nat.max (need (snd kv)) acc)) O kvs)
  | _ => 1%nat
  end.

Definition members_need (kvs : list (string * json)) : nat :=
  fold_right (fun kv acc => S (Nat.max (need (snd kv)) acc)) O kvs.

(** A float with at most 16 decimals: the ones whose positional [repr]
    is exact. *)
Definition decimal16 (q : Q) : Prop := Fmt.is_integral (q * pow10 16) = true.

(** Documents the encoder writes without loss: floats with at most 16
    decimals, distinct keys in every object. *)
Fixpoint plain (j : json) : Prop :=
  match j with
  | JFloat q => decimal16 q
  | JObj kvs =>
      NoDup (map fst kvs)
      /\ fold_right (fun kv acc => plain (snd kv) /\ acc) True kvs
  | _ => True
  end.

Definition member_eq (a b : string * json) : Prop :=
  fst a = fst b /\ json_eq (snd a) (snd b).

End Json.

(** ** The report formatter *)

Import Json.

Definition asdict_model (m : ModelSummary) : json :=
  JObj [ ("invocations", JInt (m_invocations m));
         ("inputTokens", JInt (m_inputTokens m));
         ("outputTokens", JInt (m_outputTokens m));
         ("cost", of_num (m_cost m));
         ("avgLatency", of_num (m_avgLatency m));
         ("errorCount", JInt (m_errorCount m)) ].

(** [dataclasses.asdict(report)] *)
Definition asdict (report : UsageReport) : json :=
  JObj [ ("period",
          JObj [ ("startTime", JStr (startTime (period report)));
                 ("endTime", JStr (endTime (period report)));
                 ("durationHours", JInt (durationHours (period report))) ]);
         ("summary",
          JObj [ ("totalInvocations", JInt (totalInvocations (summary report)));
                 ("totalInputTokens", JInt (totalInputTokens (summary report)));
                 ("totalOutputTokens", JInt (totalOutputTokens (summary report)));
                 ("estimatedCost", of_num (estimatedCost (summary report))) ]);
         ("by_model",
          JObj (map (fun kv : string * ModelSummary => (fst kv, asdict_model (snd kv)))
                    (by_model report)));
         ("projections",
          JObj [ ("monthlyInvocations", JInt (monthlyInvocations (projections report)));
                 ("monthlyCost", of_num (monthlyCost (projections report))) ]);
         ("performance",
          JObj [ ("avgLatency", of_num (avgLatency (performance report)));
                 ("p99Latency", of_num (p99Latency (performance report)));
                 ("errorCount", JInt (errorCount (performance report)));
                 ("errorRate", of_num (errorRate (performance report))) ]) ].

Definition text_model_block (kv : string * ModelSummary) : list string :=
  let (model_id, usage) := kv in
  let model_name := Fmt.last_segment "" model_id in
  [ (Fmt.nl ++ model_name ++ ":")%string;
    ("  Invocations:     " ++ Fmt.format_commas (m_invocations usage))%string;
    ("  Input Tokens:    " ++ Fmt.format_commas (m_inputTokens usage))%string;
    ("  Output Tokens:   " ++ Fmt.format_commas (m_outputTokens usage))%string;
    ("  Cost:            $" ++ Fmt.format_f (m_cost usage) 4)%string;
    ("  Avg Latency:     " ++ Fmt.format_f (m_avgLatency usage) 3 ++ "s")%string;
    ("  Errors:          " ++ Fmt.str_int (m_errorCount usage))%string ].

Definition _format_text_report (report : UsageReport) : string :=
  let lines :=
   ([ Fmt.repeat_char "="%char 60;
      "AWS BEDROCK USAGE REPORT";
      Fmt.repeat_char "="%char 60;
      "";
      (* Period information *)
      ("Report Period: " ++ Fmt.str_int (durationHours (period report)) ++ " hours")%string;
      ("From: " ++ startTime (period report))%string;
      ("To:   " ++ endTime (period report))%string;
      "";
      (* Summary *)
      "SUMMARY";
      Fmt.repeat_char "-"%char 20;
      ("Total Invocations:    " ++ Fmt.format_commas (totalInvocations (summary report)))%string;
      ("Total Input Tokens:   " ++ Fmt.format_commas (totalInputTokens (summary report)))%string;
      ("Total Output Tokens:  " ++ Fmt.format_commas (totalOutputTokens (summary report)))%string;
      ("Estimated Cost:       $" ++ Fmt.format_f (estimatedCost (summary report)) 4)%string;
      "";
      (* Performance *)
      "PERFORMANCE";
      Fmt.repeat_char "-"%char 20;
      ("Average Latency:      " ++ Fmt.format_f (avgLatency (performance report)) 3 ++ "s")%string;
      ("P99 Latency:          " ++ Fmt.format_f (p99Latency (performance report)) 3 ++ "s")%string;
      ("Error Count:          " ++ Fmt.str_int (errorCount (performance report)))%string;
      ("Error Rate:           " ++ Fmt.format_f (errorRate (performance report)) 2 ++ "%")%string;
      "" ]
    (* By model breakdown *)
    ++ (match by_model report with
        | [] => []
        | _ :: _ =>
            [ "BY MODEL"; Fmt.repeat_char "-"%char 20 ]
            ++ flat_map text_model_block (by_model report)
        end)%list
    ++ [ "";
         (* Projections *)
         "MONTHLY PROJECTIONS";
         Fmt.repeat_char "-"%char 20;
         ("Projected Invocations: "
          ++ Fmt.format_commas (monthlyInvocations (projections report)))%string;
         ("Projected Cost:        $"
          ++ Fmt.format_f (monthlyCost (projections report)) 2)%string;
         "" ])%list in
  String.concat Fmt.nl lines.

(** [parse_json_safely] of [utils.py]: [json.loads], with [None] for a
    document that does not parse. *)
Definition parse_json_safely (json_string : string) : option json :=
  Json.loads json_string.

Definition num_ok (x : pynum) : Prop :=
  match x with
  | PyInt _ => True
  | PyFloat q => decimal16 q
  end.

(** A valid report: the model identifiers of the breakdown are distinct
    and every float has at most 16 decimals (the builder rounds to 2, 3
    or 4). *)
Definition valid_report (report : UsageReport) : Prop :=
  wf_dict (by_model report)
  /\ Forall (fun kv : string * ModelSummary =>
               num_ok (m_cost (snd kv)) /\ num_ok (m_avgLatency (snd kv)))
            (by_model report)
  /\ num_ok (estimatedCost (summary report))
  /\ num_ok (monthlyCost (projections report))
  /\ num_ok (avgLatency (performance report))
  /\ num_ok (p99Latency (performance report))
  /\ num_ok (errorRate (performance report)).

Definition format_report (report : UsageReport) (output_format : string)
  : result string :=
  if String.eqb (Fmt.lower output_format) "json" then
    Ok (Json.dumps (asdict report))
  else if String.eqb (Fmt.lower output_format) "text" then
    Ok (_format_text_report report)
  else
    Raise (ValueError ("Unsupported output format: " ++ output_format)).

(** ** The outside world

    The script talks to CloudWatch, CloudWatch Logs, the AWS command line,
    the clock and the terminal.  Every such interaction is an [event]; the
    history of events so far is the state that is threaded through the
    script, and an [Env] answers each request as a function of that
    history, with a value or with an exception.  Nothing is assumed about
    the answers. *)

Module World.

Inductive event : Type :=
| LoadConfig
| Connect (region : string)
| ListMetrics (start_time end_time : Z)
| GetMetricStatistics (metric_name model_id : string) (start_time end_time : Z)
| StartQuery (model_id : string) (start_time end_time : Z)
| GetQueryResults (query_id : string)
| Sleep (seconds : Z)
| UtcNow
| RunAwsCommand (command : list string)
| Log (operation resource : string) (success : bool)
| Print (text : string)
| PrintErr (text : string).

Definition history : Type := list event.

(** An event that reaches an AWS service. *)
Definition is_aws_call (e : event) : bool :=
  match e with
  | Connect _ | ListMetrics _ _ | GetMetricStatistics _ _ _ _
  | StartQuery _ _ _ | GetQueryResults _ | RunAwsCommand _ => true
  | _ => false
  end.

(** An event that queries metrics or logs. *)
Definition is_metric_query (e : event) : bool :=
  match e with
  | ListMetrics _ _ | GetMetricStatistics _ _ _ _
  | StartQuery _ _ _ | GetQueryResults _ => true
  | _ => false
  end.

Record QueryResults : Type := {
  status : string;
  results : list (list (string * string))  (* rows of (field, value) *)
}.

Record Env : Type := {
  (** [load_config_from_env()]: the log group and the default region. *)
  load_config : history -> result (string * string);
  (** The two [boto3.client] calls and the connectivity probe. *)
  connect : history -> string -> result unit;
  (** [cloudwatch.list_metrics]: per metric, its (Name, Value) dimensions. *)
  list_metrics : history -> Z -> Z -> result (list (list (string * string)));
  (** The iteration order of a Python [set] of strings. *)
  set_order : list string -> list string;
  (** [cloudwatch.get_metric_statistics]: the ['Sum'] of each data point. *)
  get_metric_statistics : history -> string -> string -> Z -> Z -> result (list Q);
  (** [logs.start_query]: the query id. *)
  start_query : history -> string -> Z -> Z -> result string;
  (** [logs.get_query_results] *)
  get_query_results : history -> string -> result QueryResults;
  (** [datetime.utcnow()], in microseconds since 0001-01-01. *)
  utcnow : history -> Z;
  (** [datetime.isoformat()] *)
  isoformat : Z -> string;
  (** The builtin [float(s)] on a string. *)
  float_of_string : string -> result Q;
  (** [run_aws_command]: success flag and output. *)
  run_aws_command : history -> list string -> bool * string
}.

(** Computations in the world: a result and the extended history (newest
    event first).  An exception keeps the events that happened. *)
Definition M (A : Type) : Type := history -> result A * history.

Definition ret {A} (a : A) : M A := fun h => (Ok a, h).

Definition raise {A} (e : exn) : M A := fun h => (Raise e, h).

Definition bindM {A B} (m : M A) (k : A -> M B) : M B :=
  fun h =>
    match m h with
    | (Ok a, h') => k a h'
    | (Raise e, h') => (Raise e, h')
    end.

Definition lift {A} (r : result A) : M A := fun h => (r, h).

(** A request to the environment. *)
Definition perform {A} (answer : history -> result A) (e : event) : M A :=
  fun h => (answer h, e :: h).

Definition emit (e : event) : M unit := fun h => (Ok tt, e :: h).

(** [try: body  except <handles>: handler] *)
Definition try_except {A} (body : M A) (handles : exn -> bool)
    (handler : exn -> M A) : M A :=
  fun h =>
    match body h with
    | (Ok a, h') => (Ok a, h')
    | (Raise e, h') => if handles e then handler e h' else (Raise e, h')
    end.

Definition is_ClientError (e : exn) : bool :=
  match e with ClientError _ => true | _ => false end.

(** [except Exception]: every class of [exn]. *)
Definition is_Exception (e : exn) : bool := true.

End World.

Import World.

Declare Scope world_scope.
Delimit Scope world_scope with world.
Notation "x <~ m ;; k" := (bindM m (fun x => k))
  (at level 61, m at next level, right associativity) : world_scope.
Notation "m ;;; k" := (bindM m (fun _ => k))
  (at level 61, right associativity) : world_scope.
Local Open Scope world_scope.

(** [log_operation] of [utils.py]: a line on the terminal (and one on the
    error stream for a failure); the text of [details] is not tracked. *)
Definition log_operation (operation resource : string) (success : bool) : M unit :=
  emit (Log operation resource success).

(** ** The usage aggregator *)

Section Aggregator.

Variable env : Env.

(** [set()] keeps one copy of each string. *)
Definition nodup_str : list string -> list string := nodup string_dec.

Definition model_ids_of (metrics : list (list (string * string))) : list string :=
  set_order env
    (nodup_str
       (flat_map (fun dims =>
                    map snd (filter (fun d => String.eqb (fst d) "ModelId") dims))
                 metrics)).

Definition _get_available_models (start_time end_time : Z) : M (list string) :=
  try_except
    (metrics <~ perform (fun h => list_metrics env h start_time end_time)
                        (ListMetrics start_time end_time) ;;
     ret (model_ids_of metrics))
    is_ClientError
    (fun _ => log_operation "GET_MODELS" "CloudWatch" false ;;; ret []).

Definition _get_metric_sum (metric_name model_id : string)
    (start_time end_time : Z) : M Z :=
  try_except
    (points <~ perform
                 (fun h => get_metric_statistics env h metric_name model_id
                             start_time end_time)
                 (GetMetricStatistics metric_name model_id start_time end_time) ;;
     let total := sum (map PyFloat points) in
     ret (int total))
    is_ClientError
    (fun _ =>
       log_operation "GET_METRIC" (metric_name ++ ":" ++ model_id) false ;;;
       ret 0%Z).

(** The first [error_count] field of the result rows, if any. *)
Definition find_error_count (rows : list (list (string * string))) : option string :=
  match filter (fun f : string * string => String.eqb (fst f) "error_count")
               (List.concat rows) with
  | [] => None
  | f :: _ => Some (snd f)
  end.

(** The polling loop of [_get_error_count]; [n] is [max_wait - wait_time]. *)
Fixpoint poll_query (model_id query_id : string) (n : nat) : M Z :=
  match n with
  | O =>
      (* Timeout reached *)
      log_operation "QUERY_LOGS" model_id false ;;; ret 0%Z
  | S n' =>
      emit (Sleep 1) ;;;
      (step <~ try_except
         (res <~ perform (fun h => get_query_results env h query_id)
                         (GetQueryResults query_id) ;;
          if String.eqb (status res) "Complete" then
            match find_error_count (results res) with
            | Some v =>
                q <~ lift (float_of_string env v) ;;
                ret (Some (int (PyFloat q)))
            | None => ret (Some 0%Z)
            end
          else if String.eqb (status res) "Failed" then
            log_operation "QUERY_LOGS" model_id false ;;; ret (Some 0%Z)
          else ret None)
         is_ClientError
         (fun _ => ret None) ;;
       match step with
       | Some count => ret count
       | None => poll_query model_id query_id n'
       end)
  end.

Definition _get_error_count (model_id : string) (start_time end_time : Z) : M Z :=
  try_except
    (query_id <~ perform (fun h => start_query env h model_id start_time end_time)
                         (StartQuery model_id start_time end_time) ;;
     poll_query model_id query_id 10)
    is_Exception
    (fun _ => log_operation "QUERY_LOGS" model_id false ;;; ret 0%Z).

(** The body of the [for model_id in models] loop for one model: the
    usage record it collects. *)
Definition collect_usage (model_id : string) (start_time end_time : Z)
  : M ModelUsage :=
  invocations <~ _get_metric_sum "Invocations" model_id start_time end_time ;;
  input_tokens <~ _get_metric_sum "InputTokenCount" model_id start_time end_time ;;
  output_tokens <~ _get_metric_sum "OutputTokenCount" model_id start_time end_time ;;
  latency_sum <~ _get_metric_sum "InvocationLatency" model_id start_time end_time ;;
  latency <~ lift (truediv (PyInt latency_sum) (PyFloat 1000.0)) ;;
  error_count <~ try_except
                   (_get_error_count model_id start_time end_time)
                   is_Exception
                   (fun _ => log_operation "GET_ERRORS" model_id false ;;; ret 0%Z) ;;
  ret {| invocations := invocations;
         input_tokens := input_tokens;
         output_tokens := output_tokens;
         total_latency := to_Q latency;
         error_count := error_count |}.

(** The loop over the models.  [model_usage] is a mutable dictionary: when
    an exception leaves the loop, the entries stored so far stay in it, so
    the loop returns the dictionary together with the exception, if any. *)
Fixpoint collect_loop (models : list string) (start_time end_time : Z)
    (model_usage : dict ModelUsage) (h : history)
  : dict ModelUsage * option exn * history :=
  match models with
  | [] => (model_usage, None, h)
  | model_id :: models' =>
      match collect_usage model_id start_time end_time h with
      | (Ok usage, h') =>
          let model_usage' :=
            if (invocations usage >? 0)%Z
            then setitem model_usage model_id usage
            else model_usage in
          collect_loop models' start_time end_time model_usage' h'
      | (Raise e, h') => (model_usage, Some e, h')
      end
  end.

Definition get_metrics_data (start_time end_time : Z) : M (dict ModelUsage) :=
  fun h =>
    let model_usage : dict ModelUsage := [] in
    match _get_available_models start_time end_time h with
    | (Ok models, h1) =>
        match models with
        | [] =>
            (log_operation "GET_MODELS" "CloudWatch" false ;;; ret model_usage) h1
        | _ :: _ =>
            match collect_loop models start_time end_time model_usage h1 with
            | (model_usage', None, h2) => (Ok model_usage', h2)
            | (model_usage', Some e, h2) =>
                (* except Exception: the data gathered so far is returned *)
                (log_operation "GET_METRICS" "CloudWatch" false ;;; ret model_usage') h2
            end
        end
    | (Raise e, h1) =>
        (log_operation "GET_METRICS" "CloudWatch" false ;;; ret model_usage) h1
    end.

End Aggregator.

(** A poll that does not deliver a result: the query is still running or
    has failed, or the request itself failed with a [ClientError]. *)
Definition poll_pending (r : result QueryResults) : Prop :=
  (exists code, r = Raise (ClientError code))
  \/ (exists res, r = Ok res /\ status res <> "Complete").

(** ** The generator object and [generate_report] *)

Record Generator : Type := {
  cloudwatch_log_group : string;
  region : string
}.

(** [MonitoringConfiguration()]: the defaults of [config.py]. *)
Definition default_config : string * string :=
  ("/aws/bedrock/modelinvocations", "us-east-1").

(** [datetime - timedelta(hours=hours)] on microseconds since 0001-01-01:
    the [timedelta] must stay within 999999999 days and the result within
    the years 1 to 9999. *)
Definition datetime_sub_hours (t hours : Z) : result Z :=
  let days := (hours / 24)%Z in
  if ((days <? -999999999) || (999999999 <? days))%Z then Raise OverflowError
  else
    let r := (t - hours * 3600 * 1000000)%Z in
    if ((r <? 0) || (315537897600 * 1000000 <=? r))%Z then Raise OverflowError
    else Ok r.

Section Generator.

Variable env : Env.

(** [UsageReportGenerator.__init__] *)
Definition init (region_arg : option string) : M Generator :=
  cfg <~ try_except (perform (load_config env) LoadConfig)
           is_Exception
           (fun _ => log_operation "CONFIG_LOAD" "Environment" false ;;;
                     ret default_config) ;;
  let region :=
    match region_arg with
    | Some (String c r) => String c r
    | _ => snd cfg
    end in
  try_except
    (perform (fun h => connect env h region) (Connect region) ;;;
     ret {| cloudwatch_log_group := fst cfg; region := region |})
    is_Exception
    (fun e =>
       match e with
       | NoCredentialsError =>
           raise (RuntimeError
                    "AWS credentials not configured. Please run 'aws configure'.")
       | ClientError code =>
           if String.eqb code "UnauthorizedOperation"
           then raise (RuntimeError
                         "Insufficient AWS permissions for CloudWatch access.")
           else raise (RuntimeError "AWS service error")
       | _ => raise (RuntimeError "Failed to initialize AWS clients")
       end).

Definition generate_report (hours : Z) : M UsageReport :=
  end_time <~ perform (fun h => Ok (utcnow env h)) UtcNow ;;
  start_time <~ lift (datetime_sub_hours end_time hours) ;;
  log_operation "GENERATE_REPORT" ("Period: " ++ Fmt.str_int hours ++ " hours") true ;;;
  (* Get metrics data *)
  model_usage <~ get_metrics_data env start_time end_time ;;
  lift (build_report model_usage hours
          (isoformat env start_time) (isoformat env end_time)).

End Generator.

(** ** The command line *)

Record Args : Type := {
  hours : Z;
  region_opt : option string;
  output : string;
  validate_only : bool
}.

(** [validate_aws_region] of [utils.py]: [re.match] on
    [^[a-z]{2}-[a-z]+-\d+$]; the final [$] also matches before one
    trailing line feed. *)
Definition validate_aws_region (region : string) : bool :=
  match region with
  | String c1 (String c2 (String "-"%char rest)) =>
      Fmt.is_lower_az c1 && Fmt.is_lower_az c2 &&
      (let (letters, rest1) := Fmt.span Fmt.is_lower_az rest in
       negb (String.eqb letters "") &&
       match rest1 with
       | String "-"%char rest2 =>
           let (digits, rest3) := Fmt.span Fmt.is_digit rest2 in
           negb (String.eqb digits "") &&
           (String.eqb rest3 "" || String.eqb rest3 Fmt.nl)
       | _ => false
       end)
  | _ => false
  end.

Definition validate_arguments (args : Args) : list string :=
  let errors : list string := [] in
  (* Validate hours *)
  let errors :=
    if (hours args <=? 0)%Z then
      (errors ++ ["Hours must be a positive integer"])%list
    else if (hours args >? 8760)%Z then
      (errors ++ ["Hours cannot exceed 8760 (1 year)"])%list
    else errors in
  (* Validate region if provided *)
  let errors :=
    match region_opt args with
    | Some (String c r) =>
        if negb (validate_aws_region (String c r))
        then (errors ++ [("Invalid AWS region format: " ++ String c r)%string])%list
        else errors
    | _ => errors
    end in
  errors.

Section Main.

Variable env : Env.

(** [get_aws_region] of [utils.py] *)
Definition get_aws_region : M (option string) :=
  let command := ["aws"; "configure"; "get"; "region"] in
  out <~ perform (fun h => Ok (run_aws_command env h command))
                 (RunAwsCommand command) ;;
  if fst out && validate_aws_region (snd out) then ret (Some (snd out))
  else ret None.

(** The part of [main] after the validation: region, generator, report,
    output. *)
Definition run_report (args : Args) : M unit :=
  region <~ (match region_opt args with
             | Some (String c r) => ret (String c r)
             | _ =>
                 found <~ get_aws_region ;;
                 match found with
                 | Some (String c r) => ret (String c r)
                 | _ => ret "us-east-1"
                 end
             end) ;;
  generator <~ init env (Some region) ;;
  report <~ generate_report env (hours args) ;;
  formatted_report <~ lift (format_report report (output args)) ;;
  emit (Print formatted_report) ;;;
  log_operation "REPORT_COMPLETE" (Fmt.str_int (hours args) ++ "h report") true.

(** [main], from the parsed arguments on: the exit status of the process
    and the events it leaves behind.  [sys.exit(1)] raises [SystemExit],
    which [except Exception] does not catch; an interruption from the
    keyboard is outside the model. *)
Definition main (args : Args) (h : history) : Z * history :=
  let validation_errors := validate_arguments args in
  match validation_errors with
  | _ :: _ =>
      (1%Z,
       (List.rev (map (fun error => PrintErr ("  - " ++ error)%string) validation_errors)
        ++ PrintErr "Validation errors:" :: h)%list)
  | [] =>
      if validate_only args then
        (0%Z, Print "Arguments validation passed" :: h)
      else
        match run_report args h with
        | (Ok _, h') => (0%Z, h')
        | (Raise e, h') => (1%Z, PrintErr "Error generating report" :: h')
        end
  end.

End Main.

(** ** Closed forms

    What the builder computes, written without the exception plumbing.
    The lemmas of Part II show that [build_report] returns exactly
    [report_of]; the properties are then read off the closed form. *)

Definition entry_for (model_id : string) : BedrockPricing.entry :=
  match getitem BedrockPricing.PRICING
          (if contains BedrockPricing.PRICING model_id then model_id
           else "anthropic.claude-3-sonnet-20240229-v1:0") with
  | Ok p => p
  | Raise _ => BedrockPricing.default_entry
  end.

Definition cost_of (it : string * ModelUsage) : Q :=
  BedrockPricing.spec_cost (entry_for (fst it))
    (input_tokens (snd it)) (output_tokens (snd it)).

Definition avg_of (usage : ModelUsage) : Q :=
  if (invocations usage >? 0)%Z
  then total_latency usage / inject_Z (invocations usage)
  else 0.0.

Definition summary_of (it : string * ModelUsage) : ModelSummary :=
  {| m_invocations := invocations (snd it);
     m_inputTokens := input_tokens (snd it);
     m_outputTokens := output_tokens (snd it);
     m_cost := PyFloat (round_float (cost_of it) 4);
     m_avgLatency := PyFloat (round_float (avg_of (snd it)) 3);
     m_errorCount := error_count (snd it) |}.

Definition total_invocations_of (model_usage : dict ModelUsage) : Z :=
  sumZ (map invocations (values model_usage)).

Definition total_cost_of (model_usage : dict ModelUsage) : pynum :=
  sum (map (fun it => PyFloat (cost_of it)) (items model_usage)).

Definition weighted_of (usage : ModelUsage) : pynum :=
  PyFloat (avg_of usage * inject_Z (invocations usage)).

Definition avg_latency_of (model_usage : dict ModelUsage) : pynum :=
  if (total_invocations_of model_usage >? 0)%Z
  then PyFloat (to_Q (sum (map weighted_of (values model_usage)))
                / inject_Z (total_invocations_of model_usage))
  else PyInt 0.

Definition latencies_of (model_usage : dict ModelUsage) : list Q :=
  map total_latency
      (filter (fun usage => (invocations usage >? 0)%Z) (values model_usage)).

Definition p99_latency_of (model_usage : dict ModelUsage) : pynum :=
  match latencies_of model_usage with
  | [] => PyInt 0
  | x :: xs => PyFloat (max_from x xs)
  end.

Definition total_errors_of (model_usage : dict ModelUsage) : Z :=
  sumZ (map error_count (values model_usage)).

Definition error_rate_of (model_usage : dict ModelUsage) : pynum :=
  if (total_invocations_of model_usage >? 0)%Z
  then PyFloat (inject_Z (total_errors_of model_usage)
                / inject_Z (total_invocations_of model_usage) * inject_Z 100)
  else PyInt 0.

Definition multiplier_of (hours : Z) : pynum :=
  if (hours >? 0)%Z then PyFloat (inject_Z (24 * 30) / inject_Z hours)
  else PyInt 0.

Definition report_of (model_usage : dict ModelUsage) (hours : Z)
    (start_iso end_iso : string) (bm : dict ModelSummary) : UsageReport :=
  {| period := {| startTime := start_iso;
                  endTime := end_iso;
                  durationHours := hours |};
     summary := {| totalInvocations := total_invocations_of model_usage;
                   totalInputTokens := sumZ (map input_tokens (values model_usage));
                   totalOutputTokens := sumZ (map output_tokens (values model_usage));
                   estimatedCost := round (total_cost_of model_usage) 4 |};
     by_model := bm;
     projections :=
       {| monthlyInvocations :=
            int (mul (PyInt (total_invocations_of model_usage)) (multiplier_of hours));
          monthlyCost :=
            round (mul (total_cost_of model_usage) (multiplier_of hours)) 2 |};
     performance := {| avgLatency := round (avg_latency_of model_usage) 3;
                       p99Latency := round (p99_latency_of model_usage) 3;
                       errorCount := total_errors_of model_usage;
                       errorRate := round (error_rate_of model_usage) 2 |} |}.


(** ** Sample data for the examples *)

Definition sample_usage : dict ModelUsage :=
  [ ("anthropic.claude-3-sonnet-20240229-v1:0",
     {| invocations := 100; input_tokens := 50000; output_tokens := 20000;
        total_latency := 12.5; error_count := 0 |}) ].

Definition two_models : dict ModelUsage :=
  [ ("anthropic.claude-3-haiku-20240307-v1:0",
     {| invocations := 40; input_tokens := 8000; output_tokens := 2000;
        total_latency := 6.0; error_count := 1 |});
    ("vendor.unlisted-model",
     {| invocations := 2; input_tokens := 1000; output_tokens := 3000;
        total_latency := 9.0; error_count := 2 |}) ].

Definition sample_args (n : Z) : Args :=
  {| hours := n; region_opt := None; output := "json"; validate_only := false |}.

(** An environment with two models in which one metric query of the
    second model times out: [ReadTimeoutError] is a [BotoCoreError], not
    a [ClientError]. *)
Definition timeout_env : Env :=
  {| load_config := fun _ => Ok default_config;
     connect := fun _ _ => Ok tt;
     list_metrics := fun _ _ _ =>
       Ok [ [("ModelId", "model-a")]; [("ModelId", "model-b")] ];
     set_order := fun models => models;
     get_metric_statistics := fun _ metric_name model_id _ _ =>
       if String.eqb metric_name "Invocations" then Ok [5]
       else if String.eqb model_id "model-b"
               && String.eqb metric_name "InputTokenCount"
       then Raise (OtherException "ReadTimeoutError")
       else Ok [7];
     start_query := fun _ _ _ _ => Ok "query-1";
     get_query_results := fun _ _ => Ok {| status := "Complete"; results := [] |};
     utcnow := fun _ => 63840000000000000%Z;
     isoformat := fun _ => "";
     float_of_string := fun _ => Raise (ValueError "could not convert string to float");
     run_aws_command := fun _ _ => (false, "") |}.

(** An environment in which nothing is found and no log query completes. *)
Definition quiet_env : Env :=
  {| load_config := fun _ => Ok default_config;
     connect := fun _ _ => Ok tt;
     list_metrics := fun _ _ _ => Ok [];
     set_order := fun models => models;
     get_metric_statistics := fun _ _ _ _ _ => Raise (ClientError "Throttling");
     start_query := fun _ _ _ _ => Raise (ClientError "ResourceNotFoundException");
     get_query_results := fun _ _ => Ok {| status := "Running"; results := [] |};
     utcnow := fun _ => 63840000000000000%Z;
     isoformat := fun _ => "";
     float_of_string := fun _ => Raise (ValueError "could not convert string to float");
     run_aws_command := fun _ _ => (false, "") |}.

Definition sample_report : UsageReport :=
  match build_report sample_usage 24 "2024-01-01T00:00:00" "2024-01-02T00:00:00" with
  | Ok r => r
  | Raise _ => report_of [] 0 "" "" []
  end.

(** ** More of [utils.py] *)



(** [validate_required_fields]: the required fields that are absent from
    [data] or whose value is [None], in the order of [required_fields]. *)
Fixpoint validate_required_fields {V} (data : dict (option V))
    (required_fields : list string) : list string :=
  match required_fields with
  | [] => []
  | field :: fields' =>
      let missing :=
        negb (contains data field)
        || match getitem data field with
           | Ok None => true
           | _ => false
           end in
      if missing then field :: validate_required_fields data fields'
      else validate_required_fields data fields'
  end.

(** ** Vocabulary of the statements *)

Fixpoint all_chars (p : ascii -> bool) (s : string) : bool :=
  match s with
  | EmptyString => true
  | String c s' => p c && all_chars p s'
  end.

Definition is_dot (c : ascii) : bool := Ascii.eqb c "."%char.

Definition not_comma (c : ascii) : bool := negb (Ascii.eqb c ","%char).

(** A formatted number without its thousands separators. *)
Definition remove_commas (s : string) : string :=
  string_of_list_ascii (filter not_comma (list_ascii_of_string s)).

Definition is_poll (e : event) : bool :=
  match e with GetQueryResults _ => true | _ => false end.

Definition is_print (e : event) : bool :=
  match e with Print _ => true | _ => false end.

(** The region of [args] is absent, empty or well-formed. *)
Definition region_ok (args : Args) : Prop :=
  match region_opt args with
  | Some (String c r) => validate_aws_region (String c r) = true
  | _ => True
  end.


(** An environment in which everything works and one model is active. *)
Definition working_env : Env :=
  {| load_config := fun _ => Ok default_config;
     connect := fun _ _ => Ok tt;
     list_metrics := fun _ _ _ => Ok [ [("ModelId", "model-a")] ];
     set_order := fun models => models;
     get_metric_statistics := fun _ metric_name _ _ _ =>
       if String.eqb metric_name "Invocations" then Ok [5] else Ok [7];
     start_query := fun _ _ _ _ => Ok "query-1";
     get_query_results := fun _ _ =>
       Ok {| status := "Complete"; results := [ [("error_count", "2")] ] |};
     utcnow := fun _ => 63840000000000000%Z;
     isoformat := fun _ => "2024-01-01T00:00:00";
     float_of_string := fun s =>
       if Fmt.all_digits s then Ok (inject_Z (Json.digits_value s))
       else Raise (ValueError "could not convert string to float");
     run_aws_command := fun _ _ => (true, "eu-west-1") |}.

(** An environment without credentials. *)
Definition offline_env : Env :=
  {| load_config := fun _ => Raise (OtherException "OSError");
     connect := fun _ _ => Raise NoCredentialsError;
     list_metrics := fun _ _ _ => Raise NoCredentialsError;
     set_order := fun models => models;
     get_metric_statistics := fun _ _ _ _ _ => Raise NoCredentialsError;
     start_query := fun _ _ _ _ => Raise NoCredentialsError;
     get_query_results := fun _ _ => Raise NoCredentialsError;
     utcnow := fun _ => 63840000000000000%Z;
     isoformat := fun _ => "";
     float_of_string := fun _ => Raise (ValueError "could not convert string to float");
     run_aws_command := fun _ _ => (false, "") |}.

(** [emits P m]: whatever the history, [m] only adds events that satisfy
    [P] to it, and leaves the earlier events in place. *)
Definition emits {A} (P : event -> bool) (m : M A) : Prop :=
  forall h, exists out, snd (m h) = (out ++ h)%list /\ forallb P out = true.

(** What the aggregator may do: read metrics and logs, wait and log. *)
Definition aggregator_event (e : event) : bool :=
  match e with
  | ListMetrics _ _ | GetMetricStatistics _ _ _ _
  | StartQuery _ _ _ | GetQueryResults _ | Sleep _ | Log _ _ _ => true
  | _ => false
  end.

(** The seconds slept in a list of events. *)
Definition seconds_slept (out : list event) : Z :=
  sumZ (map (fun e => match e with Sleep s => s | _ => 0%Z end) out).

Definition not_dot (c : ascii) : bool := negb (is_dot c).

(** ** [config.py]

    The environment of the process is a dictionary of strings. *)

Module Config.

(** [os.environ.get(key)] *)
Definition environ_get (environ : dict string) (key : string) : option string :=
  match getitem environ key with
  | Ok v => Some v
  | Raise _ => None
  end.

(** [os.environ.get(key, default)] *)
Definition environ_get_default (environ : dict string) (key default : string)
  : string :=
  match environ_get environ key with
  | Some v => v
  | None => default
  end.

Record IAMConfig : Type := {
  role_name : string;
  account_id : option string
}.

(** [IAMConfig(account_id=...)] with its [__post_init__]. *)
Definition new_IAMConfig (environ : dict string) (account_id : option string)
  : IAMConfig :=
  {| role_name := "BedrockCloudWatchLoggingRole";
     account_id :=
       match account_id with
       | None => Some (environ_get_default environ "AWS_ACCOUNT_ID" "")
       | Some a => Some a
       end |}.

Record StorageConfig : Type := {
  s3_bucket_prefix : string;
  cloudwatch_log_group : string;
  cloudwatch_retention_days : Z;
  s3_lifecycle_days : Z
}.

Definition new_StorageConfig : StorageConfig :=
  {| s3_bucket_prefix := "bedrock-logs";
     cloudwatch_log_group := "/aws/bedrock/modelinvocations";
     cloudwatch_retention_days := 30;
     s3_lifecycle_days := 90 |}.

Definition get_s3_bucket_name (self : StorageConfig) (account_id : string)
  : string :=
  (s3_bucket_prefix self ++ "-" ++ account_id)%string.

Record AlertingConfig : Type := {
  sns_topic_name : string;
  high_token_threshold : Z;
  error_rate_threshold : Z;
  invocation_spike_threshold : Z;
  high_latency_threshold : Z
}.

Definition new_AlertingConfig : AlertingConfig :=
  {| sns_topic_name := "bedrock-monitoring-alerts";
     high_token_threshold := 100000;
     error_rate_threshold := 10;
     invocation_spike_threshold := 1000;
     high_latency_threshold := 10 |}.

Record DashboardConfig : Type := {
  dashboard_name : string;
  region : string
}.

Definition new_DashboardConfig (region : string) : DashboardConfig :=
  {| dashboard_name := "BedrockUsageMonitoring"; region := region |}.

Record MonitoringConfiguration : Type := {
  iam : IAMConfig;
  storage : StorageConfig;
  alerting : AlertingConfig;
  dashboard : DashboardConfig
}.

(** [MonitoringConfiguration(account_id, region)] *)
Definition new_MonitoringConfiguration (environ : dict string)
    (account_id : option string) (region : string) : MonitoringConfiguration :=
  {| iam := new_IAMConfig environ account_id;
     storage := new_StorageConfig;
     alerting := new_AlertingConfig;
     dashboard := new_DashboardConfig region |}.

Definition get_default_config (environ : dict string) : MonitoringConfiguration :=
  new_MonitoringConfiguration environ None "us-east-1".

(** The truth value of [os.environ.get(key)]: set and not empty. *)
Definition environ_truthy (environ : dict string) (key : string) : bool :=
  match environ_get environ key with
  | Some (String _ _) => true
  | _ => false
  end.

(** The three assignments [config.iam.role_name = v],
    [config.storage.s3_bucket_prefix = v] and
    [config.alerting.sns_topic_name = v]. *)
Definition set_role_name (config : MonitoringConfiguration) (v : string)
  : MonitoringConfiguration :=
  {| iam := {| role_name := v; account_id := account_id (iam config) |};
     storage := storage config;
     alerting := alerting config;
     dashboard := dashboard config |}.

Definition set_s3_bucket_prefix (config : MonitoringConfiguration) (v : string)
  : MonitoringConfiguration :=
  {| iam := iam config;
     storage :=
       {| s3_bucket_prefix := v;
          cloudwatch_log_group := cloudwatch_log_group (storage config);
          cloudwatch_retention_days := cloudwatch_retention_days (storage config);
          s3_lifecycle_days := s3_lifecycle_days (storage config) |};
     alerting := alerting config;
     dashboard := dashboard config |}.

Definition set_sns_topic_name (config : MonitoringConfiguration) (v : string)
  : MonitoringConfiguration :=
  {| iam := iam config;
     storage := storage config;
     alerting :=
       {| sns_topic_name := v;
          high_token_threshold := high_token_threshold (alerting config);
          error_rate_threshold := error_rate_threshold (alerting config);
          invocation_spike_threshold := invocation_spike_threshold (alerting config);
          high_latency_threshold := high_latency_threshold (alerting config) |};
     dashboard := dashboard config |}.

(** [load_config_from_env]; [os.environ[key]] raises [KeyError] for a key
    that is not set. *)
Definition load_config_from_env (environ : dict string)
  : result MonitoringConfiguration :=
  let account_id := environ_get environ "AWS_ACCOUNT_ID" in
  let region := environ_get_default environ "AWS_DEFAULT_REGION" "us-east-1" in
  let config := new_MonitoringConfiguration environ account_id region in
  (* Override defaults with environment variables if present *)
  config <-
    (if environ_truthy environ "BEDROCK_IAM_ROLE_NAME" then
       v <- getitem environ "BEDROCK_IAM_ROLE_NAME" ;;
       Ok (set_role_name config v)
     else Ok config) ;;
  config <-
    (if environ_truthy environ "BEDROCK_S3_BUCKET_PREFIX" then
       v <- getitem environ "BEDROCK_S3_BUCKET_PREFIX" ;;
       Ok (set_s3_bucket_prefix config v)
     else Ok config) ;;
  config <-
    (if environ_truthy environ "BEDROCK_SNS_TOPIC_NAME" then
       v <- getitem environ "BEDROCK_SNS_TOPIC_NAME" ;;
       Ok (set_sns_topic_name config v)
     else Ok config) ;;
  Ok config.

End Config.

(* ===================================================================== *)
(** * Part II: properties                                                 *)
(* ===================================================================== *)

(** ** The result monad and the numbers *)

Lemma mapM_ok {A B} (f : A -> result B) (g : A -> B) (xs : list A) :
  (forall x, In x xs -> f x = Ok (g x)) -> mapM f xs = Ok (map g xs).
Proof.
  induction xs as [|x xs IH]; intros Hf; simpl.
  - reflexivity.
  - rewrite (Hf x (or_introl eq_refl)). simpl.
    rewrite IH by (intros y Hy; apply Hf; right; exact Hy).
    reflexivity.
Qed.

Lemma inject_Z_nonzero (z : Z) : z <> 0%Z -> Qeq_bool (inject_Z z) 0 = false.
Proof.
  intros Hz. destruct (Qeq_bool (inject_Z z) 0) eqn:E; [|reflexivity].
  apply Qeq_bool_iff in E. unfold Qeq in E. simpl in E. lia.
Qed.

Lemma truediv_int (a : pynum) (z : Z) :
  z <> 0%Z -> truediv a (PyInt z) = Ok (PyFloat (to_Q a / inject_Z z)).
Proof.
  intros Hz. unfold truediv. simpl. rewrite (inject_Z_nonzero z Hz). reflexivity.
Qed.


Lemma to_Q_mul (a b : pynum) : to_Q (mul a b) == to_Q a * to_Q b.
Proof.
  destruct a, b; simpl; try reflexivity; rewrite inject_Z_mult; reflexivity.
Qed.

(** ** Dictionaries *)

Lemma contains_getitem {V} (d : dict V) (k : string) :
  contains d k = true -> exists v, getitem d k = Ok v.
Proof.
  induction d as [|[k' v'] d IH]; simpl; intros H.
  - discriminate.
  - destruct (String.eqb k k').
    + exists v'. reflexivity.
    + apply IH. exact H.
Qed.

Lemma contains_In {V} (d : dict V) (k : string) :
  contains d k = true <-> In k (keys d).
Proof.
  induction d as [|[k' v'] d IH]; simpl.
  - split; [discriminate | tauto].
  - destruct (String.eqb_spec k k') as [->|Hne].
    + split; auto.
    + rewrite IH. split; [auto | intros [H|H]; [congruence | exact H]].
Qed.

Lemma setitem_fresh {V} (d : dict V) (k : string) (v : V) :
  ~ In k (keys d) -> setitem d k v = (d ++ [(k, v)])%list.
Proof.
  induction d as [|[k' v'] d IH]; simpl; intros Hk.
  - reflexivity.
  - destruct (String.eqb_spec k k') as [->|Hne].
    + exfalso. apply Hk. left. reflexivity.
    + rewrite IH by tauto. reflexivity.
Qed.

(** ** Pricing *)

Lemma calculate_cost_eq (model_id : string) (i o : Z) :
  BedrockPricing.calculate_cost model_id i o
  = Ok (PyFloat (BedrockPricing.spec_cost (entry_for model_id) i o)).
Proof.
  unfold BedrockPricing.calculate_cost, entry_for.
  destruct (contains BedrockPricing.PRICING model_id) eqn:Hc; simpl negb; cbv iota.
  - destruct (contains_getitem _ _ Hc) as [p Hp]. rewrite Hp. reflexivity.
  - reflexivity.
Qed.

(** C4: a model identifier that is not in the pricing table is charged at
    the default tier, the Sonnet entry of the table: [calculate_cost]
    returns (inputTokens/1000) x inputPrice + (outputTokens/1000) x
    outputPrice with the Sonnet prices, for all token counts. *)
Theorem calculate_cost_unknown_model (model_id : string) (i o : Z) :
  contains BedrockPricing.PRICING model_id = false ->
  getitem BedrockPricing.PRICING "anthropic.claude-3-sonnet-20240229-v1:0"
  = Ok BedrockPricing.default_entry
  /\ BedrockPricing.calculate_cost model_id i o
     = Ok (PyFloat (BedrockPricing.spec_cost BedrockPricing.default_entry i o)).
Proof.
  intros Hc. split; [reflexivity|].
  rewrite calculate_cost_eq. unfold entry_for. rewrite Hc. reflexivity.
Qed.

Lemma calculate_cost_unknown_model_witness :
  contains BedrockPricing.PRICING "vendor.unlisted-model" = false
  /\ BedrockPricing.calculate_cost "vendor.unlisted-model" 1000 3000
     = Ok (PyFloat (BedrockPricing.spec_cost BedrockPricing.default_entry 1000 3000)).
Proof.
  split.
  - reflexivity.
  - apply (calculate_cost_unknown_model "vendor.unlisted-model" 1000 3000).
    reflexivity.
Defined.

(** ** Rounding *)

Lemma round_half_even_comp (x y : Q) :
  x == y -> round_half_even x = round_half_even y.
Proof.
  intros H. unfold round_half_even.
  rewrite (Qfloor_comp _ _ H).
  assert (Hc : Qcompare (x - inject_Z (Qfloor y)) (1 # 2)
               = Qcompare (y - inject_Z (Qfloor y)) (1 # 2)).
  { apply Qcompare_comp; [rewrite H|]; reflexivity. }
  rewrite Hc. reflexivity.
Qed.

Lemma pow10_pos (n : nat) : 0 < pow10 n.
Proof.
  unfold pow10. replace 0 with (inject_Z 0) by reflexivity.
  rewrite <- Zlt_Qlt. apply Z.pow_pos_nonneg; lia.
Qed.



(** ** The builder returns its closed form *)

Lemma avg_latency_eq (usage : ModelUsage) :
  avg_latency usage = Ok (PyFloat (avg_of usage)).
Proof.
  unfold avg_latency, avg_of.
  destruct (invocations usage >? 0)%Z eqn:Hpos; [|reflexivity].
  rewrite truediv_int by lia. reflexivity.
Qed.

Lemma weighted_latency_eq (usage : ModelUsage) :
  weighted_latency usage = Ok (weighted_of usage).
Proof.
  unfold weighted_latency. rewrite avg_latency_eq. reflexivity.
Qed.

Lemma by_model_step_eq (acc : dict ModelSummary) (it : string * ModelUsage) :
  by_model_step acc it = Ok (setitem acc (fst it) (summary_of it)).
Proof.
  destruct it as [model_id usage]. unfold by_model_step.
  rewrite calculate_cost_eq, avg_latency_eq. reflexivity.
Qed.

Lemma by_model_loop_total (its : list (string * ModelUsage)) :
  forall acc, exists bm, by_model_loop acc its = Ok bm.
Proof.
  induction its as [|it its IH]; intros acc; simpl.
  - exists acc. reflexivity.
  - rewrite by_model_step_eq. simpl. apply IH.
Qed.

Lemma by_model_loop_fresh (its : list (string * ModelUsage)) :
  forall acc,
    NoDup (keys acc ++ keys its) ->
    by_model_loop acc its
    = Ok (acc ++ map (fun it => (fst it, summary_of it)) its)%list.
Proof.
  induction its as [|it its IH]; intros acc Hnd; simpl.
  - rewrite app_nil_r. reflexivity.
  - rewrite by_model_step_eq. simpl.
    simpl in Hnd.
    assert (Hfresh : ~ In (fst it) (keys acc)).
    { intros Hin. apply NoDup_remove_2 in Hnd. apply Hnd.
      apply in_or_app. left. exact Hin. }
    rewrite (setitem_fresh _ _ _ Hfresh).
    rewrite IH.
    + rewrite <- app_assoc. reflexivity.
    + unfold keys. rewrite map_app. simpl. rewrite <- app_assoc. simpl.
      exact Hnd.
Qed.

Lemma by_model_of_wf (model_usage : dict ModelUsage) :
  wf_dict model_usage ->
  by_model_loop [] (items model_usage)
  = Ok (map (fun it => (fst it, summary_of it)) model_usage).
Proof.
  intros Hwf. apply (by_model_loop_fresh model_usage []). exact Hwf.
Qed.

Lemma build_report_eq (model_usage : dict ModelUsage) (hours : Z)
    (start_iso end_iso : string) :
  exists bm,
    by_model_loop [] (items model_usage) = Ok bm
    /\ build_report model_usage hours start_iso end_iso
       = Ok (report_of model_usage hours start_iso end_iso bm).
Proof.
  destruct (by_model_loop_total (items model_usage) []) as [bm Hbm].
  exists bm. split; [exact Hbm|].
  unfold build_report, report_of.
  rewrite (mapM_ok _ (fun it => PyFloat (cost_of it)))
    by (intros it _; apply calculate_cost_eq).
  cbn [bind].
  fold (total_invocations_of model_usage).
  fold (total_cost_of model_usage).
  fold (total_errors_of model_usage).
  fold (latencies_of model_usage).
  assert (Havg :
    (if (total_invocations_of model_usage >? 0)%Z
     then bind (mapM weighted_latency (values model_usage))
            (fun ws => truediv (sum ws) (PyInt (total_invocations_of model_usage)))
     else Ok (PyInt 0))
    = Ok (avg_latency_of model_usage)).
  { unfold avg_latency_of.
    destruct (total_invocations_of model_usage >? 0)%Z eqn:Hpos; [|reflexivity].
    rewrite (mapM_ok _ weighted_of) by (intros u _; apply weighted_latency_eq).
    cbn [bind]. rewrite truediv_int by lia. reflexivity. }
  rewrite Havg. cbn [bind].
  assert (Hrate :
    (if (total_invocations_of model_usage >? 0)%Z
     then bind (truediv (PyInt (total_errors_of model_usage))
                  (PyInt (total_invocations_of model_usage)))
            (fun r => Ok (mul r (PyInt 100)))
     else Ok (PyInt 0))
    = Ok (error_rate_of model_usage)).
  { unfold error_rate_of.
    destruct (total_invocations_of model_usage >? 0)%Z eqn:Hpos; [|reflexivity].
    rewrite truediv_int by lia. reflexivity. }
  rewrite Hrate. cbn [bind].
  assert (Hp99 :
    match latencies_of model_usage with
    | [] => Ok (PyInt 0)
    | _ :: _ => bind (max (latencies_of model_usage)) (fun m => Ok (PyFloat m))
    end = Ok (p99_latency_of model_usage)).
  { unfold p99_latency_of. destruct (latencies_of model_usage); reflexivity. }
  rewrite Hp99. cbn [bind].
  assert (Hmul :
    (if (hours >? 0)%Z then truediv (PyInt (24 * 30)) (PyInt hours)
     else Ok (PyInt 0)) = Ok (multiplier_of hours)).
  { unfold multiplier_of.
    destruct (hours >? 0)%Z eqn:Hpos; [|reflexivity].
    rewrite truediv_int by lia. reflexivity. }
  rewrite Hmul. cbn [bind].
  rewrite Hbm. reflexivity.
Qed.

(** ** C1: the projection for a window of zero or negative length *)




(** ** C2: the summary is the sum of the breakdown *)

Lemma values_by_model (f : ModelSummary -> Z) (g : ModelUsage -> Z)
    (model_usage : dict ModelUsage) :
  (forall it, f (summary_of it) = g (snd it)) ->
  map f (values (map (fun it => (fst it, summary_of it)) model_usage))
  = map g (values model_usage).
Proof.
  intros Hfg. unfold values. rewrite !map_map. apply map_ext.
  intros it. simpl. apply Hfg.
Qed.

(** C2: for every usage mapping the report's total invocations, total
    input tokens, total output tokens and error count are exactly the sums
    of the corresponding per-model entries of [by_model]; the breakdown
    has one entry per model of the mapping, in the same order. *)
Theorem summary_totals_are_sums (model_usage : dict ModelUsage) (hours : Z)
    (start_iso end_iso : string) :
  wf_dict model_usage ->
  exists r,
    build_report model_usage hours start_iso end_iso = Ok r
    /\ keys (by_model r) = keys model_usage
    /\ totalInvocations (summary r)
       = sumZ (map m_invocations (values (by_model r)))
    /\ totalInputTokens (summary r)
       = sumZ (map m_inputTokens (values (by_model r)))
    /\ totalOutputTokens (summary r)
       = sumZ (map m_outputTokens (values (by_model r)))
    /\ errorCount (performance r)
       = sumZ (map m_errorCount (values (by_model r))).
Proof.
  intros Hwf.
  destruct (build_report_eq model_usage hours start_iso end_iso) as (bm & Hbm & Hr).
  rewrite (by_model_of_wf _ Hwf) in Hbm. injection Hbm as <-.
  eexists. split; [exact Hr|].
  unfold report_of. cbn [by_model summary performance totalInvocations
    totalInputTokens totalOutputTokens errorCount].
  split.
  { unfold keys. rewrite map_map. reflexivity. }
  rewrite (values_by_model m_invocations invocations),
          (values_by_model m_inputTokens input_tokens),
          (values_by_model m_outputTokens output_tokens),
          (values_by_model m_errorCount error_count)
    by reflexivity.
  repeat split; reflexivity.
Qed.

Lemma summary_totals_are_sums_witness :
  wf_dict two_models
  /\ exists r,
       build_report two_models 24 "" "" = Ok r
       /\ keys (by_model r) = keys two_models
       /\ totalInvocations (summary r)
          = sumZ (map m_invocations (values (by_model r)))
       /\ totalInputTokens (summary r)
          = sumZ (map m_inputTokens (values (by_model r)))
       /\ totalOutputTokens (summary r)
          = sumZ (map m_outputTokens (values (by_model r)))
       /\ errorCount (performance r)
          = sumZ (map m_errorCount (values (by_model r))).
Proof.
  assert (Hwf : wf_dict two_models).
  { unfold wf_dict, two_models. simpl.
    repeat constructor; simpl; intuition discriminate. }
  split.
  - exact Hwf.
  - apply (summary_totals_are_sums two_models 24 "" "" Hwf).
Defined.

(** ** Sums and maxima *)

Lemma sumZ_from (xs : list Z) (a : Z) :
  fold_left Z.add xs a = (a + sumZ xs)%Z.
Proof.
  unfold sumZ. revert a.
  induction xs as [|x xs IH]; intros a; simpl.
  - lia.
  - rewrite IH, (IH x). lia.
Qed.

Lemma sumZ_cons (x : Z) (xs : list Z) : sumZ (x :: xs) = (x + sumZ xs)%Z.
Proof. unfold sumZ at 1. simpl. apply sumZ_from. Qed.



Lemma max_from_ge_best (xs : list Q) : forall best, best <= max_from best xs.
Proof.
  induction xs as [|x xs IH]; intros best; simpl.
  - apply Qle_refl.
  - destruct (Qlt_le_dec best x) as [Hlt|Hle].
    + apply Qle_trans with x; [apply Qlt_le_weak; exact Hlt | apply IH].
    + apply IH.
Qed.

Lemma max_from_ge_all (xs : list Q) :
  forall best x, In x xs -> x <= max_from best xs.
Proof.
  induction xs as [|y xs IH]; intros best x Hin; simpl.
  - destruct Hin.
  - destruct Hin as [->|Hin]; [|apply IH; exact Hin].
    destruct (Qlt_le_dec best x) as [Hlt|Hle].
    + apply max_from_ge_best.
    + apply Qle_trans with best; [exact Hle | apply max_from_ge_best].
Qed.

(** ** Rounding is monotone and close *)

Lemma round_half_even_bounds (x : Q) :
  (Qfloor x <= round_half_even x <= Qfloor x + 1)%Z.
Proof.
  unfold round_half_even.
  destruct (Qcompare (x - inject_Z (Qfloor x)) (1 # 2)); try lia.
  destruct (Z.even (Qfloor x)); lia.
Qed.

Lemma round_half_even_mono (x y : Q) :
  x <= y -> (round_half_even x <= round_half_even y)%Z.
Proof.
  intros Hxy.
  pose proof (Qfloor_resp_le x y Hxy) as Hf.
  destruct (Z.eq_dec (Qfloor x) (Qfloor y)) as [Heq|Hne].
  - unfold round_half_even. rewrite Heq.
    destruct (Qcompare_spec (x - inject_Z (Qfloor y)) (1 # 2)) as [Hx|Hx|Hx];
      destruct (Qcompare_spec (y - inject_Z (Qfloor y)) (1 # 2)) as [Hy|Hy|Hy];
      try (destruct (Z.even (Qfloor y)); lia); try lia; exfalso; lra.
  - pose proof (round_half_even_bounds x). pose proof (round_half_even_bounds y). lia.
Qed.

Lemma round_float_mono (x y : Q) (n : nat) :
  x <= y -> round_float x n <= round_float y n.
Proof.
  intros Hxy. unfold round_float.
  pose proof (pow10_pos n) as Hp.
  apply Qle_shift_div_l; [exact Hp|].
  unfold Qdiv. rewrite <- Qmult_assoc, (Qmult_comm (/ pow10 n)), Qmult_inv_r, Qmult_1_r
    by (intros H0; rewrite H0 in Hp; discriminate).
  rewrite <- Zle_Qle. apply round_half_even_mono.
  apply Qmult_le_compat_r; [exact Hxy | apply Qlt_le_weak; exact Hp].
Qed.



(** ** C3: the blended average latency is at most the p99 proxy *)







(** ** C5: the monthly projections *)






(** ** C7 and C10: the output format *)

Lemma lower_char_idem (c : ascii) :
  Fmt.lower_char (Fmt.lower_char c) = Fmt.lower_char c.
Proof.
  destruct c as [[] [] [] [] [] [] [] []]; reflexivity.
Qed.

Lemma lower_idem (s : string) : Fmt.lower (Fmt.lower s) = Fmt.lower s.
Proof.
  induction s as [|c s IH]; simpl.
  - reflexivity.
  - rewrite lower_char_idem, IH. reflexivity.
Qed.

Lemma format_report_json (report : UsageReport) (m : string) :
  Fmt.lower m = "json" ->
  format_report report m = Ok (Json.dumps (asdict report)).
Proof. intros H. unfold format_report. rewrite H. reflexivity. Qed.

Lemma format_report_text (report : UsageReport) (m : string) :
  Fmt.lower m = "text" ->
  format_report report m = Ok (_format_text_report report).
Proof. intros H. unfold format_report. rewrite H. reflexivity. Qed.

Lemma format_report_other (report : UsageReport) (m : string) :
  Fmt.lower m <> "json" -> Fmt.lower m <> "text" ->
  format_report report m
  = Raise (ValueError ("Unsupported output format: " ++ m)).
Proof.
  intros Hj Ht. unfold format_report.
  destruct (String.eqb_spec (Fmt.lower m) "json") as [E|_]; [contradiction|].
  destruct (String.eqb_spec (Fmt.lower m) "text") as [E|_]; [contradiction|].
  reflexivity.
Qed.

(** C7 (as claimed, refuted): ["TEXT"] is a mode value other than
    ["json"] and ["text"], and the formatter does not fail on it. *)
Lemma format_report_accepts_upper_case :
  "TEXT" <> "json" /\ "TEXT" <> "text"
  /\ format_report sample_report "TEXT"
     = Ok (_format_text_report sample_report).
Proof.
  split; [discriminate|]. split; [discriminate|]. reflexivity.
Qed.

(** C7 (amended): the mode is lowercased before it is compared.  For
    every report, a mode whose lowercase form is neither ["json"] nor
    ["text"] makes the formatter fail with a [ValueError] that names the
    mode; a mode whose lowercase form is ["json"] or ["text"] makes it
    return the structured or the text rendering, without error. *)
Theorem format_report_modes (report : UsageReport) (m : string) :
  (Fmt.lower m <> "json" -> Fmt.lower m <> "text" ->
   format_report report m
   = Raise (ValueError ("Unsupported output format: " ++ m)))
  /\ (Fmt.lower m = "json" ->
      format_report report m = Ok (Json.dumps (asdict report)))
  /\ (Fmt.lower m = "text" ->
      format_report report m = Ok (_format_text_report report)).
Proof.
  split; [apply format_report_other|].
  split; [apply format_report_json | apply format_report_text].
Qed.

Lemma format_report_modes_witness :
  format_report sample_report "structured"
  = Raise (ValueError "Unsupported output format: structured")
  /\ format_report sample_report "Json"
     = Ok (Json.dumps (asdict sample_report))
  /\ format_report sample_report "text"
     = Ok (_format_text_report sample_report).
Proof.
  split; [|split].
  - apply (format_report_modes sample_report "structured");
      discriminate.
  - apply (format_report_modes sample_report "Json").
    reflexivity.
  - apply (format_report_modes sample_report "text").
    reflexivity.
Defined.

(** C10: the mode is matched case-insensitively.  For every report and
    every mode [m], [format_report] on [m] and on the lowercase form of
    [m] return the same string, or both fail with the unsupported-format
    [ValueError] (whose message quotes the mode as it was given); so
    ["JSON"] and ["Text"] are accepted and give what ["json"] and
    ["text"] give. *)
Theorem format_report_case_insensitive (report : UsageReport) (m : string) :
  match format_report report m with
  | Ok s => format_report report (Fmt.lower m) = Ok s
  | Raise e =>
      e = ValueError ("Unsupported output format: " ++ m)
      /\ format_report report (Fmt.lower m)
         = Raise (ValueError ("Unsupported output format: " ++ Fmt.lower m))
  end
  /\ format_report report "JSON" = format_report report "json"
  /\ format_report report "Text" = format_report report "text"
  /\ is_ok (format_report report "JSON") = true
  /\ is_ok (format_report report "Text") = true.
Proof.
  split; [|repeat split; reflexivity].
  unfold format_report. rewrite lower_idem.
  destruct (String.eqb (Fmt.lower m) "json"); [reflexivity|].
  destruct (String.eqb (Fmt.lower m) "text"); [reflexivity|].
  split; reflexivity.
Qed.

(** ** C6: validation of [--hours] *)

Lemma validate_arguments_hours_out (args : Args) :
  (hours args < 1 \/ 8760 < hours args)%Z -> validate_arguments args <> [].
Proof.
  intros Hout. unfold validate_arguments.
  destruct (hours args <=? 0)%Z eqn:E0.
  - destruct (region_opt args) as [[|c r]|]; try discriminate.
    destruct (negb (validate_aws_region (String c r))); discriminate.
  - destruct (hours args >? 8760)%Z eqn:E1; [|lia].
    destruct (region_opt args) as [[|c r]|]; try discriminate.
    destruct (negb (validate_aws_region (String c r))); discriminate.
Qed.

Lemma validate_arguments_hours_in (args : Args) :
  (1 <= hours args <= 8760)%Z ->
  validate_arguments args
  = match region_opt args with
    | Some (String c r) =>
        if negb (validate_aws_region (String c r))
        then ["Invalid AWS region format: " ++ String c r]
        else []
    | _ => []
    end.
Proof.
  intros Hin. unfold validate_arguments.
  destruct (hours args <=? 0)%Z eqn:E0; [lia|].
  destruct (hours args >? 8760)%Z eqn:E1; [lia|].
  destruct (region_opt args) as [[|c r]|]; reflexivity.
Qed.

Lemma main_validation_failure (env : Env) (args : Args) (h : history) :
  validate_arguments args <> [] ->
  main env args h
  = (1%Z,
     (List.rev (map (fun error => PrintErr ("  - " ++ error)) (validate_arguments args))
      ++ PrintErr "Validation errors:" :: h)%list).
Proof.
  intros Hne. unfold main.
  destruct (validate_arguments args); [congruence|reflexivity].
Qed.

Lemma forallb_rev_map_PrintErr (p : event -> bool) (f : string -> string)
    (errors : list string) :
  (forall s, p (PrintErr s) = true) ->
  forallb p (List.rev (map (fun error => PrintErr (f error)) errors)) = true.
Proof.
  intros Hp. apply forallb_forall. intros e He.
  apply in_rev in He. apply in_map_iff in He. destruct He as (s & <- & _).
  apply Hp.
Qed.

(** C6: a value of [--hours] outside 1..8760 (0 included) makes the
    validation return a non-empty list of errors, and [main] then exits
    with status 1 having only written to the error stream: no AWS call
    and no metric query is made.  A value within 1..8760 produces neither
    of the two errors about the hours, and no error at all when the
    region is absent or well-formed. *)
Theorem hours_validation (env : Env) (args : Args) (h : history) :
  ((hours args < 1 \/ 8760 < hours args)%Z ->
   validate_arguments args <> []
   /\ fst (main env args h) = 1%Z
   /\ exists out,
        snd (main env args h) = (out ++ h)%list
        /\ forallb (fun e => negb (is_aws_call e)) out = true
        /\ forallb (fun e => negb (is_metric_query e)) out = true)
  /\ ((1 <= hours args <= 8760)%Z ->
      ~ In "Hours must be a positive integer" (validate_arguments args)
      /\ ~ In "Hours cannot exceed 8760 (1 year)" (validate_arguments args)
      /\ (region_opt args = None -> validate_arguments args = [])
      /\ (forall r, region_opt args = Some r -> validate_aws_region r = true ->
                    validate_arguments args = [])).
Proof.
  split.
  - intros Hout.
    pose proof (validate_arguments_hours_out args Hout) as Hne.
    rewrite (main_validation_failure env args h Hne). cbn [fst snd].
    split; [exact Hne|]. split; [reflexivity|].
    exists (List.rev (map (fun error => PrintErr ("  - " ++ error))
                          (validate_arguments args))
            ++ [PrintErr "Validation errors:"])%list.
    split; [rewrite <- app_assoc; reflexivity|].
    rewrite !forallb_app.
    rewrite !(forallb_rev_map_PrintErr _ (fun error => "  - " ++ error))
      by reflexivity.
    split; reflexivity.
  - intros Hin. rewrite (validate_arguments_hours_in args Hin).
    destruct (region_opt args) as [[|c r]|] eqn:Hr.
    + repeat split; auto.
    + destruct (validate_aws_region (String c r)) eqn:Hv; cbn [negb].
      * repeat split; auto.
      * split; [intros [H|[]]; discriminate|].
        split; [intros [H|[]]; discriminate|].
        split; [discriminate|].
        intros r' Hr' Hv'. injection Hr' as <-. congruence.
    + repeat split; auto.
Qed.

Lemma hours_validation_witness :
  ((hours (sample_args 0) < 1 \/ 8760 < hours (sample_args 0))%Z
   /\ validate_arguments (sample_args 0) <> []
   /\ fst (main timeout_env (sample_args 0) []) = 1%Z)
  /\ ((1 <= hours (sample_args 24) <= 8760)%Z
      /\ validate_arguments (sample_args 24) = []).
Proof.
  split.
  - assert (H : (hours (sample_args 0) < 1 \/ 8760 < hours (sample_args 0))%Z)
      by (left; reflexivity).
    split; [exact H|].
    destruct (hours_validation timeout_env (sample_args 0) []) as [Hout _].
    destruct (Hout H) as (Hne & Hexit & _).
    split; [exact Hne | exact Hexit].
  - assert (H : (1 <= hours (sample_args 24) <= 8760)%Z)
      by (split; discriminate).
    split; [exact H|].
    destruct (hours_validation timeout_env (sample_args 24) []) as [_ Hin].
    destruct (Hin H) as (_ & _ & Hnone & _).
    apply Hnone. reflexivity.
Defined.

(** ** C8: the aggregator and exceptions *)

Lemma log_then_ret {A} (operation resource : string) (success : bool) (a : A)
    (h : history) :
  (log_operation operation resource success ;;; ret a) h
  = (Ok a, Log operation resource success :: h).
Proof. reflexivity. Qed.

Lemma get_metric_sum_client_error (env : Env) (metric_name model_id : string)
    (start_time end_time : Z) (h : history) (code : string) :
  get_metric_statistics env h metric_name model_id start_time end_time
  = Raise (ClientError code) ->
  fst (_get_metric_sum env metric_name model_id start_time end_time h) = Ok 0%Z.
Proof.
  intros Hq. unfold _get_metric_sum, try_except, bindM, perform.
  rewrite Hq. reflexivity.
Qed.

Lemma get_error_count_total (env : Env) (model_id : string)
    (start_time end_time : Z) (h : history) :
  exists n, fst (_get_error_count env model_id start_time end_time h) = Ok n.
Proof.
  unfold _get_error_count, try_except.
  match goal with |- context [match ?b with _ => _ end] => destruct b as [[n|e] h'] end.
  - exists n. reflexivity.
  - exists 0%Z. reflexivity.
Qed.

Lemma get_error_count_start_failure (env : Env) (model_id : string)
    (start_time end_time : Z) (h : history) (e : exn) :
  start_query env h model_id start_time end_time = Raise e ->
  fst (_get_error_count env model_id start_time end_time h) = Ok 0%Z.
Proof.
  intros Hq. unfold _get_error_count, try_except, bindM, perform.
  rewrite Hq. reflexivity.
Qed.

Lemma poll_query_pending (env : Env) (model_id query_id : string) (n : nat) :
  (forall h, poll_pending (get_query_results env h query_id)) ->
  forall h, fst (poll_query env model_id query_id n h) = Ok 0%Z.
Proof.
  intros Hpend. induction n as [|n IH]; intros h.
  - reflexivity.
  - cbn [poll_query]. unfold bindM at 1. cbn [emit].
    unfold bindM at 1. unfold try_except, bindM at 1, perform.
    destruct (Hpend (Sleep 1 :: h)) as [[code Hq]|[res [Hq Hst]]]; rewrite Hq.
    + cbn [is_ClientError ret]. apply IH.
    + destruct (String.eqb_spec (status res) "Complete") as [E|_]; [contradiction|].
      destruct (String.eqb (status res) "Failed").
      * reflexivity.
      * cbn [ret]. apply IH.
Qed.

Lemma get_error_count_pending (env : Env) (model_id : string)
    (start_time end_time : Z) (h : history) :
  (forall h' query_id, poll_pending (get_query_results env h' query_id)) ->
  fst (_get_error_count env model_id start_time end_time h) = Ok 0%Z.
Proof.
  intros Hpend. unfold _get_error_count, try_except, bindM at 1, perform.
  destruct (start_query env h model_id start_time end_time) as [query_id|e].
  - pose proof (poll_query_pending env model_id query_id 10
                  (fun h' => Hpend h' query_id)
                  (StartQuery model_id start_time end_time :: h)) as Hp.
    destruct (poll_query env model_id query_id 10
                (StartQuery model_id start_time end_time :: h)) as [[n|e] h'].
    + exact Hp.
    + discriminate Hp.
  - reflexivity.
Qed.

Lemma get_metrics_data_total (env : Env) (start_time end_time : Z) (h : history) :
  exists model_usage,
    fst (get_metrics_data env start_time end_time h) = Ok model_usage.
Proof.
  unfold get_metrics_data.
  destruct (_get_available_models env start_time end_time h) as [[models|e] h1].
  - destruct models as [|model_id models].
    + eexists. rewrite log_then_ret. reflexivity.
    + destruct (collect_loop env (model_id :: models) start_time end_time [] h1)
        as [[model_usage [e|]] h2].
      * eexists. rewrite log_then_ret. reflexivity.
      * eexists. reflexivity.
  - eexists. rewrite log_then_ret. reflexivity.
Qed.

(** C8 (as claimed, refuted): the [InputTokenCount] query of [model-b]
    times out.  The failure is not turned into 0 for that metric: it
    leaves [_get_metric_sum] as an exception, the loop over the models
    ends, and [model-b] is missing from the mapping although its
    invocation count is 5.  (Had the set of models been iterated in the
    other order, [model-a] would be missing as well.) *)
Lemma metric_timeout_drops_model :
  (forall h, fst (_get_metric_sum timeout_env "Invocations" "model-b" 0 3600 h)
             = Ok 5%Z)
  /\ (forall h, fst (_get_metric_sum timeout_env "InputTokenCount" "model-b" 0 3600 h)
                = Raise (OtherException "ReadTimeoutError"))
  /\ exists model_usage,
       fst (get_metrics_data timeout_env 0 3600 []) = Ok model_usage
       /\ keys model_usage = ["model-a"]
       /\ contains model_usage "model-b" = false.
Proof.
  split; [intros h; reflexivity|].
  split; [intros h; reflexivity|].
  eexists. split; [vm_compute; reflexivity|]. split; reflexivity.
Qed.

(** C8 (amended): for every time window and every behaviour of the
    environment, [get_metrics_data] raises no exception and returns a
    (possibly empty) mapping.  A metric query that fails with a
    [ClientError] yields 0 for that metric.  The error-count query never
    raises: it yields 0 when the query cannot be started, whatever the
    exception, and when no poll delivers a completed result within the
    10 attempts. *)
Theorem get_metrics_data_never_raises (env : Env) (start_time end_time : Z)
    (h : history) :
  (exists model_usage,
     fst (get_metrics_data env start_time end_time h) = Ok model_usage)
  /\ (forall metric_name model_id code,
        get_metric_statistics env h metric_name model_id start_time end_time
        = Raise (ClientError code) ->
        fst (_get_metric_sum env metric_name model_id start_time end_time h)
        = Ok 0%Z)
  /\ (forall model_id,
        exists n, fst (_get_error_count env model_id start_time end_time h) = Ok n)
  /\ (forall model_id e,
        start_query env h model_id start_time end_time = Raise e ->
        fst (_get_error_count env model_id start_time end_time h) = Ok 0%Z)
  /\ ((forall h' query_id, poll_pending (get_query_results env h' query_id)) ->
      forall model_id,
        fst (_get_error_count env model_id start_time end_time h) = Ok 0%Z).
Proof.
  split; [apply get_metrics_data_total|].
  split; [intros; eapply get_metric_sum_client_error; eassumption|].
  split; [intros; apply get_error_count_total|].
  split; [intros; eapply get_error_count_start_failure; eassumption|].
  intros Hpend model_id. apply get_error_count_pending. exact Hpend.
Qed.

Lemma get_metrics_data_never_raises_witness :
  fst (get_metrics_data quiet_env 0 3600 []) = Ok []
  /\ fst (_get_metric_sum quiet_env "Invocations" "model-a" 0 3600 []) = Ok 0%Z
  /\ start_query quiet_env [] "model-a" 0 3600
     = Raise (ClientError "ResourceNotFoundException")
  /\ (forall h' query_id, poll_pending (get_query_results quiet_env h' query_id))
  /\ fst (_get_error_count quiet_env "model-a" 0 3600 []) = Ok 0%Z.
Proof.
  destruct (get_metrics_data_never_raises quiet_env 0 3600 [])
    as (_ & Hsum & _ & Hstart & Hpend).
  assert (Hq : forall h' query_id,
             poll_pending (get_query_results quiet_env h' query_id)).
  { intros h' query_id. right.
    exists {| status := "Running"; results := [] |}.
    split; [reflexivity | discriminate]. }
  split; [reflexivity|].
  split; [apply (Hsum "Invocations" "model-a" "Throttling"); reflexivity|].
  split; [reflexivity|].
  split; [exact Hq|].
  apply (Hpend Hq "model-a").
Defined.

(** ** C9: the structured output parses back to the report *)

(** *** Strings *)

Lemma append_assoc (a b c : string) : ((a ++ b) ++ c = a ++ (b ++ c))%string.
Proof.
  induction a as [|x a IH]; simpl; [reflexivity | rewrite IH; reflexivity].
Qed.

Lemma length_append (a b : string) :
  String.length (a ++ b) = (String.length a + String.length b)%nat.
Proof.
  induction a as [|x a IH]; simpl; [reflexivity | rewrite IH; reflexivity].
Qed.

Lemma parse_escape_char (c : ascii) (rest : string) :
  Json.parse_string_body (Json.escape_char c ++ rest)
  = Json.cons_char c (Json.parse_string_body rest).
Proof.
  destruct c as [[] [] [] [] [] [] [] []]; reflexivity.
Qed.

Lemma parse_escape (s rest : string) :
  Json.parse_string_body (Json.escape s ++ String Json.dquote rest)
  = Some (s, rest).
Proof.
  induction s as [|c s IH]; simpl.
  - reflexivity.
  - rewrite append_assoc, parse_escape_char, IH. reflexivity.
Qed.

Lemma quote_append (s rest : string) :
  (Json.quote s ++ rest
   = String Json.dquote (Json.escape s ++ String Json.dquote rest))%string.
Proof.
  unfold Json.quote. simpl. rewrite append_assoc. reflexivity.
Qed.

Lemma skip_ws_spaces (n : nat) (s : string) :
  Json.skip_ws (Fmt.repeat_char " "%char n ++ s) = Json.skip_ws s.
Proof.
  induction n as [|n IH]; simpl; [reflexivity | exact IH].
Qed.

Lemma skip_ws_newline_indent (level : nat) (s : string) :
  Json.skip_ws (Json.newline_indent level ++ s) = Json.skip_ws s.
Proof.
  unfold Json.newline_indent. rewrite append_assoc. simpl.
  apply skip_ws_spaces.
Qed.

(** *** Integers *)

Lemma span_digits (ds rest : string) :
  Fmt.all_digits ds = true ->
  match rest with
  | EmptyString => True
  | String c _ => Fmt.is_digit c = false
  end ->
  Fmt.span Fmt.is_digit (ds ++ rest) = (ds, rest).
Proof.
  intros Hds Hrest. induction ds as [|c ds IH]; simpl.
  - destruct rest as [|c r]; simpl; [reflexivity | rewrite Hrest; reflexivity].
  - simpl in Hds. apply andb_prop in Hds. destruct Hds as [Hc Hds].
    rewrite Hc, (IH Hds). reflexivity.
Qed.

Lemma all_digits_uint (d : uint) :
  Fmt.all_digits (NilEmpty.string_of_uint d) = true.
Proof. induction d; simpl; auto. Qed.

Lemma digits_value_uint_acc (d : uint) :
  forall acc : positive,
    Json.digits_value_from (Z.pos acc) (NilEmpty.string_of_uint d)
    = Z.pos (Pos.of_uint_acc d acc).
Proof.
  induction d; intros acc;
    cbn [NilEmpty.string_of_uint Json.digits_value_from Pos.of_uint_acc].
  all: try reflexivity.
  all: rewrite <- IHd; f_equal;
    match goal with
    | |- context [Z.of_nat (nat_of_ascii ?c)] =>
        let v := eval vm_compute in (Z.of_nat (nat_of_ascii c)) in
        change (Z.of_nat (nat_of_ascii c)) with v
    end; lia.
Qed.

Lemma digits_value_uint (d : uint) :
  Json.digits_value (NilEmpty.string_of_uint d) = Z.of_N (Pos.of_uint d).
Proof.
  unfold Json.digits_value.
  induction d; cbn [NilEmpty.string_of_uint Json.digits_value_from Pos.of_uint];
    try reflexivity; try exact IHd;
    match goal with
    | |- Json.digits_value_from ?a _ = Z.of_N (N.pos (Pos.of_uint_acc _ ?acc)) =>
        change a with (Z.pos acc); apply digits_value_uint_acc
    end.
Qed.

Lemma to_uint_head (p : positive) :
  exists c s,
    NilEmpty.string_of_uint (Pos.to_uint p) = String c s
    /\ Fmt.is_digit c = true /\ Ascii.eqb c "0"%char = false.
Proof.
  assert (Hnorm : unorm (Pos.to_uint p) = Pos.to_uint p).
  { rewrite <- (DecimalPos.Unsigned.to_of (Pos.to_uint p)).
    rewrite DecimalPos.Unsigned.of_to. reflexivity. }
  pose proof (DecimalPos.Unsigned.to_uint_nonnil p) as Hnil.
  pose proof (DecimalPos.Unsigned.to_uint_nonzero p) as Hzero.
  destruct (Pos.to_uint p) as [|u|u|u|u|u|u|u|u|u|u] eqn:E;
    try congruence;
    try (eexists; eexists; split; [reflexivity | split; reflexivity]).
  exfalso. rewrite DecimalFacts.unorm_D0 in Hnorm.
  destruct u as [|u|u|u|u|u|u|u|u|u|u]; try (apply Hzero; reflexivity);
    match goal with
    | H : unorm ?v = D0 ?v |- _ =>
        pose proof (DecimalFacts.nb_digits_unorm v ltac:(discriminate)) as Hn;
        rewrite H in Hn; simpl in Hn; lia
    end.
Qed.

(** The decimal text of a natural number: digits only, no leading zero,
    and its value read back. *)
Lemma str_int_nonneg (z : Z) :
  (0 <= z)%Z ->
  exists c s,
    Fmt.str_int z = String c s
    /\ Fmt.is_digit c = true
    /\ Fmt.all_digits s = true
    /\ (Ascii.eqb c "0"%char = true -> s = EmptyString)
    /\ Json.digits_value (Fmt.str_int z) = z.
Proof.
  intros Hz. destruct z as [|p|p]; [| |lia].
  - exists "0"%char, EmptyString. repeat split; reflexivity.
  - unfold Fmt.str_int. cbn [Z.to_int NilZero.string_of_int].
    assert (Hs : NilZero.string_of_uint (Pos.to_uint p)
                 = NilEmpty.string_of_uint (Pos.to_uint p)).
    { pose proof (DecimalPos.Unsigned.to_uint_nonnil p).
      destruct (Pos.to_uint p); try reflexivity. congruence. }
    rewrite Hs.
    destruct (to_uint_head p) as (c & s & Hcs & Hc & Hc0).
    exists c, s. split; [exact Hcs|]. split; [exact Hc|].
    split.
    { pose proof (all_digits_uint (Pos.to_uint p)) as Hall.
      rewrite Hcs in Hall. simpl in Hall. apply andb_prop in Hall. tauto. }
    split; [rewrite Hc0; discriminate|].
    rewrite digits_value_uint, DecimalPos.Unsigned.of_to. reflexivity.
Qed.

Lemma number_end_not_digit (rest : string) :
  Json.number_end rest = true ->
  match rest with
  | EmptyString => True
  | String c _ => Fmt.is_digit c = false
  end.
Proof.
  destruct rest as [|c r]; simpl; [tauto|].
  intros H. apply negb_true_iff in H.
  apply orb_false_iff in H. destruct H as [H _].
  apply orb_false_iff in H. destruct H as [H _].
  apply orb_false_iff in H. tauto.
Qed.

Lemma scan_int_part_str (z : Z) (rest : string) :
  (0 <= z)%Z ->
  match rest with
  | EmptyString => True
  | String c _ => Fmt.is_digit c = false
  end ->
  Json.scan_int_part (Fmt.str_int z ++ rest) = Some (Fmt.str_int z, rest).
Proof.
  intros Hz Hrest.
  destruct (str_int_nonneg z Hz) as (c & s & Hcs & Hc & Hs & H0 & _).
  rewrite Hcs. cbn [String.append Json.scan_int_part].
  destruct (Ascii.eqb c "0"%char) eqn:E0.
  - rewrite (H0 eq_refl). reflexivity.
  - rewrite Hc.
    change (String c (s ++ rest)) with (String c s ++ rest)%string.
    rewrite span_digits; [reflexivity | simpl; rewrite Hc, Hs; reflexivity | exact Hrest].
Qed.

Lemma scan_fraction_none (rest : string) :
  Json.number_end rest = true -> Json.scan_fraction rest = (None, rest).
Proof.
  destruct rest as [|c r]; simpl; [reflexivity|].
  intros H. apply negb_true_iff in H.
  destruct (Ascii.eqb c "."%char); [|reflexivity].
  rewrite !orb_true_r in H. simpl in H.
  destruct (Fmt.is_digit c); discriminate.
Qed.

Lemma scan_exponent_none (rest : string) :
  Json.number_end rest = true -> Json.scan_exponent rest = (None, rest).
Proof.
  destruct rest as [|c r]; simpl; [reflexivity|].
  intros H. apply negb_true_iff in H.
  destruct (Ascii.eqb c "e"%char), (Ascii.eqb c "E"%char); simpl;
    try reflexivity; rewrite ?orb_true_r in H; discriminate.
Qed.

Lemma parse_number_nonneg_int (z : Z) (rest : string) :
  (0 <= z)%Z -> Json.number_end rest = true ->
  Json.parse_number (Fmt.str_int z ++ rest) = Some (Json.JInt z, rest).
Proof.
  intros Hz Hend. unfold Json.parse_number.
  destruct (str_int_nonneg z Hz) as (c & s & Hcs & Hc & _ & _ & Hval).
  assert (Hneg : Ascii.eqb c "-"%char = false).
  { destruct (Ascii.eqb_spec c "-"%char) as [->|]; [discriminate Hc | reflexivity]. }
  rewrite Hcs. cbn [String.append]. rewrite Hneg.
  change (String c (s ++ rest)) with (String c s ++ rest)%string.
  rewrite <- Hcs.
  rewrite (scan_int_part_str z rest Hz (number_end_not_digit rest Hend)).
  rewrite (scan_fraction_none rest Hend), (scan_exponent_none rest Hend).
  rewrite Hval. reflexivity.
Qed.

Lemma parse_number_int (z : Z) (rest : string) :
  Json.number_end rest = true ->
  Json.parse_number (Fmt.str_int z ++ rest) = Some (Json.JInt z, rest).
Proof.
  intros Hend. destruct z as [|p|p].
  - apply parse_number_nonneg_int; [lia | exact Hend].
  - apply parse_number_nonneg_int; [lia | exact Hend].
  - assert (Hs : Fmt.str_int (Z.neg p) = String "-"%char (Fmt.str_int (Z.pos p)))
      by reflexivity.
    rewrite Hs. unfold Json.parse_number. cbn [String.append].
    change (Ascii.eqb "-"%char "-"%char) with true. cbv iota.
    rewrite (scan_int_part_str (Z.pos p) rest ltac:(lia)
               (number_end_not_digit rest Hend)).
    rewrite (scan_fraction_none rest Hend), (scan_exponent_none rest Hend).
    destruct (str_int_nonneg (Z.pos p) ltac:(lia)) as (_ & _ & _ & _ & _ & _ & Hval).
    rewrite Hval. reflexivity.
Qed.

(** *** Floats *)

Lemma digit_char_spec (d : Z) :
  (0 <= d <= 9)%Z ->
  Fmt.is_digit (Fmt.digit_char d) = true
  /\ (Z.of_nat (nat_of_ascii (Fmt.digit_char d)) - 48)%Z = d.
Proof.
  intros Hd.
  assert (H : (d = 0 \/ d = 1 \/ d = 2 \/ d = 3 \/ d = 4 \/ d = 5 \/ d = 6
                \/ d = 7 \/ d = 8 \/ d = 9)%Z) by lia.
  repeat (destruct H as [->|H]; [split; reflexivity | idtac]).
  subst d. split; reflexivity.
Qed.

Lemma frac_digits_spec (n : nat) :
  forall f,
    (0 <= f < 10 ^ Z.of_nat n)%Z ->
    Fmt.all_digits (Fmt.frac_digits n f) = true
    /\ String.length (Fmt.frac_digits n f) = n
    /\ forall acc,
         Json.digits_value_from acc (Fmt.frac_digits n f)
         = (acc * 10 ^ Z.of_nat n + f)%Z.
Proof.
  induction n as [|n IH]; intros f Hf.
  - simpl in *. repeat split; try reflexivity. intros acc. lia.
  - rewrite Nat2Z.inj_succ, Z.pow_succ_r in Hf by lia.
    assert (Hp : (0 < 10 ^ Z.of_nat n)%Z) by (apply Z.pow_pos_nonneg; lia).
    pose proof (Z.div_mod f (10 ^ Z.of_nat n) ltac:(lia)) as Hdm.
    pose proof (Z.mod_pos_bound f (10 ^ Z.of_nat n) Hp) as Hm.
    assert (Hd : (0 <= f / 10 ^ Z.of_nat n <= 9)%Z).
    { split; [apply Z.div_pos; lia|].
      assert (f / 10 ^ Z.of_nat n < 10)%Z; [|lia].
      apply Z.div_lt_upper_bound; lia. }
    destruct (digit_char_spec _ Hd) as [Hdig Hval].
    destruct (IH _ Hm) as (Hall & Hlen & Hacc).
    cbn [Fmt.frac_digits Fmt.all_digits String.length Json.digits_value_from].
    rewrite Hdig, Hall, Hlen. repeat split; try reflexivity.
    intros acc. rewrite Hacc, Hval.
    rewrite Nat2Z.inj_succ, Z.pow_succ_r by lia.
    set (p := (10 ^ Z.of_nat n)%Z) in *. nia.
Qed.

(** The value the decoder gives to an integer part [i] and [n] decimals
    [f]. *)
Lemma fixed_value (i f : Z) (n : nat) :
  (inject_Z i + inject_Z f / pow10 n) * Qpower 10 0
  == inject_Z (i * 10 ^ Z.of_nat n + f) / pow10 n.
Proof.
  pose proof (pow10_pos n) as Hp.
  rewrite inject_Z_plus, inject_Z_mult. fold (pow10 n).
  change (Qpower 10 0) with 1. field.
  intros H0. rewrite H0 in Hp. discriminate.
Qed.

Lemma parse_number_fixed (neg : bool) (i f : Z) (n : nat) (rest : string) :
  (0 <= i)%Z -> (0 <= f < 10 ^ Z.of_nat (S n))%Z ->
  Json.number_end rest = true ->
  Json.parse_number
    ((if neg then "-" else "")
     ++ Fmt.str_int i ++ "." ++ Fmt.frac_digits (S n) f ++ rest)
  = Some (Json.JFloat
            (let v := (inject_Z i + inject_Z f / pow10 (S n)) * Qpower 10 0 in
             if neg then - v else v),
          rest).
Proof.
  intros Hi Hf Hend.
  destruct (frac_digits_spec (S n) f Hf) as (Hall & Hlen & Hacc).
  destruct (str_int_nonneg i Hi) as (c & s & Hcs & Hc & _ & _ & Hval).
  assert (Hminus : Ascii.eqb c "-"%char = false).
  { destruct (Ascii.eqb_spec c "-"%char) as [->|]; [discriminate Hc | reflexivity]. }
  assert (Htail :
    match Json.scan_int_part
            (Fmt.str_int i ++ "." ++ Fmt.frac_digits (S n) f ++ rest) with
    | None => None
    | Some (ids, s2) =>
        let (frac, s3) := Json.scan_fraction s2 in
        let (exp, s4) := Json.scan_exponent s3 in
        match frac, exp with
        | None, None =>
            Some (Json.JInt (if neg then (- Json.digits_value ids)%Z
                             else Json.digits_value ids), s4)
        | _, _ =>
            let fr := match frac with
                      | Some fds =>
                          inject_Z (Json.digits_value fds)
                          / pow10 (String.length fds)
                      | None => 0
                      end in
            let e := match exp with Some e => e | None => 0%Z end in
            let v := (inject_Z (Json.digits_value ids) + fr) * Qpower 10 e in
            Some (Json.JFloat (if neg then - v else v), s4)
        end
    end
    = Some (Json.JFloat
              (let v := (inject_Z i + inject_Z f / pow10 (S n)) * Qpower 10 0 in
               if neg then - v else v),
            rest)).
  { rewrite scan_int_part_str by (simpl; auto).
    cbn [String.append Json.scan_fraction].
    change (Ascii.eqb "."%char "."%char) with true. cbv iota.
    rewrite (span_digits _ rest Hall (number_end_not_digit rest Hend)).
    destruct (Fmt.frac_digits (S n) f) as [|d ds] eqn:Efd; [discriminate Hlen|].
    rewrite (scan_exponent_none rest Hend).
    rewrite Hval. unfold Json.digits_value. rewrite Hacc, Hlen.
    rewrite Z.mul_0_l, Z.add_0_l. reflexivity. }
  unfold Json.parse_number. destruct neg.
  - cbn [String.append].
    change (Ascii.eqb "-"%char "-"%char) with true. cbv iota.
    exact Htail.
  - cbn [String.append]. rewrite Hcs at 1. cbn [String.append].
    rewrite Hminus.
    exact Htail.
Qed.

Lemma round_half_even_integer (x : Q) (m : Z) :
  x == inject_Z m -> round_half_even x = m.
Proof.
  intros H. rewrite (round_half_even_comp x (inject_Z m) H).
  unfold round_half_even. rewrite Qfloor_Z.
  assert (Hc : Qcompare (inject_Z m - inject_Z m) (1 # 2) = Qcompare 0 (1 # 2)).
  { apply Qcompare_comp; [ring | reflexivity]. }
  rewrite Hc. reflexivity.
Qed.

Lemma is_integral_spec (x : Q) :
  Fmt.is_integral x = true -> x == inject_Z (Qfloor x).
Proof.
  unfold Fmt.is_integral. intros H. apply Qeq_bool_iff in H.
  symmetry. exact H.
Qed.

Lemma parse_number_format_fixed (x : Q) (n : nat) (rest : string) :
  Fmt.is_integral (x * pow10 (S n)) = true ->
  Json.number_end rest = true ->
  exists v,
    Json.parse_number (Fmt.format_fixed x (S n) ++ rest)
    = Some (Json.JFloat v, rest)
    /\ v == x.
Proof.
  intros Hint Hend.
  pose proof (is_integral_spec _ Hint) as Hx.
  set (m := Qfloor (x * pow10 (S n))) in *.
  pose proof (pow10_pos (S n)) as Hp.
  assert (Hp' : (0 < 10 ^ Z.of_nat (S n))%Z) by (apply Z.pow_pos_nonneg; lia).
  unfold Fmt.format_fixed.
  rewrite (round_half_even_integer _ m Hx).
  set (p := (10 ^ Z.of_nat (S n))%Z) in *.
  pose proof (Z.div_mod (Z.abs m) p ltac:(lia)) as Hdm.
  pose proof (Z.mod_pos_bound (Z.abs m) p Hp') as Hmod.
  assert (Hdiv : (0 <= Z.abs m / p)%Z) by (apply Z.div_pos; lia).
  assert (Hne : ~ pow10 (S n) == 0) by (intros H0; rewrite H0 in Hp; discriminate).
  assert (Hsum : (Z.abs m / p * 10 ^ Z.of_nat (S n) + Z.abs m mod p)%Z = Z.abs m).
  { fold p. lia. }
  assert (Hval : (inject_Z (Z.abs m / p) + inject_Z (Z.abs m mod p) / pow10 (S n))
                 * Qpower 10 0
                 == inject_Z (Z.abs m) / pow10 (S n)).
  { rewrite fixed_value, Hsum. reflexivity. }
  cbv zeta. rewrite !append_assoc.
  destruct (Qlt_le_dec x 0) as [Hneg|Hpos].
  - eexists. split.
    + exact (parse_number_fixed true (Z.abs m / p) (Z.abs m mod p) n rest
               Hdiv Hmod Hend).
    + cbv beta iota zeta. rewrite Hval.
      assert (Hm : (m < 0)%Z).
      { rewrite Zlt_Qlt. change (inject_Z 0) with 0. nra. }
      rewrite Z.abs_neq by lia. rewrite inject_Z_opp.
      rewrite <- Hx. field. exact Hne.
  - eexists. split.
    + exact (parse_number_fixed false (Z.abs m / p) (Z.abs m mod p) n rest
               Hdiv Hmod Hend).
    + cbv beta iota zeta. rewrite Hval.
      assert (Hm : (0 <= m)%Z).
      { rewrite Zle_Qle. change (inject_Z 0) with 0. nra. }
      rewrite Z.abs_eq by lia.
      rewrite <- Hx. field. exact Hne.
Qed.

Lemma decimals_from_spec (x : Q) (fuel : nat) :
  forall k,
    (exists j, (k <= j < k + fuel)%nat /\ Fmt.is_integral (x * pow10 j) = true) ->
    (k <= Fmt.decimals_from fuel k x)%nat
    /\ Fmt.is_integral (x * pow10 (Fmt.decimals_from fuel k x)) = true.
Proof.
  induction fuel as [|fuel IH]; intros k (j & Hj & Hint).
  - lia.
  - cbn [Fmt.decimals_from].
    destruct (Fmt.is_integral (x * pow10 k)) eqn:Ek.
    + split; [lia | exact Ek].
    + assert (Hjk : j <> k) by (intros ->; congruence).
      destruct (IH (S k)) as [Hle Hok].
      { exists j. split; [lia | exact Hint]. }
      split; [lia | exact Hok].
Qed.

(** The positional [repr] of a float with at most 16 decimals reads back
    as the same number. *)
Lemma parse_number_repr_float (q : Q) (rest : string) :
  Json.decimal16 q ->
  Json.number_end rest = true ->
  exists v,
    Json.parse_number (Fmt.repr_float q ++ rest) = Some (Json.JFloat v, rest)
    /\ v == q.
Proof.
  intros Hdec Hend. unfold Fmt.repr_float.
  destruct (decimals_from_spec q 16 1) as [Hle Hint].
  { exists 16%nat. split; [lia | exact Hdec]. }
  destruct (Fmt.decimals_from 16 1 q) as [|n]; [lia|].
  apply parse_number_format_fixed; assumption.
Qed.

(** *** Documents *)

Lemma dumps_at_obj (level : nat) (k0 : string) (v0 : Json.json)
    (rest : list (string * Json.json)) :
  Json.dumps_at level (Json.JObj ((k0, v0) :: rest))
  = ("{" ++ Json.newline_indent (S level)
     ++ Json.quote k0 ++ ": " ++ Json.dumps_at (S level) v0
     ++ Json.members_text level rest
     ++ Json.newline_indent level ++ "}")%string.
Proof.
  cbn [Json.dumps_at].
  match goal with
  | |- context [?f rest] =>
      is_fix f;
      assert (Hm : forall kvs, f kvs = Json.members_text level kvs)
  end.
  { induction kvs as [|[k v] kvs IH]; [reflexivity|].
    cbn [Json.members_text]. rewrite <- IH. reflexivity. }
  rewrite Hm. reflexivity.
Qed.

Lemma json_eq_obj (xs ys : list (string * Json.json)) :
  Forall2 Json.member_eq xs ys -> Json.json_eq (Json.JObj xs) (Json.JObj ys).
Proof.
  intros H. cbn [Json.json_eq].
  induction H as [|[k v] [k' v'] xs ys [Hk Hv] _ IH]; [exact I|].
  simpl in Hk, Hv. split; [exact Hk|]. split; [exact Hv | exact IH].
Qed.

Lemma is_digit_not_special (c : ascii) :
  Fmt.is_digit c = true \/ c = "-"%char ->
  Ascii.eqb c "{"%char = false /\ Ascii.eqb c Json.dquote = false
  /\ Json.is_ws c = false.
Proof.
  intros [H| ->]; [|repeat split; reflexivity].
  repeat split.
  - destruct (Ascii.eqb_spec c "{"%char) as [->|]; [discriminate H | reflexivity].
  - destruct (Ascii.eqb_spec c Json.dquote) as [->|]; [discriminate H | reflexivity].
  - unfold Fmt.is_digit in H. unfold Json.is_ws.
    apply andb_prop in H. destruct H as [H1 H2].
    apply Nat.leb_le in H1. apply Nat.leb_le in H2.
    repeat (apply orb_false_iff; split); apply Nat.eqb_neq; lia.
Qed.

Lemma str_int_head (z : Z) :
  exists c s, Fmt.str_int z = String c s
              /\ (Fmt.is_digit c = true \/ c = "-"%char).
Proof.
  destruct z as [|p|p].
  - exists "0"%char, EmptyString. split; [reflexivity | left; reflexivity].
  - destruct (str_int_nonneg (Z.pos p) ltac:(lia)) as (c & s & Hcs & Hc & _).
    exists c, s. split; [exact Hcs | left; exact Hc].
  - eexists. eexists. split; [reflexivity | right; reflexivity].
Qed.

Lemma format_fixed_head (x : Q) (n : nat) :
  exists c s, Fmt.format_fixed x n = String c s
              /\ (Fmt.is_digit c = true \/ c = "-"%char).
Proof.
  unfold Fmt.format_fixed. cbv zeta.
  destruct (Qlt_le_dec x 0).
  - eexists. eexists. split; [reflexivity | right; reflexivity].
  - cbn [String.append].
    match goal with
    | |- context [Fmt.str_int ?i] =>
        destruct (str_int_nonneg i) as (c & s & Hcs & Hc & _)
    end.
    { apply Z.div_pos; [lia | apply Z.pow_pos_nonneg; lia]. }
    rewrite Hcs. cbn [String.append].
    eexists. eexists. split; [reflexivity | left; exact Hc].
Qed.

Lemma parse_value_number (fuel : nat) (c : ascii) (s : string) :
  Fmt.is_digit c = true \/ c = "-"%char ->
  Json.parse_value (S fuel) (String c s) = Json.parse_number (String c s).
Proof.
  intros H. destruct (is_digit_not_special c H) as (H1 & H2 & _).
  cbn [Json.parse_value]. rewrite H1, H2. reflexivity.
Qed.

(** The encoding of a document starts with a character that is not
    white space. *)
Lemma dumps_head (level : nat) (v : Json.json) :
  exists c s, Json.dumps_at level v = String c s /\ Json.is_ws c = false.
Proof.
  destruct v as [z|q|t|[|[k0 v0] kvs]].
  - destruct (str_int_head z) as (c & s & Hcs & Hc).
    exists c, s. split; [exact Hcs | apply (is_digit_not_special c Hc)].
  - destruct (format_fixed_head q (Fmt.decimals_from 16 1 q)) as (c & s & Hcs & Hc).
    exists c, s. split; [exact Hcs | apply (is_digit_not_special c Hc)].
  - eexists. eexists. split; reflexivity.
  - eexists. eexists. split; reflexivity.
  - rewrite dumps_at_obj. eexists. eexists. split; reflexivity.
Qed.

Lemma skip_ws_dumps (level : nat) (v : Json.json) (rest : string) :
  Json.skip_ws (Json.dumps_at level v ++ rest) = (Json.dumps_at level v ++ rest)%string.
Proof.
  destruct (dumps_head level v) as (c & s & Hcs & Hc).
  rewrite Hcs. cbn [String.append Json.skip_ws]. rewrite Hc. reflexivity.
Qed.

Lemma skip_ws_space (s : string) :
  Json.skip_ws (String " "%char s) = Json.skip_ws s.
Proof. reflexivity. Qed.

Lemma skip_ws_quote (k rest : string) :
  Json.skip_ws (Json.quote k ++ rest) = (Json.quote k ++ rest)%string.
Proof. rewrite quote_append. reflexivity. Qed.

(** What follows a member of an object ends a number. *)
Lemma members_tail_number_end (level : nat) (kvs : list (string * Json.json))
    (rest : string) :
  Json.number_end
    (Json.members_text level kvs ++ Json.newline_indent level ++ "}" ++ rest)
  = true.
Proof. destruct kvs as [|[k v] kvs]; reflexivity. Qed.

Lemma json_eq_refl_atom (v : Json.json) :
  match v with Json.JObj _ => False | _ => True end -> Json.json_eq v v.
Proof. destruct v; simpl; intros H; try reflexivity. destruct H. Qed.

(** The decoder inverts the encoder, by induction on the fuel: for a
    document ([parse_value]) and for the members of an object from the
    quote of a key on ([parse_members]). *)
Lemma parse_dumps (fuel : nat) :
  (forall v level rest,
     Json.plain v -> Json.number_end rest = true ->
     (Json.need v <= fuel)%nat ->
     exists v',
       Json.parse_value fuel (Json.dumps_at level v ++ rest) = Some (v', rest)
       /\ Json.json_eq v' v)
  /\ (forall kvs k v acc level rest,
        NoDup (map fst acc ++ map fst ((k, v) :: kvs)) ->
        Json.plain v ->
        fold_right (fun kv a => Json.plain (snd kv) /\ a) True kvs ->
        (Json.members_need ((k, v) :: kvs) <= fuel)%nat ->
        exists ms',
          Json.parse_members fuel acc
            (Json.quote k ++ ": " ++ Json.dumps_at (S level) v
             ++ Json.members_text level kvs
             ++ Json.newline_indent level ++ "}" ++ rest)
          = Some (Json.JObj (acc ++ ms'), rest)
          /\ Forall2 Json.member_eq ms' ((k, v) :: kvs)).
Proof.
  induction fuel as [|fuel [IHv IHm]].
  { split.
    - intros v level rest _ _ Hn. destruct v; simpl in Hn; lia.
    - intros kvs k v acc level rest _ _ _ Hn.
      unfold Json.members_need in Hn. simpl in Hn. lia. }
  split.
  - intros v level rest Hplain Hend Hneed.
    destruct v as [z|q|t|[|[k0 v0] kvs]].
    + destruct (str_int_head z) as (c & s & Hcs & Hc).
      cbn [Json.dumps_at].
      rewrite Hcs. cbn [String.append].
      rewrite (parse_value_number fuel c (s ++ rest) Hc).
      change (String c (s ++ rest)) with (String c s ++ rest)%string.
      rewrite <- Hcs.
      rewrite (parse_number_int z rest Hend).
      exists (Json.JInt z). split; reflexivity.
    + cbn [Json.dumps_at]. unfold Fmt.repr_float.
      destruct (format_fixed_head q (Fmt.decimals_from 16 1 q)) as (c & s & Hcs & Hc).
      rewrite Hcs. cbn [String.append].
      rewrite (parse_value_number fuel c (s ++ rest) Hc).
      change (String c (s ++ rest)) with (String c s ++ rest)%string.
      rewrite <- Hcs.
      destruct (parse_number_repr_float q rest Hplain Hend) as (v' & Hp & Hv).
      unfold Fmt.repr_float in Hp. rewrite Hp.
      exists (Json.JFloat v'). split; [reflexivity | exact Hv].
    + cbn [Json.dumps_at]. rewrite quote_append.
      cbn [Json.parse_value].
      change (Ascii.eqb Json.dquote "{"%char) with false.
      change (Ascii.eqb Json.dquote Json.dquote) with true. cbv iota.
      rewrite parse_escape.
      exists (Json.JStr t). split; reflexivity.
    + exists (Json.JObj []). split; reflexivity.
    + rewrite dumps_at_obj.
      rewrite !append_assoc. cbn [String.append Json.parse_value].
      change (Ascii.eqb "{"%char "{"%char) with true. cbv iota.
      rewrite skip_ws_newline_indent, skip_ws_quote.
      destruct Hplain as [Hnd [Hp0 Hps]].
      destruct (IHm kvs k0 v0 [] level rest) as (ms' & Hparse & Hms).
      * exact Hnd.
      * exact Hp0.
      * exact Hps.
      * cbn [Json.need] in Hneed. unfold Json.members_need. lia.
      * cbn [String.append] in Hparse |- *.
        remember (Json.quote k0 ++ String ":" (String " " (Json.dumps_at (S level) v0
                  ++ Json.members_text level kvs
                  ++ Json.newline_indent level ++ String "}" rest)))%string as T eqn:ET.
        rewrite quote_append in ET.
        destruct T as [|c' r']; [discriminate ET|].
        injection ET as -> _.
        change (Ascii.eqb Json.dquote "}"%char) with false. cbv iota.
        rewrite Hparse.
        exists (Json.JObj ms'). split; [reflexivity|].
        apply json_eq_obj. exact Hms.
  - intros kvs k v acc level rest Hnd Hpv Hps Hneed.
    unfold Json.members_need in Hneed. cbn [fold_right snd] in Hneed.
    fold (Json.members_need kvs) in Hneed.
    rewrite quote_append. cbn [Json.parse_members].
    change (Ascii.eqb Json.dquote Json.dquote) with true. cbv iota.
    rewrite parse_escape.
    cbn [String.append Json.skip_ws].
    change (Json.is_ws ":"%char) with false. cbv iota.
    change (Ascii.eqb ":"%char ":"%char) with true. cbv iota.
    rewrite skip_ws_space, skip_ws_dumps.
    destruct (IHv v (S level)
                (Json.members_text level kvs
                 ++ Json.newline_indent level ++ "}" ++ rest)%string)
      as (v' & Hparse & Hv').
    + exact Hpv.
    + apply members_tail_number_end.
    + lia.
    + cbn [String.append] in Hparse. rewrite Hparse.
      assert (Hfresh : ~ In k (keys acc)).
      { intros Hin. apply NoDup_remove_2 in Hnd. apply Hnd.
        apply in_or_app. left. exact Hin. }
      unfold Json.add_member. rewrite (setitem_fresh acc k v' Hfresh).
      destruct kvs as [|[k2 v2] kvs].
      * cbn [Json.members_text String.append].
        rewrite skip_ws_newline_indent. cbn [String.append Json.skip_ws].
        change (Json.is_ws "}"%char) with false. cbv iota.
        change (Ascii.eqb "}"%char ","%char) with false.
        change (Ascii.eqb "}"%char "}"%char) with true. cbv iota.
        exists [(k, v')]. split; [reflexivity|].
        constructor; [split; [reflexivity | exact Hv'] | constructor].
      * cbn [Json.members_text]. rewrite !append_assoc.
        cbn [String.append Json.skip_ws].
        change (Json.is_ws ","%char) with false. cbv iota.
        change (Ascii.eqb ","%char ","%char) with true. cbv iota.
        rewrite skip_ws_newline_indent, skip_ws_quote.
        destruct Hps as [Hp2 Hps].
        destruct (IHm kvs k2 v2 (acc ++ [(k, v')])%list level rest)
          as (ms' & Hparse2 & Hms).
        -- rewrite map_app. simpl. rewrite <- app_assoc. simpl.
           simpl in Hnd. exact Hnd.
        -- exact Hp2.
        -- exact Hps.
        -- lia.
        -- cbn [String.append] in Hparse2 |- *. rewrite Hparse2.
           exists ((k, v') :: ms').
           split; [rewrite <- app_assoc; reflexivity|].
           constructor; [split; [reflexivity | exact Hv'] | exact Hms].
Qed.

Lemma append_nil_r (s : string) : (s ++ "")%string = s.
Proof. induction s as [|c s IH]; simpl; [reflexivity | rewrite IH; reflexivity]. Qed.

Lemma length_quote (k : string) : (2 <= String.length (Json.quote k))%nat.
Proof.
  unfold Json.quote. cbn [String.length]. rewrite length_append. simpl. lia.
Qed.

(** The fuel [loads] provides is enough for every encoded document. *)
Lemma need_le_length (n : nat) :
  forall v level,
    (Json.need v <= n)%nat ->
    (Json.need v <= S (String.length (Json.dumps_at level v)))%nat.
Proof.
  induction n as [|n IH]; intros v level Hn.
  - destruct v; simpl in Hn; lia.
  - destruct v as [z|q|t|[|[k0 v0] kvs]]; try (simpl; lia).
    assert (Hmembers :
      forall kvs level,
        (Json.members_need kvs <= n)%nat ->
        (Json.members_need kvs
         <= String.length (Json.members_text level kvs))%nat).
    { clear - IH. induction kvs as [|[k v] kvs IHk]; intros level Hk.
      - simpl. lia.
      - unfold Json.members_need in Hk |- *. cbn [fold_right snd] in Hk |- *.
        fold (Json.members_need kvs) in Hk |- *.
        cbn [Json.members_text]. rewrite !length_append.
        pose proof (Nat.le_max_l (Json.need v) (Json.members_need kvs)).
        pose proof (Nat.le_max_r (Json.need v) (Json.members_need kvs)).
        assert (Hv : (Json.need v <= n)%nat) by lia.
        assert (Hr : (Json.members_need kvs <= n)%nat) by lia.
        pose proof (IH v (S level) Hv).
        pose proof (IHk level Hr).
        pose proof (length_quote k). simpl String.length. lia. }
    rewrite dumps_at_obj, !length_append.
    cbn [Json.need fold_right snd] in Hn |- *.
    fold (Json.members_need kvs) in Hn |- *.
    pose proof (Nat.le_max_l (Json.need v0) (Json.members_need kvs)).
    pose proof (Nat.le_max_r (Json.need v0) (Json.members_need kvs)).
    assert (Hv : (Json.need v0 <= n)%nat) by lia.
    assert (Hr : (Json.members_need kvs <= n)%nat) by lia.
    pose proof (IH v0 (S level) Hv).
    pose proof (Hmembers kvs level Hr).
    pose proof (length_quote k0). simpl String.length. lia.
Qed.

Lemma loads_dumps (v : Json.json) :
  Json.plain v ->
  exists v', Json.loads (Json.dumps v) = Some v' /\ Json.json_eq v' v.
Proof.
  intros Hplain. unfold Json.loads, Json.dumps.
  pose proof (skip_ws_dumps 0 v "") as Hskip. rewrite append_nil_r in Hskip.
  rewrite Hskip.
  destruct (parse_dumps (S (String.length (Json.dumps_at 0 v)))) as [Hv _].
  destruct (Hv v 0%nat EmptyString Hplain eq_refl
              (need_le_length (Json.need v) v 0 (le_n _)))
    as (v' & Hparse & Heq).
  rewrite append_nil_r in Hparse. rewrite Hparse.
  exists v'. split; [reflexivity | exact Heq].
Qed.

(** *** Reports *)

Lemma plain_of_num (x : pynum) : num_ok x -> Json.plain (Json.of_num x).
Proof. destruct x; simpl; auto. Qed.

Lemma valid_report_plain (report : UsageReport) :
  valid_report report -> Json.plain (asdict report).
Proof.
  intros (Hwf & Hmodels & Hcost & Hmonthly & Havg & Hp99 & Hrate).
  unfold asdict. cbn [Json.plain map fst snd fold_right].
  split.
  { repeat constructor; simpl; intuition discriminate. }
  split.
  { split; [repeat constructor; simpl; intuition discriminate | tauto]. }
  split.
  { split; [repeat constructor; simpl; intuition discriminate|].
    repeat split; try exact I. apply plain_of_num. exact Hcost. }
  split.
  { split.
    - rewrite map_map. simpl. exact Hwf.
    - clear Hwf. induction Hmodels as [|[k m] ms [Hc Hl] _ IH]; simpl; [exact I|].
      split; [|exact IH].
      split; [repeat constructor; simpl; intuition discriminate|].
      simpl in Hc, Hl.
      repeat split; try exact I; apply plain_of_num; assumption. }
  split.
  { split; [repeat constructor; simpl; intuition discriminate|].
    repeat split; try exact I. apply plain_of_num. exact Hmonthly. }
  split; [|exact I].
  split; [repeat constructor; simpl; intuition discriminate|].
  repeat split; try exact I; apply plain_of_num; assumption.
Qed.

Lemma decimal16_round_float (x : Q) (n : nat) :
  (n <= 16)%nat -> Json.decimal16 (round_float x n).
Proof.
  intros Hn. unfold Json.decimal16, Fmt.is_integral.
  apply Qeq_bool_iff.
  set (m := round_half_even (x * pow10 n)).
  assert (E : round_float x n * pow10 16
              == inject_Z (m * 10 ^ Z.of_nat (16 - n))).
  { unfold round_float. fold m. rewrite inject_Z_mult.
    pose proof (pow10_pos n) as Hp.
    assert (Hsplit : pow10 16 == pow10 n * inject_Z (10 ^ Z.of_nat (16 - n))).
    { unfold pow10. rewrite <- inject_Z_mult, <- Z.pow_add_r by lia.
      replace (Z.of_nat n + Z.of_nat (16 - n))%Z with (Z.of_nat 16) by lia.
      reflexivity. }
    rewrite Hsplit. field. intros H0. rewrite H0 in Hp. discriminate. }
  rewrite (Qfloor_comp _ _ E), Qfloor_Z. symmetry. exact E.
Qed.

Lemma num_ok_round (x : pynum) (n : nat) : (n <= 16)%nat -> num_ok (round x n).
Proof.
  intros Hn. destruct x; simpl; [exact I | apply decimal16_round_float; exact Hn].
Qed.

(** Every report the builder returns is valid. *)
Lemma build_report_valid (model_usage : dict ModelUsage) (hours : Z)
    (start_iso end_iso : string) :
  wf_dict model_usage ->
  exists r,
    build_report model_usage hours start_iso end_iso = Ok r /\ valid_report r.
Proof.
  intros Hwf.
  destruct (build_report_eq model_usage hours start_iso end_iso) as (bm & Hbm & Hr).
  rewrite (by_model_of_wf _ Hwf) in Hbm. injection Hbm as <-.
  eexists. split; [exact Hr|].
  unfold valid_report, report_of.
  cbn [by_model summary projections performance estimatedCost monthlyCost
       avgLatency p99Latency errorRate].
  split.
  { unfold wf_dict, keys. rewrite map_map. exact Hwf. }
  split.
  { apply Forall_forall. intros kv Hin.
    apply in_map_iff in Hin. destruct Hin as (it & <- & _).
    cbn [snd summary_of m_cost m_avgLatency num_ok].
    split; apply decimal16_round_float; lia. }
  repeat split; apply num_ok_round; lia.
Qed.

(** C9: for every valid report, parsing the structured output yields the
    document of the report ([asdict]) back: the same keys in the same
    order, the same strings and integers, and floats of the same value.
    Every report that the builder returns from a usage mapping is
    valid. *)
Theorem structured_output_round_trip (report : UsageReport) :
  valid_report report ->
  exists text parsed,
    format_report report "json" = Ok text
    /\ parse_json_safely text = Some parsed
    /\ Json.json_eq parsed (asdict report).
Proof.
  intros Hvalid.
  destruct (loads_dumps (asdict report) (valid_report_plain report Hvalid))
    as (parsed & Hloads & Heq).
  exists (Json.dumps (asdict report)), parsed.
  split; [reflexivity|]. split; [exact Hloads | exact Heq].
Qed.

Lemma structured_output_round_trip_witness :
  valid_report sample_report
  /\ exists text parsed,
       format_report sample_report "json" = Ok text
       /\ parse_json_safely text = Some parsed
       /\ Json.json_eq parsed (asdict sample_report).
Proof.
  assert (Hwf : wf_dict sample_usage).
  { unfold wf_dict, sample_usage. simpl. repeat constructor. simpl. tauto. }
  assert (Hvalid : valid_report sample_report).
  { destruct (build_report_valid sample_usage 24
                "2024-01-01T00:00:00" "2024-01-02T00:00:00" Hwf) as (r & Hr & Hv).
    unfold sample_report. rewrite Hr. exact Hv. }
  split.
  - exact Hvalid.
  - apply (structured_output_round_trip sample_report Hvalid).
Defined.

(* ===================================================================== *)
(** * Part III: further properties of the code                            *)
(* ===================================================================== *)

(** ** The builder *)


(** X2: for the empty usage mapping the builder returns the all-zero
    report, for every window: an empty breakdown, integer zeros for the
    totals, the cost, the latencies and the error rate, and zero
    projections. *)
Theorem build_report_empty (hours : Z) (start_iso end_iso : string) :
  exists r,
    build_report [] hours start_iso end_iso = Ok r
    /\ by_model r = []
    /\ summary r = {| totalInvocations := 0; totalInputTokens := 0;
                      totalOutputTokens := 0; estimatedCost := PyInt 0 |}
    /\ performance r = {| avgLatency := PyInt 0; p99Latency := PyInt 0;
                          errorCount := 0; errorRate := PyInt 0 |}
    /\ monthlyInvocations (projections r) = 0%Z
    /\ to_Q (monthlyCost (projections r)) == 0.
Proof.
  unfold build_report. cbn -[Z.mul truediv int mul round].
  destruct (hours >? 0)%Z eqn:Hpos.
  - rewrite truediv_int by lia. cbn [bind].
    eexists. split; [reflexivity|].
    cbn [by_model summary performance projections monthlyInvocations monthlyCost].
    repeat split.
  - cbn [bind]. eexists. split; [reflexivity|]. repeat split.
Qed.




Lemma sumZ_map_le {A} (f g : A -> Z) (l : list A) :
  (forall x, In x l -> (f x <= g x)%Z) ->
  (sumZ (map f l) <= sumZ (map g l))%Z.
Proof.
  induction l as [|x l IH]; intros H.
  - apply Z.le_refl.
  - cbn [map]. rewrite !sumZ_cons.
    pose proof (H x (or_introl eq_refl)).
    pose proof (IH (fun y Hy => H y (or_intror Hy))). lia.
Qed.

Lemma sumZ_map_zero {A} (l : list A) : sumZ (map (fun _ => 0%Z) l) = 0%Z.
Proof.
  induction l as [|x l IH]; [reflexivity|].
  cbn [map]. rewrite sumZ_cons, IH. reflexivity.
Qed.

(** X4: when no model reports more errors than invocations (and none a
    negative number of errors), the error rate of the report is a
    percentage: it lies between 0 and 100.  When there is no invocation
    at all it is the integer 0. *)
Theorem error_rate_is_percentage (model_usage : dict ModelUsage) (hours : Z)
    (start_iso end_iso : string) :
  (forall u, In u (values model_usage) ->
             (0 <= error_count u <= invocations u)%Z) ->
  exists r,
    build_report model_usage hours start_iso end_iso = Ok r
    /\ 0 <= to_Q (errorRate (performance r)) <= 100
    /\ (sumZ (map invocations (values model_usage)) = 0%Z ->
        errorRate (performance r) = PyInt 0).
Proof.
  intros Hu.
  destruct (build_report_eq model_usage hours start_iso end_iso) as (bm & _ & Hr).
  eexists. split; [exact Hr|].
  cbn [performance errorRate report_of].
  unfold error_rate_of, total_errors_of, total_invocations_of.
  set (E := sumZ (map error_count (values model_usage))).
  set (T := sumZ (map invocations (values model_usage))).
  assert (HE0 : (0 <= E)%Z).
  { unfold E. rewrite <- (sumZ_map_zero (values model_usage)).
    apply sumZ_map_le. intros u Hin. apply (Hu u Hin). }
  assert (HET : (E <= T)%Z).
  { unfold E, T. apply sumZ_map_le. intros u Hin. apply (Hu u Hin). }
  destruct (T >? 0)%Z eqn:HT.
  - split; [|intros H0; lia].
    cbn [round to_Q].
    assert (HTq : 0 < inject_Z T).
    { change 0 with (inject_Z 0). rewrite <- Zlt_Qlt. lia. }
    assert (HEq : 0 <= inject_Z E).
    { change 0 with (inject_Z 0). rewrite <- Zle_Qle. exact HE0. }
    assert (HETq : inject_Z E <= inject_Z T).
    { rewrite <- Zle_Qle. exact HET. }
    assert (Hlo : 0 <= inject_Z E / inject_Z T * inject_Z 100).
    { change (inject_Z 100) with 100.
      assert (0 <= inject_Z E / inject_Z T).
      { apply Qle_shift_div_l; [exact HTq | lra]. }
      lra. }
    assert (Hhi : inject_Z E / inject_Z T * inject_Z 100 <= 100).
    { change (inject_Z 100) with 100.
      assert (inject_Z E / inject_Z T <= 1).
      { apply Qle_shift_div_r; [exact HTq | lra]. }
      lra. }
    split.
    + apply Qle_trans with (round_float 0 2); [vm_compute; discriminate|].
      apply round_float_mono. exact Hlo.
    + apply Qle_trans with (round_float 100 2); [|vm_compute; discriminate].
      apply round_float_mono. exact Hhi.
  - cbn [round to_Q]. split; [split; discriminate | reflexivity].
Qed.

Lemma error_rate_is_percentage_witness :
  exists r,
    build_report two_models 24 "s" "e" = Ok r
    /\ 0 <= to_Q (errorRate (performance r)) <= 100
    /\ (sumZ (map invocations (values two_models)) = 0%Z ->
        errorRate (performance r) = PyInt 0).
Proof.
  apply (error_rate_is_percentage two_models 24 "s" "e").
  intros u Hin. simpl in Hin.
  destruct Hin as [<-|[<-|[]]]; simpl; lia.
Defined.







(** ** Events of a computation *)

Lemma emits_ret {A} (P : event -> bool) (a : A) : emits P (ret a).
Proof. intros h. exists []. split; reflexivity. Qed.

Lemma emits_raise {A} (P : event -> bool) (e : exn) : emits P (@raise A e).
Proof. intros h. exists []. split; reflexivity. Qed.

Lemma emits_lift {A} (P : event -> bool) (r : result A) : emits P (lift r).
Proof. intros h. exists []. split; reflexivity. Qed.

Lemma emits_perform {A} (P : event -> bool) (answer : history -> result A)
    (e : event) :
  P e = true -> emits P (perform answer e).
Proof. intros He h. exists [e]. split; [reflexivity | simpl; rewrite He; reflexivity]. Qed.

Lemma emits_emit (P : event -> bool) (e : event) : P e = true -> emits P (emit e).
Proof. intros He h. exists [e]. split; [reflexivity | simpl; rewrite He; reflexivity]. Qed.

Lemma emits_log (P : event -> bool) (operation resource : string) (success : bool) :
  P (Log operation resource success) = true ->
  emits P (log_operation operation resource success).
Proof. apply emits_emit. Qed.

Lemma emits_bind {A B} (P : event -> bool) (m : M A) (k : A -> M B) :
  emits P m -> (forall a, emits P (k a)) -> emits P (bindM m k).
Proof.
  intros Hm Hk h. unfold bindM.
  destruct (Hm h) as (o1 & E1 & F1).
  destruct (m h) as [[a|e] h1]; cbn [snd] in E1; subst h1.
  - destruct (Hk a (o1 ++ h)%list) as (o2 & E2 & F2).
    exists (o2 ++ o1)%list. rewrite E2, app_assoc, forallb_app, F1, F2.
    split; reflexivity.
  - exists o1. split; [reflexivity | exact F1].
Qed.

Lemma emits_try {A} (P : event -> bool) (body : M A) (handles : exn -> bool)
    (handler : exn -> M A) :
  emits P body -> (forall e, emits P (handler e)) ->
  emits P (try_except body handles handler).
Proof.
  intros Hm Hk h. unfold try_except.
  destruct (Hm h) as (o1 & E1 & F1).
  destruct (body h) as [[a|e] h1]; cbn [snd] in E1; subst h1.
  - exists o1. split; [reflexivity | exact F1].
  - destruct (handles e).
    + destruct (Hk e (o1 ++ h)%list) as (o2 & E2 & F2).
      exists (o2 ++ o1)%list. rewrite E2, app_assoc, forallb_app, F1, F2.
      split; reflexivity.
    + exists o1. split; [reflexivity | exact F1].
Qed.

Lemma emits_weaken {A} (P Q : event -> bool) (m : M A) :
  (forall e, P e = true -> Q e = true) -> emits P m -> emits Q m.
Proof.
  intros HPQ Hm h. destruct (Hm h) as (o & E & F).
  exists o. split; [exact E|].
  rewrite forallb_forall in *. intros e He. apply HPQ, F, He.
Qed.

#[local] Ltac emits_step :=
  first
    [ apply emits_ret | apply emits_raise | apply emits_lift
    | apply emits_perform; reflexivity
    | apply emits_emit; reflexivity
    | apply emits_log; reflexivity
    | apply emits_bind; [|intros ?]
    | apply emits_try; [|intros ?] ].

(** ** The aggregator *)

Lemma get_available_models_emits (env : Env) (s e : Z) :
  emits aggregator_event (_get_available_models env s e).
Proof. unfold _get_available_models. repeat emits_step. Qed.

Lemma get_metric_sum_emits (env : Env) (metric_name model_id : string) (s e : Z) :
  emits aggregator_event (_get_metric_sum env metric_name model_id s e).
Proof. unfold _get_metric_sum. repeat emits_step. Qed.

Lemma poll_query_emits (env : Env) (model_id query_id : string) (n : nat) :
  emits aggregator_event (poll_query env model_id query_id n).
Proof.
  induction n as [|n IH]; cbn [poll_query].
  - repeat emits_step.
  - emits_step; [emits_step|].
    emits_step.
    + emits_step.
      * emits_step; [emits_step|].
        destruct (String.eqb (status a0) "Complete").
        { destruct (find_error_count (results a0)); repeat emits_step. }
        destruct (String.eqb (status a0) "Failed"); repeat emits_step.
      * emits_step.
    + destruct a0; [emits_step | exact IH].
Qed.

Lemma get_error_count_emits (env : Env) (model_id : string) (s e : Z) :
  emits aggregator_event (_get_error_count env model_id s e).
Proof.
  unfold _get_error_count.
  emits_step; [|repeat emits_step].
  emits_step; [emits_step|]. apply poll_query_emits.
Qed.

Lemma collect_usage_emits (env : Env) (model_id : string) (s e : Z) :
  emits aggregator_event (collect_usage env model_id s e).
Proof.
  unfold collect_usage.
  repeat first [ apply get_metric_sum_emits | apply get_error_count_emits
               | emits_step ].
Qed.

Lemma In_keys_setitem {V} (d : dict V) (k : string) (v : V) (x : string) :
  In x (keys (setitem d k v)) -> x = k \/ In x (keys d).
Proof.
  induction d as [|[k' v'] d IH]; cbn [setitem keys map fst In].
  - intros [<-|[]]. left. reflexivity.
  - destruct (String.eqb_spec k k') as [->|Hne]; cbn [keys map fst In].
    + intros [<-|H]; [left; reflexivity | right; right; exact H].
    + intros [<-|H]; [right; left; reflexivity|].
      destruct (IH H) as [->|H']; [left; reflexivity | right; right; exact H'].
Qed.

Lemma setitem_wf {V} (d : dict V) (k : string) (v : V) :
  wf_dict d -> wf_dict (setitem d k v).
Proof.
  unfold wf_dict.
  induction d as [|[k' v'] d IH]; cbn [setitem keys map fst]; intros Hwf.
  - constructor; [intros [] | constructor].
  - inversion Hwf as [|? ? Hnin Hd]; subst.
    destruct (String.eqb_spec k k') as [->|Hne]; cbn [keys map fst].
    + constructor; assumption.
    + constructor; [|apply IH; exact Hd].
      intros Hin. destruct (In_keys_setitem d k v k' Hin) as [->|H'].
      * apply Hne. reflexivity.
      * apply Hnin. exact H'.
Qed.

Lemma In_setitem {V} (d : dict V) (k : string) (v : V) (x : string * V) :
  In x (setitem d k v) -> x = (k, v) \/ In x d.
Proof.
  induction d as [|[k' v'] d IH]; cbn [setitem In].
  - intros [<-|[]]. left. reflexivity.
  - destruct (String.eqb k k'); cbn [In].
    + intros [<-|H]; [left; reflexivity | right; right; exact H].
    + intros [<-|H]; [right; left; reflexivity|].
      destruct (IH H) as [->|H']; [left; reflexivity | right; right; exact H'].
Qed.

Lemma get_metric_sum_first (env : Env) (metric_name model_id : string)
    (s e : Z) (h : history) :
  exists out,
    snd (_get_metric_sum env metric_name model_id s e h)
    = (out ++ GetMetricStatistics metric_name model_id s e :: h)%list.
Proof.
  unfold _get_metric_sum, try_except, bindM, perform.
  destruct (get_metric_statistics env h metric_name model_id s e) as [points|ex].
  - exists []. reflexivity.
  - destruct (is_ClientError ex).
    + eexists [_]. reflexivity.
    + exists []. reflexivity.
Qed.

Lemma collect_usage_first (env : Env) (model_id : string) (s e : Z) (h : history) :
  exists out,
    snd (collect_usage env model_id s e h)
    = (out ++ GetMetricStatistics "Invocations" model_id s e :: h)%list.
Proof.
  unfold collect_usage. unfold bindM at 1.
  destruct (get_metric_sum_first env "Invocations" model_id s e h) as (o1 & E1).
  destruct (_get_metric_sum env "Invocations" model_id s e h) as [[n|ex] h1];
    cbn [snd] in E1; subst h1.
  - match goal with
    | |- exists out, snd (?k ?hh) = _ =>
        assert (Hk : emits aggregator_event k)
    end.
    { repeat first [ apply get_metric_sum_emits | apply get_error_count_emits
                   | emits_step ]. }
    destruct (Hk (o1 ++ GetMetricStatistics "Invocations" model_id s e :: h)%list)
      as (o2 & E2 & _).
    exists (o2 ++ o1)%list. rewrite E2, app_assoc. reflexivity.
  - exists o1. reflexivity.
Qed.

Lemma collect_loop_invariant (env : Env) (s e : Z) (models : list string) :
  forall (acc : dict ModelUsage) (h : history),
    wf_dict acc ->
    (forall k u, In (k, u) acc ->
                 (invocations u > 0)%Z
                 /\ In (GetMetricStatistics "Invocations" k s e) h) ->
    forall acc' ex h',
      collect_loop env models s e acc h = (acc', ex, h') ->
      wf_dict acc'
      /\ (forall k u, In (k, u) acc' ->
                      (invocations u > 0)%Z
                      /\ In (GetMetricStatistics "Invocations" k s e) h')
      /\ (exists out, h' = (out ++ h)%list /\ forallb aggregator_event out = true).
Proof.
  induction models as [|model_id models IH]; intros acc h Hwf Hacc acc' ex h' Hrun;
    cbn [collect_loop] in Hrun.
  - injection Hrun as <- <- <-. split; [exact Hwf|]. split; [exact Hacc|].
    exists []. split; reflexivity.
  - destruct (collect_usage_first env model_id s e h) as (o1 & E1).
    destruct (collect_usage_emits env model_id s e h) as (o1' & E1' & F1).
    destruct (collect_usage env model_id s e h) as [[usage|ex1] h1];
      cbn [snd] in E1, E1'.
    + assert (Hq : In (GetMetricStatistics "Invocations" model_id s e) h1).
      { rewrite E1. apply in_or_app. right. left. reflexivity. }
      assert (Hmono : forall x, In x h -> In x h1).
      { intros x Hx. rewrite E1'. apply in_or_app. right. exact Hx. }
      apply IH in Hrun.
      * destruct Hrun as (Hwf' & Hacc' & out & -> & Fo).
        split; [exact Hwf'|]. split; [exact Hacc'|].
        exists (out ++ o1')%list. rewrite E1', app_assoc, forallb_app, Fo, F1.
        split; reflexivity.
      * destruct (invocations usage >? 0)%Z; [apply setitem_wf|]; exact Hwf.
      * intros k u Hin.
        destruct (invocations usage >? 0)%Z eqn:Hpos.
        -- destruct (In_setitem _ _ _ _ Hin) as [Heq|Hold].
           ++ injection Heq as -> ->. split; [lia | exact Hq].
           ++ destruct (Hacc k u Hold) as [H1 H2]. split; [exact H1 | apply Hmono, H2].
        -- destruct (Hacc k u Hin) as [H1 H2]. split; [exact H1 | apply Hmono, H2].
    + injection Hrun as <- <- <-. split; [exact Hwf|]. split.
      * intros k u Hin. destruct (Hacc k u Hin) as [H1 H2].
        split; [exact H1|]. rewrite E1'. apply in_or_app. right. exact H2.
      * exists o1'. split; [exact E1' | exact F1].
Qed.

(** X8: the aggregator always returns a mapping, and the mapping it
    returns is well formed: no model id occurs twice (even when the
    listing yields an id more than once), every model in it has a
    positive number of invocations, and the invocations of every model
    in it were queried for the window of the report. *)
Theorem get_metrics_data_keeps_active_models (env : Env) (start_time end_time : Z)
    (h : history) :
  exists model_usage,
    fst (get_metrics_data env start_time end_time h) = Ok model_usage
    /\ wf_dict model_usage
    /\ forall model_id usage,
         In (model_id, usage) model_usage ->
         (invocations usage > 0)%Z
         /\ In (GetMetricStatistics "Invocations" model_id start_time end_time)
               (snd (get_metrics_data env start_time end_time h)).
Proof.
  unfold get_metrics_data.
  assert (Hnil : wf_dict ([] : dict ModelUsage)) by constructor.
  destruct (_get_available_models env start_time end_time h) as [[models|e] h1].
  - destruct models as [|model_id models].
    + exists []. rewrite log_then_ret. split; [reflexivity|].
      split; [exact Hnil | intros ? ? []].
    + destruct (collect_loop env (model_id :: models) start_time end_time [] h1)
        as [[model_usage ex] h2] eqn:Hrun.
      apply (collect_loop_invariant env start_time end_time (model_id :: models)
               [] h1 Hnil) in Hrun; [|intros ? ? []].
      destruct Hrun as (Hwf & Hacc & _).
      exists model_usage. destruct ex as [ex|].
      * rewrite log_then_ret. split; [reflexivity|]. split; [exact Hwf|].
        intros k u Hin. destruct (Hacc k u Hin) as [H1 H2].
        split; [exact H1 | right; exact H2].
      * split; [reflexivity|]. split; [exact Hwf | exact Hacc].
  - exists []. rewrite log_then_ret. split; [reflexivity|].
    split; [exact Hnil | intros ? ? []].
Qed.

Lemma filter_nil_events (p : event -> bool) (out : list event) :
  (forall ev, In ev out -> p ev = false) -> filter p out = [].
Proof.
  induction out as [|ev out IH]; intros H; [reflexivity|].
  cbn [filter]. rewrite (H ev (or_introl eq_refl)).
  apply IH. intros ev' Hin. apply H. right. exact Hin.
Qed.

Lemma get_metrics_data_emits (env : Env) (start_time end_time : Z) :
  emits aggregator_event (get_metrics_data env start_time end_time).
Proof.
  intros h. unfold get_metrics_data.
  destruct (get_available_models_emits env start_time end_time h) as (o1 & E1 & F1).
  destruct (_get_available_models env start_time end_time h) as [[models|e] h1];
    cbn [snd] in E1; subst h1.
  - destruct models as [|model_id models].
    + rewrite log_then_ret. eexists (_ :: o1). split; [reflexivity|].
      cbn [forallb aggregator_event andb]. exact F1.
    + destruct (collect_loop env (model_id :: models) start_time end_time []
                  (o1 ++ h)%list) as [[model_usage ex] h2] eqn:Hrun.
      apply (collect_loop_invariant env start_time end_time (model_id :: models)
               [] (o1 ++ h)%list) in Hrun;
        [|constructor|intros ? ? []].
      destruct Hrun as (_ & _ & out & -> & Fo).
      destruct ex as [ex|].
      * rewrite log_then_ret. eexists (_ :: out ++ o1)%list.
        split; [cbn [snd List.app]; rewrite app_assoc; reflexivity|].
        cbn [forallb aggregator_event andb]. rewrite forallb_app, Fo, F1. reflexivity.
      * exists (out ++ o1)%list.
        split; [cbn [snd List.app]; rewrite app_assoc; reflexivity|].
        rewrite forallb_app, Fo, F1. reflexivity.
  - rewrite log_then_ret. eexists (_ :: o1). split; [reflexivity|].
    cbn [forallb aggregator_event andb]. exact F1.
Qed.

(** X9: the aggregator only reads: whatever the services answer, the
    events it adds are listings and queries of metrics and logs, waits
    and log lines.  It never connects again, runs no command, reads no
    clock and prints no report, and it leaves the earlier events
    untouched. *)
Theorem get_metrics_data_only_reads (env : Env) (start_time end_time : Z)
    (h : history) :
  exists out,
    snd (get_metrics_data env start_time end_time h) = (out ++ h)%list
    /\ forallb aggregator_event out = true
    /\ filter is_print out = []
    /\ filter (fun e => is_aws_call e && negb (is_metric_query e)) out = [].
Proof.
  destruct (get_metrics_data_emits env start_time end_time h) as (out & E & F).
  exists out. split; [exact E|]. split; [exact F|].
  rewrite forallb_forall in F.
  split; apply filter_nil_events; intros ev Hin; specialize (F ev Hin);
    destruct ev; try discriminate; reflexivity.
Qed.

(** X10: when the listing of the metrics fails, or lists no metric with a
    model id, the aggregator returns the empty mapping, and the listing
    is the only request it has sent: no statistics and no log query is
    attempted. *)
Theorem no_model_no_query (env : Env) (start_time end_time : Z) (h : history) :
  match list_metrics env h start_time end_time with
  | Ok metrics => model_ids_of env metrics = []
  | Raise _ => True
  end ->
  exists out,
    get_metrics_data env start_time end_time h = (Ok [], (out ++ h)%list)
    /\ filter is_aws_call out = [ListMetrics start_time end_time].
Proof.
  intros Hl. unfold get_metrics_data, _get_available_models, try_except.
  unfold bindM at 1. unfold perform.
  destruct (list_metrics env h start_time end_time) as [metrics|ex].
  - cbn [ret]. rewrite Hl. rewrite log_then_ret.
    eexists [_; _]. split; reflexivity.
  - destruct (is_ClientError ex).
    + rewrite log_then_ret. rewrite log_then_ret.
      eexists [_; _; _]. split; reflexivity.
    + rewrite log_then_ret. eexists [_; _]. split; reflexivity.
Qed.

Lemma no_model_no_query_witness :
  exists out,
    get_metrics_data quiet_env 0 3600 [] = (Ok [], (out ++ [])%list)
    /\ filter is_aws_call out = [ListMetrics 0 3600].
Proof.
  apply (no_model_no_query quiet_env 0 3600 []). reflexivity.
Defined.

Lemma sumZ_app (xs ys : list Z) : sumZ (xs ++ ys) = (sumZ xs + sumZ ys)%Z.
Proof.
  induction xs as [|x xs IH]; cbn [List.app].
  - reflexivity.
  - rewrite !sumZ_cons, IH. lia.
Qed.

Lemma seconds_slept_app (o1 o2 : list event) :
  seconds_slept (o1 ++ o2) = (seconds_slept o1 + seconds_slept o2)%Z.
Proof. unfold seconds_slept. rewrite map_app. apply sumZ_app. Qed.

Lemma poll_query_waits (env : Env) (model_id query_id : string) (n : nat) :
  forall h,
    exists r out,
      poll_query env model_id query_id n h = (r, (out ++ h)%list)
      /\ seconds_slept out = Z.of_nat (List.length (filter is_poll out))
      /\ (List.length (filter is_poll out) <= n)%nat.
Proof.
  induction n as [|n IH]; intros h.
  - exists (Ok 0%Z). eexists [_]. split; [reflexivity|]. split; [reflexivity | cbn; lia].
  - cbn [poll_query]. unfold bindM at 1. cbn [emit].
    unfold bindM at 1. unfold try_except, bindM at 1, perform.
    assert (Hstop : forall (r : result Z) (o : list event),
               filter is_poll o = [] -> seconds_slept o = 0%Z ->
               exists r' out,
                 (r, (o ++ GetQueryResults query_id :: Sleep 1 :: h)%list)
                 = (r', (out ++ h)%list)
                 /\ seconds_slept out = Z.of_nat (List.length (filter is_poll out))
                 /\ (List.length (filter is_poll out) <= S n)%nat).
    { intros r o Hf Hs. exists r.
      exists (o ++ [GetQueryResults query_id; Sleep 1])%list.
      split; [rewrite <- app_assoc; reflexivity|].
      rewrite seconds_slept_app, filter_app, Hf, Hs. split; [reflexivity | cbn; lia]. }
    assert (Hnext : exists r' out,
               poll_query env model_id query_id n
                 (GetQueryResults query_id :: Sleep 1 :: h)
               = (r', (out ++ h)%list)
               /\ seconds_slept out = Z.of_nat (List.length (filter is_poll out))
               /\ (List.length (filter is_poll out) <= S n)%nat).
    { destruct (IH (GetQueryResults query_id :: Sleep 1 :: h)) as (r & o & E & Hs & Hl).
      exists r. exists (o ++ [GetQueryResults query_id; Sleep 1])%list.
      split; [rewrite E, <- app_assoc; reflexivity|].
      rewrite seconds_slept_app, filter_app, length_app, Hs.
      split; [cbn; lia | cbn; lia]. }
    destruct (get_query_results env (Sleep 1 :: h) query_id) as [res|ex].
    + destruct (String.eqb (status res) "Complete").
      * destruct (find_error_count (results res)) as [v|].
        -- unfold bindM, lift. destruct (float_of_string env v) as [q|ex].
           ++ apply (Hstop _ []); reflexivity.
           ++ cbn [is_ClientError]. destruct ex; try (apply (Hstop _ []); reflexivity).
              cbn [ret]. exact Hnext.
        -- apply (Hstop _ []); reflexivity.
      * destruct (String.eqb (status res) "Failed").
        -- rewrite log_then_ret. apply (Hstop _ [_]); reflexivity.
        -- cbn [ret]. exact Hnext.
    + destruct (is_ClientError ex).
      * cbn [ret]. exact Hnext.
      * apply (Hstop _ []); reflexivity.
Qed.

(** X11: counting the errors of a model never raises and never waits for
    more than ten seconds: the query is polled at most ten times, with a
    wait of one second before each poll; whatever fails on the way, the
    count returned is then 0. *)
Theorem error_count_waits_at_most_ten_seconds (env : Env) (model_id : string)
    (start_time end_time : Z) (h : history) :
  exists n out,
    _get_error_count env model_id start_time end_time h = (Ok n, (out ++ h)%list)
    /\ seconds_slept out = Z.of_nat (List.length (filter is_poll out))
    /\ (seconds_slept out <= 10)%Z.
Proof.
  unfold _get_error_count, try_except, bindM at 1, perform.
  destruct (start_query env h model_id start_time end_time) as [query_id|ex].
  - destruct (poll_query_waits env model_id query_id 10
                (StartQuery model_id start_time end_time :: h))
      as (r & out & E & Hs & Hl).
    rewrite E. destruct r as [n|ex].
    + exists n. exists (out ++ [StartQuery model_id start_time end_time])%list.
      split; [rewrite <- app_assoc; reflexivity|].
      rewrite seconds_slept_app, filter_app, length_app, Hs. cbn. lia.
    + cbn [is_Exception]. rewrite log_then_ret.
      exists 0%Z. eexists (_ :: out ++ [StartQuery model_id start_time end_time])%list.
      split; [cbn [List.app]; rewrite <- app_assoc; reflexivity|].
      unfold seconds_slept. cbn [map filter is_poll]. rewrite sumZ_cons.
      fold (seconds_slept (out ++ [StartQuery model_id start_time end_time])).
      rewrite seconds_slept_app, filter_app, length_app, Hs. cbn. lia.
  - cbn [is_Exception]. rewrite log_then_ret.
    exists 0%Z. eexists [_; _]. split; [reflexivity|]. split; [reflexivity | cbn; lia].
Qed.

(** X12: when the log query starts and is complete at the first poll, the
    count is read from the first [error_count] field of the rows: its
    value as a number, truncated to an integer.  A result without that
    field counts as 0, and a value that is not a number is not an error
    of the report: it counts as 0 as well. *)
Theorem error_count_of_completed_query (env : Env) (model_id query_id : string)
    (start_time end_time : Z) (h : history) (rows : list (list (string * string))) :
  start_query env h model_id start_time end_time = Ok query_id ->
  get_query_results env
    (Sleep 1 :: StartQuery model_id start_time end_time :: h) query_id
  = Ok {| status := "Complete"; results := rows |} ->
  let count := fst (_get_error_count env model_id start_time end_time h) in
  (find_error_count rows = None -> count = Ok 0%Z)
  /\ (forall v q, find_error_count rows = Some v ->
                  float_of_string env v = Ok q -> count = Ok (int (PyFloat q)))
  /\ (forall v msg, find_error_count rows = Some v ->
                    float_of_string env v = Raise (ValueError msg) ->
                    count = Ok 0%Z).
Proof.
  intros Hs Hq count. subst count.
  assert (Hrun : forall r : result Z,
             fst (match find_error_count rows with
                  | Some v =>
                      (q <~ lift (float_of_string env v) ;;
                       ret (Some (int (PyFloat q))))
                  | None => ret (Some 0%Z)
                  end
                    (GetQueryResults query_id :: Sleep 1
                     :: StartQuery model_id start_time end_time :: h))
             = Ok (match r with Ok n => Some n | Raise _ => None end) ->
             (exists n, r = Ok n) ->
             fst (_get_error_count env model_id start_time end_time h) = r).
  { intros r Hr [n ->].
    unfold _get_error_count, try_except at 1, bindM at 1, perform.
    rewrite Hs. change 10%nat with (S 9).
    cbn [poll_query]. unfold bindM at 1. cbn [emit].
    unfold bindM at 1. unfold try_except at 1, bindM at 1, perform.
    rewrite Hq. cbn [status results].
    change (String.eqb "Complete" "Complete") with true. cbv iota.
    match type of Hr with
    | fst ?t = _ => destruct t as [[a|ex] h']
    end; cbn [fst] in Hr; [|discriminate Hr].
    injection Hr as ->. reflexivity. }
  split; [|split].
  - intros Hn. apply Hrun; [|eexists; reflexivity]. rewrite Hn. reflexivity.
  - intros v q Hv Hf. apply Hrun; [|eexists; reflexivity].
    rewrite Hv. unfold bindM, lift. rewrite Hf. reflexivity.
  - intros v msg Hv Hf.
    unfold _get_error_count, try_except at 1, bindM at 1, perform.
    rewrite Hs. change 10%nat with (S 9).
    cbn [poll_query]. unfold bindM at 1. cbn [emit].
    unfold bindM at 1. unfold try_except at 1, bindM at 1, perform.
    rewrite Hq. cbn [status results].
    change (String.eqb "Complete" "Complete") with true. cbv iota.
    rewrite Hv. unfold bindM at 1, lift. rewrite Hf. reflexivity.
Qed.

Lemma error_count_of_completed_query_witness :
  let count := fst (_get_error_count working_env "model-a" 0 3600 []) in
  (find_error_count [ [("error_count", "2")] ] = None -> count = Ok 0%Z)
  /\ (forall v q, find_error_count [ [("error_count", "2")] ] = Some v ->
                  float_of_string working_env v = Ok q ->
                  count = Ok (int (PyFloat q)))
  /\ (forall v msg, find_error_count [ [("error_count", "2")] ] = Some v ->
                    float_of_string working_env v = Raise (ValueError msg) ->
                    count = Ok 0%Z).
Proof.
  apply (error_count_of_completed_query working_env "model-a" "query-1" 0 3600 []
           [ [("error_count", "2")] ]); reflexivity.
Defined.

(** ** The generator and the command line *)

Lemma validate_arguments_nil (args : Args) :
  validate_arguments args = [] ->
  (1 <= hours args <= 8760)%Z /\ region_ok args.
Proof.
  intros Hnil.
  assert (Hin : (1 <= hours args <= 8760)%Z).
  { destruct (Z_lt_dec (hours args) 1) as [H1|H1];
      [exfalso; apply (validate_arguments_hours_out args); [lia | exact Hnil]|].
    destruct (Z_lt_dec 8760 (hours args)) as [H2|H2];
      [exfalso; apply (validate_arguments_hours_out args); [lia | exact Hnil]|].
    lia. }
  split; [exact Hin|].
  rewrite (validate_arguments_hours_in args Hin) in Hnil. unfold region_ok.
  destruct (region_opt args) as [[|c r]|]; try exact I.
  destruct (validate_aws_region (String c r)); [reflexivity | discriminate Hnil].
Qed.

(** X13: the arguments pass the validation exactly when the hours lie
    between 1 and 8760 and the region is absent, empty or well formed;
    otherwise there are one or two error messages, never more. *)
Theorem validate_arguments_accepts (args : Args) :
  (validate_arguments args = []
   <-> (1 <= hours args <= 8760)%Z /\ region_ok args)
  /\ (List.length (validate_arguments args) <= 2)%nat.
Proof.
  split; [split|].
  - apply validate_arguments_nil.
  - intros [Hin Hreg]. rewrite (validate_arguments_hours_in args Hin).
    unfold region_ok in Hreg.
    destruct (region_opt args) as [[|c r]|]; try reflexivity.
    rewrite Hreg. reflexivity.
  - unfold validate_arguments.
    destruct (hours args <=? 0)%Z; [|destruct (hours args >? 8760)%Z];
      (destruct (region_opt args) as [[|c r]|];
       try destruct (negb (validate_aws_region (String c r))));
      cbn; lia.
Qed.

(** X14: with [--validate-only] the script never leaves the machine:
    whatever the arguments, it sends no request to AWS and runs no
    command, and its exit status says whether the arguments are valid. *)
Theorem validate_only_never_calls_aws (env : Env) (args : Args) (h : history) :
  validate_only args = true ->
  exists out,
    main env args h
    = (match validate_arguments args with [] => 0%Z | _ :: _ => 1%Z end,
       (out ++ h)%list)
    /\ filter is_aws_call out = [].
Proof.
  intros Hvo. unfold main. rewrite Hvo.
  destruct (validate_arguments args) as [|error errors] eqn:Hv.
  - eexists [_]. split; reflexivity.
  - eexists (_ ++ [_])%list. split; [rewrite <- app_assoc; reflexivity|].
    apply filter_nil_events. intros ev Hin.
    apply in_app_or in Hin. destruct Hin as [Hin|[<-|[]]]; [|reflexivity].
    apply in_rev, in_map_iff in Hin. destruct Hin as (s & <- & _). reflexivity.
Qed.

Lemma validate_only_never_calls_aws_witness :
  exists out,
    main offline_env
      {| hours := 0; region_opt := Some "nowhere"; output := "json";
         validate_only := true |} []
    = (match validate_arguments
               {| hours := 0; region_opt := Some "nowhere"; output := "json";
                  validate_only := true |} with
       | [] => 0%Z | _ :: _ => 1%Z end,
       (out ++ [])%list)
    /\ filter is_aws_call out = [].
Proof.
  apply (validate_only_never_calls_aws offline_env
           {| hours := 0; region_opt := Some "nowhere"; output := "json";
              validate_only := true |} []).
  reflexivity.
Defined.

Lemma init_cases (env : Env) (region_arg : option string) (h : history) :
  exists cfg out1,
    (load_config env h = Ok cfg
     \/ (exists ex, load_config env h = Raise ex) /\ cfg = default_config)
    /\ forallb (fun ev => match ev with LoadConfig | Log _ _ _ => true | _ => false end)
               out1 = true
    /\ let region :=
         match region_arg with
         | Some (String c r) => String c r
         | _ => snd cfg
         end in
       match connect env (out1 ++ h)%list region with
       | Ok _ =>
           init env region_arg h
           = (Ok {| cloudwatch_log_group := fst cfg; region := region |},
              Connect region :: (out1 ++ h)%list)
       | Raise _ =>
           exists msg,
             init env region_arg h
             = (Raise (RuntimeError msg), Connect region :: (out1 ++ h)%list)
       end.
Proof.
  unfold init, try_except, bindM, perform, log_operation, emit, ret, raise.
  destruct (load_config env h) as [cfg|ex0].
  - exists cfg. exists [LoadConfig].
    split; [left; reflexivity|]. split; [reflexivity|].
    cbv zeta. cbn [List.app].
    match goal with
    | |- context [connect env ?hh ?r] => destruct (connect env hh r) as [[]|ex1]
    end; [reflexivity|].
    cbn [is_Exception].
    destruct ex1; try destruct (String.eqb code "UnauthorizedOperation");
      eexists; reflexivity.
  - cbn [is_Exception].
    exists default_config. exists [Log "CONFIG_LOAD" "Environment" false; LoadConfig].
    split; [right; split; [exists ex0|]; reflexivity|]. split; [reflexivity|].
    cbv zeta. cbn [List.app].
    match goal with
    | |- context [connect env ?hh ?r] => destruct (connect env hh r) as [[]|ex1]
    end; [reflexivity|].
    cbn [is_Exception].
    destruct ex1; try destruct (String.eqb code "UnauthorizedOperation");
      eexists; reflexivity.
Qed.

(** X15: the constructor of the generator lets only [RuntimeError]
    escape, whatever goes wrong with the clients; a failure to load the
    configuration is not fatal: when the connection works the generator
    is built, with the region that was asked for and, after such a
    failure, the default log group. *)
Theorem init_raises_only_runtime_error (env : Env) (region_arg : option string)
    (h : history) :
  (forall ex, fst (init env region_arg h) = Raise ex ->
              exists msg, ex = RuntimeError msg)
  /\ ((forall h' r, connect env h' r = Ok tt) ->
      exists g,
        fst (init env region_arg h) = Ok g
        /\ (forall c r, region_arg = Some (String c r) -> region g = String c r)
        /\ (forall ex, load_config env h = Raise ex ->
                       cloudwatch_log_group g = "/aws/bedrock/modelinvocations")).
Proof.
  destruct (init_cases env region_arg h) as (cfg & out1 & Hcfg & _ & Hinit).
  cbv zeta in Hinit. split.
  - intros ex Hex.
    destruct (connect env (out1 ++ h)%list _) as [[]|ex1].
    + rewrite Hinit in Hex. discriminate Hex.
    + destruct Hinit as [msg Hinit]. rewrite Hinit in Hex.
      injection Hex as <-. exists msg. reflexivity.
  - intros Hc. rewrite Hc in Hinit. rewrite Hinit.
    eexists. split; [reflexivity|]. split.
    + intros c r ->. reflexivity.
    + intros ex Hex. destruct Hcfg as [Hok|[_ ->]]; [congruence | reflexivity].
Qed.











(** ** The helpers of [utils.py] *)









Lemma getitem_not_contains {V} (d : dict V) (k : string) :
  contains d k = false -> getitem d k = Raise (KeyError k).
Proof.
  induction d as [|[k' v'] d IH]; cbn [contains getitem]; [reflexivity|].
  destruct (String.eqb k k'); [discriminate | exact IH].
Qed.

(** X22: [validate_required_fields] returns exactly the required fields
    that have no value in the data, a field that is present with the
    value [None] included, in the order in which they were required; the
    answer is empty exactly when every required field has a value. *)
Theorem validate_required_fields_missing {V} (data : dict (option V))
    (required_fields : list string) :
  validate_required_fields data required_fields
  = filter (fun field =>
              match getitem data field with
              | Ok (Some _) => false
              | _ => true
              end) required_fields
  /\ (validate_required_fields data required_fields = []
      <-> forall field, In field required_fields ->
                        exists v, getitem data field = Ok (Some v)).
Proof.
  assert (Hf : validate_required_fields data required_fields
               = filter (fun field =>
                           match getitem data field with
                           | Ok (Some _) => false
                           | _ => true
                           end) required_fields).
  { induction required_fields as [|field fields IH];
      cbn [validate_required_fields filter]; [reflexivity|].
    rewrite IH.
    destruct (contains data field) eqn:Hc.
    - destruct (contains_getitem data field Hc) as [v Hv]. rewrite Hv.
      destruct v; reflexivity.
    - rewrite (getitem_not_contains data field Hc). reflexivity. }
  split; [exact Hf|]. rewrite Hf. clear Hf.
  induction required_fields as [|field fields IH]; cbn [filter].
  - split; [intros _ ? [] | reflexivity].
  - destruct (getitem data field) as [[v|]|ex] eqn:Hg.
    + rewrite IH. split.
      * intros H f [<-|Hin]; [exists v; exact Hg | apply H, Hin].
      * intros H f Hin. apply H. right. exact Hin.
    + split; [discriminate|]. intros H.
      destruct (H field (or_introl eq_refl)) as [v Hv]. congruence.
    + split; [discriminate|]. intros H.
      destruct (H field (or_introl eq_refl)) as [v Hv]. congruence.
Qed.

Lemma all_chars_app (p : ascii -> bool) (a b : string) :
  all_chars p (a ++ b) = all_chars p a && all_chars p b.
Proof.
  induction a as [|c a IH]; cbn [String.append all_chars]; [reflexivity|].
  rewrite IH, andb_assoc. reflexivity.
Qed.

Lemma last_segment_spec (s : string) :
  forall cur,
    all_chars not_dot cur = true ->
    exists prefix,
      (cur ++ s = prefix ++ Fmt.last_segment cur s)%string
      /\ all_chars not_dot (Fmt.last_segment cur s) = true
      /\ (prefix = ""%string \/ exists p, prefix = (p ++ ".")%string).
Proof.
  induction s as [|c s IH]; intros cur Hcur; cbn [Fmt.last_segment].
  - exists ""%string. rewrite append_nil_r.
    split; [reflexivity|]. split; [exact Hcur | left; reflexivity].
  - destruct (Ascii.eqb_spec c "."%char) as [->|Hne].
    + destruct (IH ""%string eq_refl) as (prefix & E & Hno & Hp).
      cbn [String.append] in E.
      exists (cur ++ String "." prefix)%string.
      split; [rewrite append_assoc; cbn [String.append]; rewrite <- E; reflexivity|].
      split; [exact Hno|]. right.
      destruct Hp as [->|[p ->]].
      * exists cur. reflexivity.
      * exists (cur ++ String "." p)%string.
        rewrite append_assoc. reflexivity.
    + assert (Hc : not_dot c = true).
      { unfold not_dot, is_dot. apply negb_true_iff.
        destruct (Ascii.eqb_spec c "."%char); [contradiction | reflexivity]. }
      destruct (IH (cur ++ String c "")%string) as (prefix & E & Hno & Hp).
      { rewrite all_chars_app, Hcur. cbn [all_chars]. rewrite Hc. reflexivity. }
      exists prefix. rewrite append_assoc in E. cbn [String.append] in E.
      split; [exact E|]. split; [exact Hno | exact Hp].
Qed.

(** X23: the short name of a model in the text report is the part of the
    model id after its last dot: it contains no dot, the id ends with
    it, and what precedes it is empty (an id without a dot is shown
    unchanged) or ends with a dot. *)
Theorem last_segment_after_last_dot (model_id : string) :
  exists prefix,
    model_id = (prefix ++ Fmt.last_segment "" model_id)%string
    /\ all_chars not_dot (Fmt.last_segment "" model_id) = true
    /\ (prefix = ""%string \/ exists p, prefix = (p ++ ".")%string)
    /\ (all_chars not_dot model_id = true -> Fmt.last_segment "" model_id = model_id).
Proof.
  destruct (last_segment_spec model_id ""%string eq_refl) as (prefix & E & Hno & Hp).
  cbn [String.append] in E.
  exists prefix. split; [exact E|]. split; [exact Hno|]. split; [exact Hp|].
  intros Hid. destruct Hp as [->|[p ->]].
  - cbn [String.append] in E. symmetry. exact E.
  - rewrite E in Hid. rewrite !all_chars_app in Hid. cbn in Hid.
    rewrite andb_false_r in Hid. discriminate Hid.
Qed.

Lemma commas_rev_filter (n : nat) :
  forall ds, (List.length ds <= n)%nat ->
             filter not_comma (Fmt.commas_rev ds) = filter not_comma ds.
Proof.
  induction n as [|n IH]; intros ds Hlen.
  - destruct ds; [reflexivity | cbn in Hlen; lia].
  - destruct ds as [|a [|b [|c [|d rest]]]]; try reflexivity.
    assert (IH' := IH (d :: rest)
                     ltac:(cbn [List.length] in Hlen |- *; lia)).
    change (Fmt.commas_rev (a :: b :: c :: d :: rest))
      with ([a; b; c; ","%char] ++ Fmt.commas_rev (d :: rest))%list.
    change (a :: b :: c :: d :: rest) with ([a; b; c] ++ d :: rest)%list.
    rewrite !filter_app, IH'. reflexivity.
Qed.

Lemma list_ascii_of_string_app (a b : string) :
  list_ascii_of_string (a ++ b)
  = (list_ascii_of_string a ++ list_ascii_of_string b)%list.
Proof.
  induction a as [|c a IH]; cbn; [reflexivity | rewrite IH; reflexivity].
Qed.

Lemma is_digit_not_comma (c : ascii) : Fmt.is_digit c = true -> not_comma c = true.
Proof.
  intros H. unfold not_comma.
  destruct (Ascii.eqb_spec c ","%char) as [->|]; [discriminate H | reflexivity].
Qed.

Lemma filter_digits (s : string) :
  Fmt.all_digits s = true ->
  filter not_comma (list_ascii_of_string s) = list_ascii_of_string s.
Proof.
  induction s as [|c s IH]; cbn [Fmt.all_digits list_ascii_of_string filter];
    [reflexivity|].
  intros H. apply andb_true_iff in H. destruct H as [Hc Hs].
  rewrite (is_digit_not_comma c Hc), (IH Hs). reflexivity.
Qed.

Lemma str_int_all_digits (z : Z) :
  (0 <= z)%Z -> Fmt.all_digits (Fmt.str_int z) = true.
Proof.
  intros Hz. destruct (str_int_nonneg z Hz) as (c & s & E & Hc & Hs & _).
  rewrite E. cbn [Fmt.all_digits]. rewrite Hc, Hs. reflexivity.
Qed.

Lemma str_int_neg (z : Z) :
  (z < 0)%Z -> Fmt.str_int z = String "-" (Fmt.str_int (Z.abs z)).
Proof.
  destruct z as [|p|p]; try lia. intros _.
  unfold Fmt.str_int. cbn [Z.abs Z.to_int NilZero.string_of_int].
  unfold NilZero.string_of_uint.
  destruct (Pos.to_uint p); reflexivity.
Qed.

(** X24: the thousands separators of the text report only decorate: a
    number printed with them, once the commas are taken out, is the
    number as [str] prints it, sign included. *)
Theorem format_commas_without_commas (z : Z) :
  remove_commas (Fmt.format_commas z) = Fmt.str_int z.
Proof.
  unfold remove_commas, Fmt.format_commas.
  rewrite list_ascii_of_string_app, filter_app.
  rewrite list_ascii_of_string_of_list_ascii.
  rewrite <- (rev_involutive (filter not_comma (List.rev _))).
  assert (Hd : Fmt.all_digits (Fmt.str_int (Z.abs z)) = true)
    by (apply str_int_all_digits; lia).
  set (ds := list_ascii_of_string (Fmt.str_int (Z.abs z))).
  assert (Hf : filter not_comma (List.rev (Fmt.commas_rev (List.rev ds))) = ds).
  { rewrite <- (rev_involutive (filter _ _)).
    rewrite <- filter_rev, rev_involutive.
    rewrite (commas_rev_filter (List.length (List.rev ds))) by lia.
    rewrite filter_rev, rev_involutive.
    apply filter_digits. exact Hd. }
  rewrite rev_involutive, Hf. unfold ds.
  destruct (z <? 0)%Z eqn:Hneg.
  - rewrite (str_int_neg z) by lia.
    cbn [list_ascii_of_string filter List.app string_of_list_ascii].
    change (not_comma "-"%char) with true. cbv iota.
    cbn [string_of_list_ascii List.app].
    rewrite string_of_list_ascii_of_string. reflexivity.
  - cbn [list_ascii_of_string filter List.app].
    rewrite string_of_list_ascii_of_string.
    rewrite Z.abs_eq by lia. reflexivity.
Qed.

(** X25: a figure printed with a fixed number of decimals ([n >= 1]),
    read back as a number, is the figure rounded to that many decimals,
    half to even: the text report shows the same rounded values as the
    structured report, for negative values and for values that round to
    zero as well. *)
Theorem format_fixed_reads_back (x : Q) (n : nat) (rest : string) :
  Json.number_end rest = true ->
  exists v,
    Json.parse_number (Fmt.format_fixed x (S n) ++ rest)
    = Some (Json.JFloat v, rest)
    /\ v == round_float x (S n).
Proof.
  intros Hend.
  pose proof (pow10_pos (S n)) as Hp.
  assert (Hp' : (0 < 10 ^ Z.of_nat (S n))%Z) by (apply Z.pow_pos_nonneg; lia).
  unfold Fmt.format_fixed, round_float.
  set (m := round_half_even (x * pow10 (S n))).
  set (p := (10 ^ Z.of_nat (S n))%Z) in *.
  pose proof (Z.div_mod (Z.abs m) p ltac:(lia)) as Hdm.
  pose proof (Z.mod_pos_bound (Z.abs m) p Hp') as Hmod.
  assert (Hdiv : (0 <= Z.abs m / p)%Z) by (apply Z.div_pos; lia).
  assert (Hne : ~ pow10 (S n) == 0) by (intros H0; rewrite H0 in Hp; discriminate).
  assert (Hsum : (Z.abs m / p * 10 ^ Z.of_nat (S n) + Z.abs m mod p)%Z = Z.abs m).
  { fold p. lia. }
  assert (Hval : (inject_Z (Z.abs m / p) + inject_Z (Z.abs m mod p) / pow10 (S n))
                 * Qpower 10 0
                 == inject_Z (Z.abs m) / pow10 (S n)).
  { rewrite fixed_value, Hsum. reflexivity. }
  cbv zeta. rewrite !append_assoc.
  destruct (Qlt_le_dec x 0) as [Hneg|Hpos].
  - eexists. split.
    + exact (parse_number_fixed true (Z.abs m / p) (Z.abs m mod p) n rest
               Hdiv Hmod Hend).
    + cbv beta iota zeta. rewrite Hval.
      assert (Hm : (m <= 0)%Z).
      { change 0%Z with (round_half_even 0). apply round_half_even_mono.
        assert (0 <= - x) by lra. nra. }
      rewrite Z.abs_neq by exact Hm. rewrite inject_Z_opp.
      field. exact Hne.
  - eexists. split.
    + exact (parse_number_fixed false (Z.abs m / p) (Z.abs m mod p) n rest
               Hdiv Hmod Hend).
    + cbv beta iota zeta. rewrite Hval.
      assert (Hm : (0 <= m)%Z).
      { change 0%Z with (round_half_even 0). apply round_half_even_mono. nra. }
      rewrite Z.abs_eq by exact Hm. reflexivity.
Qed.

Lemma format_fixed_reads_back_witness :
  exists v,
    Json.parse_number (Fmt.format_fixed (-(1 # 8)) 2 ++ Fmt.nl)
    = Some (Json.JFloat v, Fmt.nl)
    /\ v == round_float (-(1 # 8)) 2.
Proof.
  apply (format_fixed_reads_back (-(1 # 8)) 1 Fmt.nl). reflexivity.
Defined.

(** ** [config.py] *)

(** X26: loading the configuration from the environment never raises,
    whatever is set.  The role name, the bucket prefix and the topic
    name are overridden by their variable exactly when it is set and not
    empty; the region is [AWS_DEFAULT_REGION] as soon as it is set, the
    empty string included; the account id is never [None]; and the log
    group that the usage report queries cannot be changed from the
    environment. *)
Theorem load_config_from_env_overrides (environ : dict string) :
  exists config,
    Config.load_config_from_env environ = Ok config
    /\ Config.cloudwatch_log_group (Config.storage config)
       = "/aws/bedrock/modelinvocations"
    /\ Config.region (Config.dashboard config)
       = match getitem environ "AWS_DEFAULT_REGION" with
         | Ok v => v
         | Raise _ => "us-east-1"
         end
    /\ Config.account_id (Config.iam config)
       = Some (match getitem environ "AWS_ACCOUNT_ID" with
               | Ok v => v
               | Raise _ => ""
               end)
    /\ Config.role_name (Config.iam config)
       = match getitem environ "BEDROCK_IAM_ROLE_NAME" with
         | Ok (String c s) => String c s
         | _ => "BedrockCloudWatchLoggingRole"
         end
    /\ Config.s3_bucket_prefix (Config.storage config)
       = match getitem environ "BEDROCK_S3_BUCKET_PREFIX" with
         | Ok (String c s) => String c s
         | _ => "bedrock-logs"
         end
    /\ Config.sns_topic_name (Config.alerting config)
       = match getitem environ "BEDROCK_SNS_TOPIC_NAME" with
         | Ok (String c s) => String c s
         | _ => "bedrock-monitoring-alerts"
         end.
Proof.
  unfold Config.load_config_from_env, Config.new_MonitoringConfiguration,
    Config.new_IAMConfig.
  unfold Config.environ_truthy, Config.environ_get_default, Config.environ_get.
  destruct (getitem environ "AWS_ACCOUNT_ID") as [acc|?];
    destruct (getitem environ "AWS_DEFAULT_REGION") as [reg|?];
    destruct (getitem environ "BEDROCK_IAM_ROLE_NAME") as [[|? ?]|?];
    destruct (getitem environ "BEDROCK_S3_BUCKET_PREFIX") as [[|? ?]|?];
    destruct (getitem environ "BEDROCK_SNS_TOPIC_NAME") as [[|? ?]|?];
    cbn [bind]; eexists; (split; [reflexivity|]); repeat split.
Qed.

(** ** The breakdown and the latency figures *)



Lemma max_from_In (xs : list Q) :
  forall best, In (max_from best xs) (best :: xs).
Proof.
  induction xs as [|x xs IH]; intros best; cbn [max_from].
  - left. reflexivity.
  - destruct (IH (if Qlt_le_dec best x then x else best)) as [H|H].
    + rewrite <- H. destruct (Qlt_le_dec best x); [right; left | left]; reflexivity.
    + right. right. exact H.
Qed.

(** X28: the figure reported as p99 latency is no percentile: it is the
    largest total latency among the models with at least one
    invocation, rounded to 3 decimals.  It is therefore the rounded
    total latency of one of these models, and no such model has a larger
    one; without any such model it is the integer 0. *)
Theorem p99_latency_is_largest_total (model_usage : dict ModelUsage) (hours : Z)
    (start_iso end_iso : string) :
  exists r,
    build_report model_usage hours start_iso end_iso = Ok r
    /\ (forall u, In u (values model_usage) -> (invocations u > 0)%Z ->
                  round_float (total_latency u) 3
                  <= to_Q (p99Latency (performance r)))
    /\ ((exists u, In u (values model_usage) /\ (invocations u > 0)%Z
                   /\ p99Latency (performance r)
                      = PyFloat (round_float (total_latency u) 3))
        \/ ((forall u, In u (values model_usage) -> (invocations u <= 0)%Z)
            /\ p99Latency (performance r) = PyInt 0)).
Proof.
  destruct (build_report_eq model_usage hours start_iso end_iso) as (bm & _ & Hr).
  eexists. split; [exact Hr|].
  cbn [performance p99Latency report_of].
  unfold p99_latency_of, latencies_of.
  set (active := filter (fun usage => (invocations usage >? 0)%Z) (values model_usage)).
  assert (Hact : forall u, In u active <->
                           In u (values model_usage) /\ (invocations u > 0)%Z).
  { intros u. unfold active. rewrite filter_In. rewrite Z.gtb_lt. intuition lia. }
  destruct active as [|a rest] eqn:Ea; cbn [map].
  - split.
    + intros u Hin Hpos. exfalso. apply (proj2 (Hact u)). split; assumption.
    + right. split; [|reflexivity].
      intros u Hin. destruct (Z_le_gt_dec (invocations u) 0) as [H|H]; [exact H|].
      exfalso. apply (proj2 (Hact u)). split; assumption.
  - cbn [round to_Q]. split.
    + intros u Hin Hpos. apply round_float_mono.
      destruct (proj2 (Hact u) (conj Hin Hpos)) as [<-|Hrest].
      * apply max_from_ge_best.
      * apply max_from_ge_all. apply in_map. exact Hrest.
    + left.
      pose proof (max_from_In (map total_latency rest) (total_latency a)) as Hmax.
      change (total_latency a :: map total_latency rest)
        with (map total_latency (a :: rest)) in Hmax.
      apply in_map_iff in Hmax. destruct Hmax as (u & Hu & Hin).
      exists u. destruct (proj1 (Hact u) Hin) as [H1 H2].
      split; [exact H1|]. split; [exact H2|]. rewrite Hu. reflexivity.
Qed.
